(** * SmartFactoryAI: the orchestration core, embedded and verified

    A shallow embedding of [src/core/file_tracker.py] (the artifact ledger),
    [src/core/ai_control_system.py] (order store, status registry, task
    processing, worker loop, heartbeat loop) and the decisions of the box,
    folding and final checks of [src/core/task_analyzer.py], with the
    properties the specification states about them.

    Conventions of the embedding.
    - A Python dict used as a map is a [gmap]; a dict whose iteration order
      is observable ([task_statuses]) is an association list.
    - A Python [int] is a [Z].
    - A dict used as a struct with optional string keys (an analysis
      outcome, a metadata dict) is a record of [option] fields: [None] is
      an absent key.
    - A function that may raise returns a [result]; the [try]/[except]
      blocks of the source are the matches on it.
    - What the outside world answers (the analyzer, the HTTP endpoints, the
      clock, which paths exist and which can be opened) is an explicit
      argument.
    - A task request has a string for its START, or none.
    - Calls that leave the process and log records at warning or error level
      are appended to a trace of [event]s; info and debug records are not
      modelled. *)

From Stdlib Require Import ZArith QArith Lia Ascii String.
From stdpp Require Import gmap strings list fin_maps.

Local Open Scope Z_scope.
Local Open Scope string_scope.
Local Open Scope list_scope.

(** ** Values shared by the two modules *)

(** The [details] of an outcome: an error code or message, or the list of
    colours [cover_task_analysis] reports. *)
Inductive details :=
  | DStr (s : string)
  | DList (l : list string).

(** A parsed JSON document (numbers restricted to integers). *)
#[warnings="-register-all"]
Inductive json :=
  | JNull
  | JBool (b : bool)
  | JNum (n : Z)
  | JStr (s : string)
  | JArr (l : list json)
  | JObj (l : list (string * json)).

(** A JSON file on disk, as [os.path.exists], [os.path.getsize] and
    [json.load] see it. *)
Inductive disk_file (A : Type) :=
  | Absent
  | EmptyFile
  | BadJson
  | Stored (a : A).
Arguments Absent {A}.
Arguments EmptyFile {A}.
Arguments BadJson {A}.
Arguments Stored {A} a.

(** An exception: its class and [str(e)]. *)
Record exn := Exn { exn_class : string; exn_str : string }.

Inductive result (A : Type) :=
  | Ok (a : A)
  | Raise (e : exn).
Arguments Ok {A} a.
Arguments Raise {A} e.

(** Records of the loggers at warning and error level, one constructor per
    call site, carrying the interpolated values. *)
Inductive log :=
  | WarnUnknownTaskType (task_type : string)
  | WarnFileDoesNotExist (file_path : string)
  | ErrWebMessage (e : exn)
  | WarnOrderFileEmpty
  | ErrOrderInvalidJson
  | ErrFileNotFound (file_path : string)
  | ErrUploadFailed (code : Z) (text : string)
  | ErrUploading (file_path : string) (e : exn)
  | WarnPingFailed (task_type : string) (code : Z) (text : string)
  | ErrPingWorker (e : exn)
  | ErrTaskAnalysis (e : exn)
  | ErrSendNodeRed (e : exn)
  | ErrGlobalWorker (task_type : string) (e : exn).

(** [os.path.basename]: what follows the last slash. *)
Fixpoint has_sep (s : string) : bool :=
  match s with
  | EmptyString => false
  | String c r => Ascii.eqb c "/"%char || has_sep r
  end.

Fixpoint basename (s : string) : string :=
  match s with
  | EmptyString => EmptyString
  | String _ r => if has_sep s then basename r else s
  end.

(** [d.get(key, default)] once the key was looked up. *)
Definition get {A : Type} (o : option A) (default : A) : A :=
  match o with Some a => a | None => default end.

(** ** file_tracker.py *)

Module FileTracker.

Definition TRACKER_FILE : string := "last_processed_files.json".
Definition MAX_TRACKED_FILES : nat := 4.

Record file_info := FileInfo {
  path : string;
  filename : string;
  timestamp : string;
  status : string;
  task_type : string;
  details_of : details
}.

(** The optional [metadata] dict of [add_file]. *)
Record metadata := Metadata {
  md_timestamp : option string;
  md_status : option string;
  md_details : option details
}.

Abbreviation ledger := (gmap string (list file_info)).

(** A [FileTracker] object together with the tracker file it persists to. *)
Record t := Tracker {
  data : ledger;
  tracker_file : disk_file ledger
}.

(** The dict literal of [__init__]. *)
Definition initial_data : ledger :=
  <["CASE" := []]> (<["BOX" := []]> (<["COVER" := []]>
    (<["FORDING" := []]> (<["FINAL" := []]> ∅)))).

Definition tracked_types : gset string :=
  {["CASE"; "BOX"; "COVER"; "FORDING"; "FINAL"]}.

(** [_save_data]: dump [self.data] to the tracker file. *)
Definition _save_data (s : t) : t :=
  {| data := data s; tracker_file := Stored (data s) |}.

(** [_load_data]: a stored document replaces [self.data] after every key of
    [self.data] it lacks was given an empty list (the union is left-biased:
    keys of the document keep their lists); a file that does not parse
    raises inside the [try] and leaves the object as it was; without a file
    the current data is saved. *)
Definition _load_data (s : t) : t :=
  match tracker_file s with
  | Stored loaded_data =>
      {| data := loaded_data ∪ ((λ _, []) <$> data s);
         tracker_file := tracker_file s |}
  | Absent => _save_data s
  | EmptyFile | BadJson => s
  end.

Definition __init__ (file : disk_file ledger) : t :=
  _load_data {| data := initial_data; tracker_file := file |}.

(** [add_file]; [fs] is the set of paths for which [os.path.exists] holds.
    Returns the tracker and the warnings logged. *)
Definition add_file (fs : gset string) (s : t) (task_type : string)
    (file_path : string) (md : option metadata) : t * list log :=
  match data s !! task_type with
  | None => (s, [WarnUnknownTaskType task_type])
  | Some files =>
      if bool_decide (file_path ∈ fs) then
        let md := get md (Metadata None None None) in
        let file_info :=
          {| path := file_path;
             filename := basename file_path;
             timestamp := get (md_timestamp md) "";
             status := get (md_status md) "UNKNOWN";
             task_type := task_type;
             details_of := get (md_details md) (DStr "") |} in
        let inserted := file_info :: files in
        (_save_data
           {| data := <[task_type := take MAX_TRACKED_FILES inserted]> (data s);
              tracker_file := tracker_file s |}, [])
      else (s, [WarnFileDoesNotExist file_path])
  end.

(** [get_files(task_type)] for a given type, and [get_latest_files] at one
    type. *)
Definition history (s : t) (task_type : string) : list file_info :=
  get (data s !! task_type) [].

Definition latest (s : t) (task_type : string) : option file_info :=
  head (history s task_type).

(** A recorded call and a run of calls. *)
Record call := Call {
  c_type : string;
  c_path : string;
  c_meta : option metadata
}.

Definition add_call (fs : gset string) (s : t) (c : call) : t :=
  (add_file fs s (c_type c) (c_path c) (c_meta c)).1.

Definition add_files (fs : gset string) (s : t) (cs : list call) : t :=
  foldl (add_call fs) s cs.

(** The record a successful call writes. *)
Definition info_of (c : call) : file_info :=
  let md := get (c_meta c) (Metadata None None None) in
  {| path := c_path c;
     filename := basename (c_path c);
     timestamp := get (md_timestamp md) "";
     status := get (md_status md) "UNKNOWN";
     task_type := c_type c;
     details_of := get (md_details md) (DStr "") |}.

(** A call is successful when it passes both guards of [add_file]. *)
Definition successful (fs : gset string) (s : t) (c : call) : bool :=
  bool_decide (is_Some (data s !! c_type c)) && bool_decide (c_path c ∈ fs).

(** The records of the successful calls for one type, newest first. *)
Definition recorded (fs : gset string) (s : t) (cs : list call)
    (task_type : string) : list file_info :=
  reverse (info_of <$>
    filter (λ c, successful fs s c = true ∧ c_type c = task_type) cs).

(** The keys of a tracker file's document. *)
Definition file_keys (file : disk_file ledger) : gset string :=
  match file with
  | Stored loaded_data => dom loaded_data
  | _ => ∅
  end.

(** [get_files]: the list of one type, an empty list for a type that is not
    a key; the whole dict when no type is given or the type is the empty
    string ([if task_type:] is false for both). *)
Definition get_files (s : t) (task_type : option string) : ledger :=
  match task_type with
  | Some ty =>
      if bool_decide (ty = "") then data s
      else match data s !! ty with
           | Some files => {[ty := files]}
           | None => {[ty := []]}
           end
  | None => data s
  end.

(** [get_latest_files]: for every key, the first record of its list, or
    [None] when the list is empty. *)
Definition get_latest_files (s : t) : gmap string (option file_info) :=
  head <$> data s.

End FileTracker.

(** ** ai_control_system.py *)

Module AIControlSystem.

Definition ORDER_DATA_FILE : string := "order_data.json".
Definition PING_API : string := "http://nsu.owon.kr/api/ai/ping".
Definition UPLOAD_API : string := "http://nsu.owon.kr/api/ai/upload".

(** *** Data *)

(** One entry of [task_statuses]: [{"status": ..., "index": ...}]. *)
Record task_status := TaskStatus { status : string; index : Z }.

Abbreviation registry := (list (string * task_status)).

Abbreviation order := (gmap string json).

(** A task request whose [START] is a string, or absent, and the rest of
    the message. The callback of the Node-RED queue puts every JSON object
    on the queue; one whose [START] is not a string is not a value of this
    type. (For a [START] that is a list or an object,
    [task_type in self.task_statuses] raises a [TypeError] at line 236, in
    the [try] of [process_task_analysis] and again in its handler at line
    393.) What follows describes the requests of this type only. *)
Record task_request := TaskRequest {
  START : option string;
  payload : gmap string json
}.

Record task_data := TaskData {
  td_order_data : order;
  td_task_request : task_request
}.

(** The dict an analysis method returns. *)
Record analysis_result := AnalysisResult {
  ar_status : option string;
  ar_confidence : option string;
  ar_details : option details;
  ar_saved_file_path : option string;
  ar_file_uploaded : option bool
}.

Abbreviation analysis_method := (task_data → result analysis_result).

(** The five static methods of [TaskAnalyzer], external to the core. *)
Record TaskAnalyzer := {
  case_task_analysis : analysis_method;
  box_task_analysis : analysis_method;
  cover_task_analysis : analysis_method;
  folding_task_analysis : analysis_method;
  final_check_task_analysis : analysis_method
}.

(** The dict sent to Node-RED. *)
Record task_result := TaskResult {
  NAME : string;
  RESULT : string;
  ORDER_NO : json;
  CONFIDENCE : string;
  DETAILS : details
}.

(** What [requests.post] does: a response, or an exception. *)
Inductive http :=
  | Response (status_code : Z) (text : string)
  | RequestException (e : exn).

Inductive post_body :=
  | PingBody (AI_TASK TIME : string)
  | UploadBody (file_path AI_TASK ORDER_NO : string) (QC_CODE : details)
  | ResultBody (r : task_result).

Inductive event :=
  | Logged (l : log)
  | Called_update_task_status (task_type status : string)
  | Called_analysis (key : string) (td : task_data)
  | Called_add_file (task_type file_path : string) (md : FileTracker.metadata)
  | Called_upload_file (file_path task_type : string) (d : details)
      (order_no : string)
  | Posted (url : string) (body : post_body)
  | Slept (seconds : Z).

(** The answers of the outside world while one task is processed: [fs] is
    the set of paths for which [os.path.exists] holds, [unreadable] the
    exception [os.path.getsize] or [open(file_path, "rb")] raises for a
    path (a directory, a file that may not be read), if one does. *)
Record world := World {
  analyzer : TaskAnalyzer;
  now : string;
  fs : gset string;
  unreadable : string → option exn;
  upload_post : http;
  nodered_endpoint : string;
  nodered_post : http
}.

(** The object's fields, the two files, the module's lock and the trace. *)
Record system := System {
  task_statuses : registry;
  order_file : disk_file order;
  file_tracker : FileTracker.t;
  global_task_lock : bool;
  is_processing : bool;
  trace : list event
}.

Definition set_task_statuses (r : registry) (s : system) : system :=
  System r (order_file s) (file_tracker s) (global_task_lock s)
    (is_processing s) (trace s).
Definition set_order_file (f : disk_file order) (s : system) : system :=
  System (task_statuses s) f (file_tracker s) (global_task_lock s)
    (is_processing s) (trace s).
Definition set_file_tracker (t : FileTracker.t) (s : system) : system :=
  System (task_statuses s) (order_file s) t (global_task_lock s)
    (is_processing s) (trace s).
Definition set_global_task_lock (b : bool) (s : system) : system :=
  System (task_statuses s) (order_file s) (file_tracker s) b
    (is_processing s) (trace s).
Definition set_is_processing (b : bool) (s : system) : system :=
  System (task_statuses s) (order_file s) (file_tracker s)
    (global_task_lock s) b (trace s).
Definition set_trace (tr : list event) (s : system) : system :=
  System (task_statuses s) (order_file s) (file_tracker s)
    (global_task_lock s) (is_processing s) tr.

(** *** State and exceptions *)

Definition M (A : Type) : Type := system → result A * system.

#[global] Instance M_ret : MRet M := λ A a s, (Ok a, s).
#[global] Instance M_bind : MBind M := λ A B f m s,
  match m s with
  | (Ok a, s') => f a s'
  | (Raise e, s') => (Raise e, s')
  end.

Definition raise {A : Type} (e : exn) : M A := λ s, (Raise e, s).

(** [try: body  except Exception as e: handler e]. *)
Definition try_except {A : Type} (body : M A) (handler : exn → M A) : M A :=
  λ s, match body s with
       | (Ok a, s') => (Ok a, s')
       | (Raise e, s') => handler e s'
       end.

Definition modify (f : system → system) : M unit := λ s, (Ok (), f s).

Definition emit (ev : event) : M unit :=
  modify (λ s, set_trace (trace s ++ [ev]) s).

Definition logger (l : log) : M unit := emit (Logged l).

Definition KeyError (key : string) : exn :=
  Exn "KeyError" ("'" +:+ key +:+ "'").

(** [d[key]]. *)
Definition getitem {A : Type} (key : string) (o : option A) : M A :=
  match o with Some a => mret a | None => raise (KeyError key) end.

(** *** __init__ *)

Definition initial_task_statuses : registry :=
  [("CASE", TaskStatus "IDLE" 0);
   ("BOX", TaskStatus "IDLE" 0);
   ("COVER", TaskStatus "IDLE" 0);
   ("FORDING", TaskStatus "IDLE" 0);
   ("FINAL", TaskStatus "IDLE" 0)].

Definition unknown_task : analysis_method :=
  λ _, Ok (AnalysisResult (Some "ERROR") None (Some (DStr "Unknown task"))
             None None).

(** [dict.setdefault]. *)
Definition setdefault {A : Type} (k : string) (v : A) (m : gmap string A)
    : gmap string A :=
  match m !! k with Some _ => m | None => <[k := v]> m end.

Definition task_analysis_map (ta : TaskAnalyzer) : gmap string analysis_method :=
  setdefault "unknown_task" unknown_task
    (<["CASE" := case_task_analysis ta]>
    (<["BOX" := box_task_analysis ta]>
    (<["COVER" := cover_task_analysis ta]>
    (<["FORDING" := folding_task_analysis ta]>
    (<["FINAL" := final_check_task_analysis ta]> ∅))))).

(** [_ensure_order_data_file_exists]. *)
Definition _ensure_order_data_file_exists (f : disk_file order) : disk_file order :=
  match f with Absent => Stored ∅ | _ => f end.

(** The object after [__init__], given the two files found on disk. *)
Definition __init__ (orders : disk_file order)
    (tracker : disk_file FileTracker.ledger) : system :=
  {| task_statuses := initial_task_statuses;
     order_file := _ensure_order_data_file_exists orders;
     file_tracker := FileTracker.__init__ tracker;
     global_task_lock := false;
     is_processing := false;
     trace := [] |}.

(** *** The order store *)

Definition required_fields : list string :=
  ["ORDER_NO"; "ITEM_CD"; "ITEM_NM"; "ITEM_CLASS"; "BOM"; "RECIPE"].

Definition missing (message_data : order) (field : string) : bool :=
  match message_data !! field with None => true | Some _ => false end.

(** The validation loop: the first required field that is missing raises. *)
Fixpoint validate (message_data : order) (fields : list string) : M unit :=
  match fields with
  | [] => mret ()
  | field :: rest =>
      if missing message_data field
      then raise (Exn "ValueError" ("Missing required field: " +:+ field))
      else validate message_data rest
  end.

(** [len(x)] on a JSON value. *)
Definition len (j : json) : M Z :=
  match j with
  | JStr s => mret (Z.of_nat (String.length s))
  | JArr l => mret (Z.of_nat (length l))
  | JObj l => mret (Z.of_nat (length l))
  | JNull => raise (Exn "TypeError" "object of type 'NoneType' has no len()")
  | JBool _ => raise (Exn "TypeError" "object of type 'bool' has no len()")
  | JNum _ => raise (Exn "TypeError" "object of type 'int' has no len()")
  end.

Definition write_order_file (message_data : order) : M unit :=
  modify (set_order_file (Stored message_data)).

Definition process_web_message (message_data : order) : M unit :=
  try_except
    (validate message_data required_fields;;
     write_order_file message_data;;
     _ ← getitem "ORDER_NO" (message_data !! "ORDER_NO");
     _ ← getitem "ITEM_NM" (message_data !! "ITEM_NM");
     _ ← getitem "ITEM_CLASS" (message_data !! "ITEM_CLASS");
     bom ← getitem "BOM" (message_data !! "BOM");
     _ ← len bom;
     recipe ← getitem "RECIPE" (message_data !! "RECIPE");
     _ ← len recipe;
     mret ())
    (λ e, logger (ErrWebMessage e);; raise e).

Definition get_current_order_data : M order :=
  λ s, match order_file s with
       | Stored d => (Ok d, s)
       | Absent | EmptyFile => (logger WarnOrderFileEmpty;; mret ∅) s
       | BadJson => (logger ErrOrderInvalidJson;; mret ∅) s
       end.

(** *** The status registry *)

Definition set_status (task_type status : string)
    (entry : string * task_status) : string * task_status :=
  if bool_decide (entry.1 = task_type)
  then (entry.1, TaskStatus status (index entry.2 + 1))
  else entry.

(** [update_task_status] on the dict, for a task type that is a string:
    nothing happens for a key the dict does not have. *)
Definition update_statuses (reg : registry) (task_type status : string)
    : registry :=
  set_status task_type status <$> reg.

Definition update_task_status (task_type status : string) : M unit :=
  emit (Called_update_task_status task_type status);;
  modify (λ s, set_task_statuses
                 (update_statuses (task_statuses s) task_type status) s).

(** [self.task_statuses[task_type]]. *)
Fixpoint lookup_status (reg : registry) (task_type : string)
    : option task_status :=
  match reg with
  | [] => None
  | (k, st) :: rest =>
      if bool_decide (k = task_type) then Some st
      else lookup_status rest task_type
  end.

Definition revision (reg : registry) (task_type : string) : option Z :=
  index <$> lookup_status reg task_type.

(** *** Upload, task processing, delivery *)

Definition py_str_eq (a b : string) : bool := bool_decide (a = b).

(** [upload_file]: every exception inside is caught and answered [False],
    that of [os.path.getsize] or [open] for a path that cannot be read as
    well as that of [requests.post]. *)
Definition upload_file (w : world) (file_path task_type : string)
    (d : details) (order_no : string) : M bool :=
  emit (Called_upload_file file_path task_type d order_no);;
  try_except
    (if bool_decide (file_path ∈ fs w) then
       match unreadable w file_path with
       | Some e => raise e
       | None =>
           emit (Posted UPLOAD_API
                   (UploadBody file_path task_type order_no d));;
           match upload_post w with
           | Response code text =>
               if bool_decide (code = 200) then mret true
               else logger (ErrUploadFailed code text);; mret false
           | RequestException e => raise e
           end
       end
     else logger (ErrFileNotFound file_path);; mret false)
    (λ e, logger (ErrUploading file_path e);; mret false).

(** [file_tracker.add_file], on the singleton the system holds. *)
Definition add_file (w : world) (task_type file_path : string)
    (md : FileTracker.metadata) : M unit :=
  emit (Called_add_file task_type file_path md);;
  modify (λ s,
    let '(t, logs) :=
      FileTracker.add_file (fs w) (file_tracker s) task_type file_path
        (Some md) in
    set_trace (trace s ++ (Logged <$> logs)) (set_file_tracker t s)).

Definition task_name_of (r : task_request) : string :=
  get (START r) "UNKNOWN_TASK".

(** The truth value of [analysis_result["saved_file_path"]] given that the
    key is present. *)
Definition truthy (s : string) : bool := negb (py_str_eq s "").

(** The [file_metadata] dict of line 364. *)
Definition file_metadata (w : world) (ar : analysis_result)
    : FileTracker.metadata :=
  FileTracker.Metadata (Some (now w))
    (Some (get (ar_status ar) "UNKNOWN"))
    (Some (get (ar_details ar) (DStr ""))).

(** Lines 362-372: record the saved file, upload it when the status is
    [NG]. *)
Definition record_and_upload (w : world) (task_name : string)
    (ar : analysis_result) : M analysis_result :=
  match ar_saved_file_path ar with
  | Some saved_file_path =>
      if truthy saved_file_path then
        add_file w task_name saved_file_path (file_metadata w ar);;
        st ← getitem "status" (ar_status ar);
        if py_str_eq st "NG" then
          d ← getitem "details" (ar_details ar);
          upload_success ← upload_file w saved_file_path task_name d "UNKNOWN";
          mret (AnalysisResult (ar_status ar) (ar_confidence ar)
                  (ar_details ar) (ar_saved_file_path ar)
                  (Some upload_success))
        else mret ar
      else mret ar
  | None => mret ar
  end.

(** Lines 374-380, with the default of [RESULT] as it is written. *)
Definition build_result (task_name : string) (order_data : order)
    (ar : analysis_result) : task_result :=
  {| NAME := task_name;
     RESULT := get (ar_status ar)
                 (if bool_decide (ar_status ar = Some "COMPLETED")
                  then "OK" else "ERROR");
     ORDER_NO := get (order_data !! "ORDER_NO") (JStr "UNKNOWN");
     CONFIDENCE := get (ar_confidence ar) "0%";
     DETAILS := get (ar_details ar) (DStr "No details available") |}.

Definition error_result (task_name : string) (e : exn) : task_result :=
  {| NAME := task_name;
     RESULT := "ERROR";
     ORDER_NO := JStr "UNKNOWN";
     CONFIDENCE := "0%";
     DETAILS := DStr ("Error: " +:+ exn_str e) |}.

(** The method [task_analysis_map.get(task_name, task_analysis_map["unknown_task"])]
    picks, and the key it was found under. *)
Definition select_method (ta : TaskAnalyzer) (task_name : string)
    : M (string * analysis_method) :=
  fallback ← getitem "unknown_task" (task_analysis_map ta !! "unknown_task");
  match task_analysis_map ta !! task_name with
  | Some f => mret (task_name, f)
  | None => mret ("unknown_task", fallback)
  end.

Definition call_analysis (key : string) (f : analysis_method)
    (td : task_data) : M analysis_result :=
  emit (Called_analysis key td);;
  match f td with
  | Ok ar => mret ar
  | Raise e => raise e
  end.

Definition process_task_analysis (w : world) (task_request : task_request)
    : M task_result :=
  let task_name := task_name_of task_request in
  try_except
    (update_task_status task_name "RUNNING";;
     '(key, analysis_method) ← select_method (analyzer w) task_name;
     order_data ← get_current_order_data;
     let task_data := TaskData order_data task_request in
     analysis_result ← call_analysis key analysis_method task_data;
     analysis_result ← record_and_upload w task_name analysis_result;
     let result := build_result task_name order_data analysis_result in
     (if py_str_eq (RESULT result) "OK"
      then update_task_status task_name "COMPLETED"
      else update_task_status task_name "ERROR");;
     mret result)
    (λ e,
       update_task_status task_name "ERROR";;
       logger (ErrTaskAnalysis e);;
       mret (error_result task_name e)).

(** [response.raise_for_status()] raises on 4xx and 5xx; the message of the
    [HTTPError] is stood for by the text of the response. *)
Definition send_result_to_node_red (w : world) (r : task_result) : M unit :=
  emit (Posted (nodered_endpoint w) (ResultBody r));;
  match nodered_post w with
  | Response code text =>
      if bool_decide (400 ≤ code < 600) then
        let e := Exn "HTTPError" text in
        logger (ErrSendNodeRed e);; raise e
      else mret ()
  | RequestException e => logger (ErrSendNodeRed e);; raise e
  end.

(** *** The worker loop *)

(** [with global_task_lock: body], entered with the lock free: the lock is
    held while the body runs and released however the body ends. *)
Definition with_global_task_lock {A : Type} (body : M A) : M A :=
  λ s, let '(r, s') := body (set_global_task_lock true s) in
       (r, set_global_task_lock false s').

(** [try: body  finally: final]. *)
Definition try_finally {A : Type} (body : M A) (final : M unit) : M A :=
  λ s, let '(r, s') := body s in
       match final s' with
       | (Ok _, s'') => (r, s'')
       | (Raise e, s'') => (Raise e, s'')
       end.

(** One turn of the [while True] of [global_task_worker], for the request
    taken from the queue. A thread that finds the lock held waits: no
    result. *)
Definition global_task_worker_turn (w : world) (task_request : task_request)
    (s : system) : option (result unit * system) :=
  if global_task_lock s then None
  else Some (
    try_finally
      (try_except
         (with_global_task_lock
            (modify (set_is_processing true);;
             result ← process_task_analysis w task_request;
             send_result_to_node_red w result))
         (λ e,
            let task_type := task_name_of task_request in
            logger (ErrGlobalWorker task_type e);;
            update_task_status task_type "ERROR"))
      (modify (set_is_processing false)) s).

(** The loop over the requests the queue delivers, in order, each with the
    world it meets. An exception that leaves a turn ends the thread. *)
Fixpoint global_task_worker (queue : list (world * task_request)) (s : system)
    : option (result unit * system) :=
  match queue with
  | [] => Some (Ok (), s)
  | (w, task_request) :: rest =>
      match global_task_worker_turn w task_request s with
      | None => None
      | Some (Ok _, s') => global_task_worker rest s'
      | Some (Raise e, s') => Some (Raise e, s')
      end
  end.

(** *** The heartbeat loop *)

(** The [for] of [ping_status_worker] over the items of [task_statuses];
    [ping_post] is what the endpoint answers for each task type. *)
Fixpoint ping_each (ping_post : string → http) (current_time : string)
    (items : registry) : M unit :=
  match items with
  | [] => mret ()
  | (task_type, status_info) :: rest =>
      emit (Posted PING_API (PingBody task_type current_time));;
      match ping_post task_type with
      | Response code text =>
          (if bool_decide (code = 200) then mret ()
           else logger (WarnPingFailed task_type code text));;
          ping_each ping_post current_time rest
      | RequestException e => raise e
      end
  end.

(** One turn of the [while True]: the [try] around the whole [for], then
    the sleep. *)
Definition ping_cycle (current_time : string) (ping_post : string → http)
    : M unit :=
  try_except
    ((λ s, ping_each ping_post current_time (task_statuses s) s) : M unit)
    (λ e, logger (ErrPingWorker e));;
  emit (Slept 60).

(** The loop, for the dates and answers of its successive turns. *)
Fixpoint ping_status_worker (cycles : list (string * (string → http)))
    : M unit :=
  match cycles with
  | [] => mret ()
  | (current_time, ping_post) :: rest =>
      ping_cycle current_time ping_post;;
      ping_status_worker rest
  end.

(** The task types a heartbeat was posted for, in a trace. *)
Definition pinged (tr : list event) : list string :=
  omap (λ ev, match ev with
              | Posted _ (PingBody task_type _) => Some task_type
              | _ => None
              end) tr.

(** The sleeps of a trace. *)
Definition slept (tr : list event) : list Z :=
  omap (λ ev, match ev with Slept seconds => Some seconds | _ => None end) tr.

(** A run of status transitions, as the calls [update_task_status] gets. *)
Fixpoint transitions (calls : list (string * string)) : M unit :=
  match calls with
  | [] => mret ()
  | (task_type, status) :: rest =>
      update_task_status task_type status;; transitions rest
  end.

(** The number of calls for one task type. *)
Definition calls_for (task_type : string) (calls : list (string * string))
    : nat :=
  length (filter (λ c, c.1 = task_type) calls).

Definition known_types : list string := initial_task_statuses.*1.

(** *** Vocabulary of the statements *)

(** The method [process_task_analysis] runs for a task name. *)
Definition selected (ta : TaskAnalyzer) (task_name : string) : analysis_method :=
  get (task_analysis_map ta !! task_name) unknown_task.

(** What [get_current_order_data] returns and logs for a state of the order
    file. *)
Definition order_data_of (f : disk_file order) : order :=
  match f with Stored d => d | _ => ∅ end.

Definition order_logs (f : disk_file order) : list event :=
  match f with
  | Stored _ => []
  | Absent | EmptyFile => [Logged WarnOrderFileEmpty]
  | BadJson => [Logged ErrOrderInvalidJson]
  end.

(** The calls of [upload_file] in a trace: path and task type. *)
Definition uploads (tr : list event) : list (string * string) :=
  omap (λ ev, match ev with
              | Called_upload_file file_path task_type _ _ =>
                  Some (file_path, task_type)
              | _ => None
              end) tr.

(** The exception [send_result_to_node_red] raises, if it does. *)
Definition delivery_failure (w : world) : option exn :=
  match nodered_post w with
  | Response code text =>
      if bool_decide (400 ≤ code < 600) then Some (Exn "HTTPError" text)
      else None
  | RequestException e => Some e
  end.

(** The state a turn of the worker leaves, from the state [s1] task
    processing left and its result. *)
Definition after_delivery (w : world) (task_name : string)
    (res : task_result) (s1 : system) : system :=
  match delivery_failure w with
  | None =>
      set_is_processing false
        (set_global_task_lock false
           (set_trace
              (trace s1 ++ [Posted (nodered_endpoint w) (ResultBody res)])
              s1))
  | Some e =>
      set_is_processing false
        (set_task_statuses
           (update_statuses (task_statuses s1) task_name "ERROR")
           (set_trace
              (trace s1 ++
                 [Posted (nodered_endpoint w) (ResultBody res);
                  Logged (ErrSendNodeRed e);
                  Logged (ErrGlobalWorker task_name e);
                  Called_update_task_status task_name "ERROR"])
              (set_global_task_lock false s1)))
  end.

(** The result of a task of unknown type, for the order data read. *)
Definition unknown_task_result (task_name : string) (order_data : order)
    : task_result :=
  {| NAME := task_name;
     RESULT := "ERROR";
     ORDER_NO := get (order_data !! "ORDER_NO") (JStr "UNKNOWN");
     CONFIDENCE := "0%";
     DETAILS := DStr "Unknown task" |}.

(** The task types the [for] of a heartbeat cycle reaches: every item up to
    and including the first whose post raises. *)
Fixpoint attempted (ping_post : string → http) (items : registry)
    : list string :=
  match items with
  | [] => []
  | (task_type, _) :: rest =>
      task_type ::
        match ping_post task_type with
        | Response _ _ => attempted ping_post rest
        | RequestException _ => []
        end
  end.

(** A post that got a response, of whatever status code. *)
Definition responds (answer : http) : bool :=
  match answer with Response _ _ => true | RequestException _ => false end.

(** The exception that ends the [for], if one does. *)
Fixpoint first_failure (ping_post : string → http) (items : registry)
    : option exn :=
  match items with
  | [] => None
  | (task_type, _) :: rest =>
      match ping_post task_type with
      | Response _ _ => first_failure ping_post rest
      | RequestException e => Some e
      end
  end.

(** The warnings of the heartbeat in a trace: the task type, the status
    code and the text of each. *)
Definition ping_warnings (tr : list event) : list (string * Z * string) :=
  omap (λ ev, match ev with
              | Logged (WarnPingFailed task_type code text) =>
                  Some (task_type, code, text)
              | _ => None
              end) tr.

(** Among the posts for some task types, those answered with a status
    other than 200. *)
Definition refused (ping_post : string → http) (task_types : list string)
    : list (string * Z * string) :=
  omap (λ task_type,
          match ping_post task_type with
          | Response code text =>
              if bool_decide (code = 200) then None
              else Some (task_type, code, text)
          | RequestException _ => None
          end) task_types.

(** The revision of a task type after a run of transitions from the state
    [__init__] leaves. *)
Definition revision_after (calls : list (string * string))
    (task_type : string) : option Z :=
  revision
    (task_statuses (transitions calls (__init__ Absent Absent)).2) task_type.

(** [wp m Q s]: run from [s], [m] ends in a result and a state that
    satisfy [Q]. *)
Definition wp {A : Type} (m : M A) (Q : result A → system → Prop)
    (s : system) : Prop :=
  Q (m s).1 (m s).2.
Arguments wp : simpl never.
Arguments build_result : simpl never.
Arguments update_statuses : simpl never.

(** *** The consumer callbacks of [consume_messages] *)

(** What a callback tells the broker. *)
Inductive delivery :=
  | Ack
  | Nack (requeue : bool).

(** The dict [json.loads] builds from an object: for a repeated key the
    last value is kept. *)
Definition to_dict (l : list (string * json)) : order :=
  list_to_map (reverse l).

(** [web_data['ORDER_NO']], on whatever [json.loads] returned. *)
Definition subscript (j : json) (key : string) : M json :=
  match j with
  | JObj l => getitem key (to_dict l !! key)
  | JArr _ =>
      raise (Exn "TypeError" "list indices must be integers or slices, not str")
  | JStr _ => raise (Exn "TypeError" "string indices must be integers")
  | JNull => raise (Exn "TypeError" "'NoneType' object is not subscriptable")
  | JBool _ => raise (Exn "TypeError" "'bool' object is not subscriptable")
  | JNum _ => raise (Exn "TypeError" "'int' object is not subscriptable")
  end.

(** [web_to_ai_callback]; [body] is what [json.loads] makes of the message,
    [None] when it raises. *)
Definition web_to_ai_callback (body : option json) (s : system)
    : delivery * system :=
  let run : M unit :=
    web_data ← match body with
               | Some j => mret j
               | None => raise (Exn "JSONDecodeError" "Expecting value")
               end;
    _ ← subscript web_data "ORDER_NO";
    match web_data with
    | JObj l => process_web_message (to_dict l)
    | _ => mret ()
    end in
  match run s with
  | (Ok _, s') => (Ack, s')
  | (Raise e, s') => (Nack false, (logger (ErrWebMessage e) s').2)
  end.

(** A value [len] accepts. *)
Definition sized (j : json) : bool :=
  match j with JStr _ | JArr _ | JObj _ => true | _ => false end.

(** An order message with the six required fields. *)
Definition all_present (message_data : order) : bool :=
  forallb (λ field, negb (missing message_data field)) required_fields.

(** An order message that [process_web_message] takes to the end: the six
    fields present, BOM and RECIPE sized. *)
Definition well_formed (message_data : order) : bool :=
  all_present message_data
  && match message_data !! "BOM" with Some j => sized j | None => false end
  && match message_data !! "RECIPE" with Some j => sized j | None => false end.

(** The key whose lookup raises in lines 362-372, if one does. *)
Definition key_error (ar : analysis_result) : option string :=
  match ar_saved_file_path ar with
  | Some p =>
      if truthy p then
        match ar_status ar with
        | None => Some "status"
        | Some st =>
            if py_str_eq st "NG" then
              match ar_details ar with
              | None => Some "details"
              | Some _ => None
              end
            else None
        end
      else None
  | None => None
  end.

(** The names of the results posted to the sink, in order. *)
Definition delivered (tr : list event) : list string :=
  omap (λ ev, match ev with
              | Posted _ (ResultBody r) => Some (NAME r)
              | _ => None
              end) tr.

(** The saved file an outcome carries: the [saved_file_path] when the key
    is there and the string is not empty. *)
Definition artifact (ar : analysis_result) : option string :=
  match ar_saved_file_path ar with
  | Some p => if truthy p then Some p else None
  | None => None
  end.

(** What the analysis method run for a request returns, on the order data
    read from the order file. *)
Definition outcome (w : world) (req : task_request) (s : system)
    : result analysis_result :=
  selected (analyzer w) (task_name_of req)
    (TaskData (order_data_of (order_file s)) req).

(** The result of task processing, by what the analysis method did. *)
Definition result_of (w : world) (req : task_request) (s : system)
    : task_result :=
  match outcome w req s with
  | Raise e => error_result (task_name_of req) e
  | Ok ar =>
      match key_error ar with
      | Some key => error_result (task_name_of req) (KeyError key)
      | None =>
          build_result (task_name_of req) (order_data_of (order_file s)) ar
      end
  end.

(** The tracker task processing leaves. *)
Definition tracker_of (w : world) (req : task_request) (s : system)
    : FileTracker.t :=
  match outcome w req s with
  | Ok ar =>
      match artifact ar with
      | Some p =>
          (FileTracker.add_file (fs w) (file_tracker s) (task_name_of req) p
             (Some (file_metadata w ar))).1
      | None => file_tracker s
      end
  | Raise _ => file_tracker s
  end.

(** The uploads task processing makes. *)
Definition uploads_of (w : world) (req : task_request) (s : system)
    : list (string * string) :=
  match outcome w req s with
  | Ok ar =>
      match artifact ar, ar_status ar, ar_details ar with
      | Some p, Some st, Some _ =>
          if py_str_eq st "NG" then [(p, task_name_of req)] else []
      | _, _, _ => []
      end
  | Raise _ => []
  end.

(** The registry task processing leaves. *)
Definition statuses_of (w : world) (req : task_request) (s : system)
    : registry :=
  update_statuses
    (update_statuses (task_statuses s) (task_name_of req) "RUNNING")
    (task_name_of req)
    (if py_str_eq (RESULT (result_of w req s)) "OK" then "COMPLETED"
     else "ERROR").

End AIControlSystem.

(** ** task_analyzer.py

    The decisions of the analysis methods, on what the camera, the decoders
    and the detection model deliver: each external call is an argument that
    says whether the call raised and what it returned. *)

Module Analyzers.

Import AIControlSystem.

(** What [_init_camera] returns: [(None, None)] when the camera does not
    open, else the camera with the order data, [None] without an order
    file. *)
Inductive camera_init :=
  | NoCamera
  | Camera (current_order_data : option order).

(** [_init_camera]: the order file is read with [json.load], outside any
    [try]. *)
Definition _init_camera (camera_opened : bool) (f : disk_file order)
    : result camera_init :=
  if camera_opened then
    match f with
    | Stored d => Ok (Camera (Some d))
    | Absent => Ok (Camera None)
    | EmptyFile | BadJson => Raise (Exn "JSONDecodeError" "Expecting value")
    end
  else Ok NoCamera.

(** [a > b] on two channel averages. *)
Definition gt (a b : Q) : bool := negb (Qle_bool a b).

(** [_detect_dominant_color], on the averages of the three channels. *)
Definition _detect_dominant_color (blue_avg green_avg red_avg : Q) : string :=
  if gt green_avg red_avg && gt green_avg blue_avg then "green"
  else if gt red_avg green_avg && gt red_avg blue_avg then "red"
  else if gt blue_avg red_avg && gt blue_avg green_avg then "blue"
  else "no_color".

(** [current_order_data["BOM"][i]["ITEM_NM"]]; [None] when one of the
    three lookups raises. *)
Definition item_nm (current_order_data : option order) (i : nat)
    : option json :=
  match current_order_data with
  | Some d =>
      match d !! "BOM" with
      | Some (JArr l) =>
          match l !! i with
          | Some (JObj fields) => to_dict fields !! "ITEM_NM"
          | _ => None
          end
      | _ => None
      end
  | None => None
  end.

(** *** box_task_analysis *)

(** A frame of the box camera: whether [cv2.resize] followed by
    [save_frame], and [_read_qr_code], raised and what they returned, the
    text [_perform_ocr] found, the channel averages. *)
Record box_frame := BoxFrame {
  bf_saved_frame_path : result string;
  bf_qr_text : result (option string);
  bf_ocr_text : option string;
  bf_blue_avg : Q;
  bf_green_avg : Q;
  bf_red_avg : Q
}.

(** The box station: the camera, and what [camera.read()] does: raise,
    return no frame, return a frame. *)
Record box_scene := BoxScene {
  box_camera_opened : bool;
  box_read : result (option box_frame)
}.

Definition ocr_text_map : gmap string string :=
  {["BIG BOX" := "대형"; "MIDDLE BOX" := "중형"]}.

Definition color_map : gmap string string :=
  {["BIG BOX" := "red"; "MIDDLE BOX" := "blue"]}.

Definition box_default : analysis_result :=
  AnalysisResult (Some "NG") (Some "0%") (Some (DStr "Q014")) None None.

Definition verdict (status confidence code : string)
    (saved_file_path : option string) : analysis_result :=
  AnalysisResult (Some status) (Some confidence) (Some (DStr code))
    saved_file_path None.

(** [box_task_analysis]; [lower] is [str.lower]. An exception inside the
    [try] is logged and the result is returned as it stands. *)
Definition box_task_analysis (lower : string → string) (f : disk_file order)
    (scene : box_scene) : result analysis_result :=
  match _init_camera (box_camera_opened scene) f with
  | Raise e => Raise e
  | Ok NoCamera => Ok box_default
  | Ok (Camera current_order_data) =>
      match box_read scene with
      | Raise _ | Ok None => Ok box_default
      | Ok (Some frame) =>
          match bf_saved_frame_path frame with
          | Raise _ => Ok box_default
          | Ok saved_frame_path =>
              let result := verdict "NG" "0%" "Q014" (Some saved_frame_path) in
              match bf_qr_text frame with
              | Raise _ => Ok result
              | Ok qr_text =>
                  let ocr_text := bf_ocr_text frame in
                  let box_color :=
                    _detect_dominant_color (bf_blue_avg frame)
                      (bf_green_avg frame) (bf_red_avg frame) in
                  match item_nm current_order_data 1 with
                  | None => Ok result
                  | Some box_type =>
                      if py_str_eq box_color "no_color" then
                        Ok (verdict "NG" "0%" "Q014" (Some saved_frame_path))
                      else
                        match qr_text, box_type with
                        | Some qr_text, JStr box_type =>
                            if negb (py_str_eq (lower qr_text) (lower box_type))
                            then Ok (verdict "NG" "0%" "Q012"
                                       (Some saved_frame_path))
                            else
                              match ocr_text_map !! box_type with
                              | None => Ok result
                              | Some expected =>
                                  if negb (bool_decide
                                             (ocr_text = Some expected))
                                  then Ok (verdict "NG" "0%" "Q013"
                                             (Some saved_frame_path))
                                  else
                                    match color_map !! box_type with
                                    | None => Ok result
                                    | Some color =>
                                        if negb (py_str_eq box_color color)
                                        then Ok (verdict "NG" "0%" "Q011"
                                                   (Some saved_frame_path))
                                        else Ok (verdict "OK" "95%" "OK"
                                                   (Some saved_frame_path))
                                    end
                              end
                        | _, _ => Ok result
                        end
                  end
              end
          end
      end
  end.

(** *** folding_task_analysis and final_check_task_analysis *)

(** What the detection model found in the frame: no box, or the class name
    of the first box and its confidence as it is formatted, when reading it
    does not raise. *)
Inductive detection :=
  | NoBoxes
  | Box (class_name : string) (confidence : result string).

(** A frame of the folding camera: [save_frame], then the inference up to
    the class name (an empty list of results raises as well). *)
Record folding_frame := FoldingFrame {
  ff_saved_frame_path : result string;
  ff_inference : result detection
}.

(** The folding station: the camera, [YOLO(model_path)] (raising, or the
    truth value of the model), [camera.read()]. *)
Record folding_scene := FoldingScene {
  fold_camera_opened : bool;
  fold_model : result bool;
  fold_read : result (option folding_frame)
}.

Definition folding_default : analysis_result :=
  AnalysisResult (Some "NG") (Some "0%") (Some (DStr "Q034")) None None.

(** [folding_task_analysis]: what it returns or raises, and the value it
    leaves in [TaskAnalyzer.__folding_value], which it first resets. *)
Definition folding_task_analysis (f : disk_file order)
    (scene : folding_scene) : result analysis_result * option string :=
  match _init_camera (fold_camera_opened scene) f with
  | Raise e => (Raise e, None)
  | Ok NoCamera => (Ok folding_default, None)
  | Ok (Camera _) =>
      match fold_model scene with
      | Raise _ | Ok false => (Ok folding_default, None)
      | Ok true =>
          match fold_read scene with
          | Raise _ | Ok None => (Ok folding_default, None)
          | Ok (Some frame) =>
              match ff_saved_frame_path frame with
              | Raise _ => (Ok folding_default, None)
              | Ok saved_frame_path =>
                  match ff_inference frame with
                  | Raise _ =>
                      (Ok (verdict "NG" "0%" "Q034" (Some saved_frame_path)),
                       None)
                  | Ok (Box class_name confidence) =>
                      if py_str_eq class_name "OK" then
                        match confidence with
                        | Ok confidence =>
                            (Ok (verdict "OK" confidence "OK"
                                   (Some saved_frame_path)), None)
                        | Raise _ =>
                            (Ok (verdict "NG" "0%" "Q034"
                                   (Some saved_frame_path)), None)
                        end
                      else
                        (Ok (verdict "NG" "0%" "NG" (Some saved_frame_path)),
                         Some "NG")
                  | Ok NoBoxes =>
                      (Ok (verdict "NG" "0%" "Q034" (Some saved_frame_path)),
                       Some "NG")
                  end
              end
          end
      end
  end.

(** The robot station: the camera, and [camera.read()] followed by
    [save_frame]. *)
Record final_scene := FinalScene {
  final_camera_opened : bool;
  final_read : result (option (result string))
}.

(** [final_check_task_analysis], given [TaskAnalyzer.__folding_value]. *)
Definition final_check_task_analysis (folding_value : option string)
    (f : disk_file order) (scene : final_scene) : result analysis_result :=
  match _init_camera (final_camera_opened scene) f with
  | Raise e => Raise e
  | Ok NoCamera => Ok (verdict "NG" "0%" "Failed to initialize camera 1" None)
  | Ok (Camera _) =>
      match final_read scene with
      | Raise e | Ok (Some (Raise e)) =>
          Ok (verdict "NG" "0%" ("Error during final check: " +:+ exn_str e)
                None)
      | Ok None => Ok (verdict "NG" "0%" "Failed to capture frame" None)
      | Ok (Some (Ok saved_frame_path)) =>
          match folding_value with
          | Some _ => Ok (verdict "OK" "96%" "OK" (Some saved_frame_path))
          | None => Ok (verdict "NG" "0%" "NG" (Some saved_frame_path))
          end
      end
  end.

(** [TaskAnalyzer] with the three methods above: they read the order file
    themselves, and the final check reads the value the last folding check
    left. [case] and [cover] are the two other methods. *)
Definition methods (lower : string → string) (f : disk_file order)
    (box : box_scene) (folding : folding_scene) (robot : final_scene)
    (folding_value : option string) (case cover : analysis_method)
    : TaskAnalyzer :=
  {| AIControlSystem.case_task_analysis := case;
     AIControlSystem.box_task_analysis := λ _, box_task_analysis lower f box;
     AIControlSystem.cover_task_analysis := cover;
     AIControlSystem.folding_task_analysis :=
       λ _, (folding_task_analysis f folding).1;
     AIControlSystem.final_check_task_analysis :=
       λ _, final_check_task_analysis folding_value f robot |}.

(** The camera of the station a task type is checked at. *)
Definition camera_of (box : box_scene) (folding : folding_scene)
    (robot : final_scene) (task_type : string) : option bool :=
  if py_str_eq task_type "BOX" then Some (box_camera_opened box)
  else if py_str_eq task_type "FORDING" then Some (fold_camera_opened folding)
  else if py_str_eq task_type "FINAL" then Some (final_camera_opened robot)
  else None.

End Analyzers.

(** ** Threads: producers, workers and the global lock

    The interleavings of the callbacks that put requests on
    [global_processing_queue] with threads that run [global_task_worker].
    [start_worker_threads] starts one such thread; the model takes any
    number of them, all contending for the one [global_task_lock]. The
    requests are those of [task_request], with a string for [START] or
    none: for them no exception leaves a turn of the loop, so that a thread
    never ends. *)

Module Dispatcher.

Import AIControlSystem.

(** Where a thread stands in [global_task_worker]. *)
Inductive pc :=
  | AtGet
      (* at [global_processing_queue.get()] *)
  | AtAcquire (r : task_request)
      (* at [with global_task_lock:], not yet holding it *)
  | InLock (r : task_request)
      (* holding the lock, up to the call of the analysis method *)
  | InAnalysis (r : task_request)
      (* inside the analysis method *)
  | AfterAnalysis (r : task_request)
      (* the method returned or raised; the rest of the [with] block *)
  | AtFinally (r : task_request).
      (* the lock released; the [except] and [finally] clauses *)

Record state := State {
  queue : list task_request;
  lock : bool;
  workers : list pc
}.

(** What the scheduler picks: a producer puts a request, or worker [w]
    runs up to its next point. *)
Inductive action :=
  | Put (r : task_request)
  | Run (w : nat).

(** The two ends of an invocation of the analysis method. *)
Inductive obs :=
  | Started (w : nat)
  | Finished (w : nat).

Definition set_pc (w : nat) (p : pc) (s : state) : list pc :=
  <[w := p]> (workers s).

(** One step; [None] when the action cannot run (no such thread, an empty
    queue at [get], a held lock at the [with]). *)
Definition step (a : action) (s : state) : option (state * list obs) :=
  match a with
  | Put r => Some (State (queue s ++ [r]) (lock s) (workers s), [])
  | Run w =>
      match workers s !! w with
      | None => None
      | Some AtGet =>
          match queue s with
          | [] => None
          | r :: rest => Some (State rest (lock s) (set_pc w (AtAcquire r) s), [])
          end
      | Some (AtAcquire r) =>
          if lock s then None
          else Some (State (queue s) true (set_pc w (InLock r) s), [])
      | Some (InLock r) =>
          Some (State (queue s) (lock s) (set_pc w (InAnalysis r) s),
                [Started w])
      | Some (InAnalysis r) =>
          Some (State (queue s) (lock s) (set_pc w (AfterAnalysis r) s),
                [Finished w])
      | Some (AfterAnalysis r) =>
          Some (State (queue s) false (set_pc w (AtFinally r) s), [])
      | Some (AtFinally r) =>
          Some (State (queue s) (lock s) (set_pc w AtGet s), [])
      end
  end.

Fixpoint run (acts : list action) (s : state) : option (state * list obs) :=
  match acts with
  | [] => Some (s, [])
  | a :: rest =>
      match step a s with
      | None => None
      | Some (s', o) =>
          match run rest s' with
          | None => None
          | Some (s'', os) => Some (s'', o ++ os)
          end
      end
  end.

(** [n] worker threads at the top of their loop, the queue empty, the lock
    free. *)
Definition init (n : nat) : state := State [] false (replicate n AtGet).

(** Reading a trace with the invocation in progress, if any: a start needs
    none in progress, an end needs the one of the same thread. *)
Fixpoint serial_from (current : option nat) (tr : list obs) : bool :=
  match tr with
  | [] => true
  | Started w :: rest =>
      match current with
      | None => serial_from (Some w) rest
      | Some _ => false
      end
  | Finished w :: rest =>
      match current with
      | Some v => bool_decide (v = w) && serial_from None rest
      | None => false
      end
  end.

Definition serial (tr : list obs) : bool := serial_from None tr.

Definition holds_lock (p : pc) : bool :=
  match p with
  | InLock _ | InAnalysis _ | AfterAnalysis _ => true
  | _ => false
  end.

Definition in_analysis (p : pc) : bool :=
  match p with InAnalysis _ => true | _ => false end.

(** The invariant of the threads, with the thread whose invocation is in
    progress: a thread past the [with] means the lock is held, two such
    threads are the same, and the thread inside the analysis method is the
    one in progress. *)
Record invariant (s : state) (current : option nat) : Prop := Invariant {
  inv_held : ∀ i p,
    workers s !! i = Some p → holds_lock p = true → lock s = true;
  inv_one : ∀ i j p q,
    workers s !! i = Some p → workers s !! j = Some q →
    holds_lock p = true → holds_lock q = true → i = j;
  inv_current : ∀ i,
    (∃ p, workers s !! i = Some p ∧ in_analysis p = true) ↔ current = Some i
}.

(** The requests put on the queue by a schedule, in order. *)
Definition puts (acts : list action) : list task_request :=
  omap (λ a, match a with Put r => Some r | Run _ => None end) acts.

(** The request a step takes from the queue, if it is a [get] that
    returns. *)
Definition got (a : action) (s : state) : list task_request :=
  match a with
  | Put _ => []
  | Run w =>
      match workers s !! w, queue s with
      | Some AtGet, r :: _ => [r]
      | _, _ => []
      end
  end.

(** The requests the workers took from the queue along a schedule, in
    order. *)
Fixpoint gets (acts : list action) (s : state) : list task_request :=
  match acts with
  | [] => []
  | a :: rest =>
      match step a s with
      | None => []
      | Some (s', _) => got a s ++ gets rest s'
      end
  end.

Definition at_get (p : pc) : bool :=
  match p with AtGet => true | _ => false end.

(** What holds of every state a schedule reaches, beside [invariant]: a held
    lock has a holder, and no thread appears or disappears. *)
Definition lock_owned (n : nat) (s : state) : Prop :=
  (∃ current, invariant s current)
  ∧ (lock s = true →
     ∃ w p, workers s !! w = Some p ∧ holds_lock p = true)
  ∧ length (workers s) = n.

End Dispatcher.

(** ** Scenarios *)

Module Scenarios.

Import AIControlSystem.

(** An analyzer whose five methods return the same outcome. *)
Definition returning (ar : analysis_result) : TaskAnalyzer :=
  {| case_task_analysis := λ _, Ok ar;
     box_task_analysis := λ _, Ok ar;
     cover_task_analysis := λ _, Ok ar;
     folding_task_analysis := λ _, Ok ar;
     final_check_task_analysis := λ _, Ok ar |}.

(** What [case_task_analysis] returns when the camera cannot be opened. *)
Definition camera_failure : analysis_result :=
  AnalysisResult (Some "NG") (Some "0%") (Some (DStr "Q002")) None None.

Definition passed : analysis_result :=
  AnalysisResult (Some "OK") (Some "95%") (Some (DStr "OK")) None None.

Definition ng_with_video : analysis_result :=
  AnalysisResult (Some "NG") (Some "0%") (Some (DStr "Q002"))
    (Some "out/case.mp4") None.

Definition sink_down : http :=
  RequestException (Exn "ConnectionError" "connection refused").

Definition world_of (ar : analysis_result) (sink : http) : world :=
  {| analyzer := returning ar;
     now := "2025-01-01 00:00:00";
     fs := {["out/case.mp4"]};
     unreadable := λ _, None;
     upload_post := Response 200 "";
     nodered_endpoint := "http://192.168.1.105:1880/ai-result";
     nodered_post := sink |}.

(** The same world when the saved path is a directory. *)
Definition with_directory (file_path : string) (w : world) : world :=
  {| analyzer := analyzer w;
     now := now w;
     fs := {[file_path]};
     unreadable := λ p,
       if bool_decide (p = file_path)
       then Some (Exn "IsADirectoryError" "Is a directory")
       else None;
     upload_post := upload_post w;
     nodered_endpoint := nodered_endpoint w;
     nodered_post := nodered_post w |}.


Definition start (task_type : string) : task_request :=
  TaskRequest (Some task_type) ∅.

(** The system as [__init__] leaves it when neither file exists. *)
Definition fresh : system := __init__ Absent Absent.

(** Five artifacts of the COVER task. *)
Definition cover_paths : list string :=
  ["out/cover_1.jpg"; "out/cover_2.jpg"; "out/cover_3.jpg";
   "out/cover_4.jpg"; "out/cover_5.jpg"].

Definition cover_calls : list FileTracker.call :=
  (λ p, FileTracker.Call "COVER" p None) <$> cover_paths.

(** A tracker started on a tracker file that holds six records for CASE. *)
Definition six_case_records : list FileTracker.file_info :=
  (λ p, FileTracker.FileInfo p (basename p) "2024-12-31 08:00:00" "OK" "CASE"
          (DStr "OK")) <$>
    ["out/case_6.mp4"; "out/case_5.mp4"; "out/case_4.mp4";
     "out/case_3.mp4"; "out/case_2.mp4"; "out/case_1.mp4"].

Definition tracker_over_bound : FileTracker.t :=
  FileTracker.__init__ (Stored {["CASE" := six_case_records]}).

(** A tracker started on a tracker file that carries one more key. *)
Definition tracker_with_ship : FileTracker.t :=
  FileTracker.__init__ (Stored {["SHIP" := []]}).

(** Two requests served by two worker threads, one after the other. *)
Definition two_workers_schedule : list Dispatcher.action :=
  [Dispatcher.Put (start "CASE"); Dispatcher.Put (start "BOX");
   Dispatcher.Run 0; Dispatcher.Run 1;
   Dispatcher.Run 0; Dispatcher.Run 0; Dispatcher.Run 0; Dispatcher.Run 0;
   Dispatcher.Run 0;
   Dispatcher.Run 1; Dispatcher.Run 1; Dispatcher.Run 1; Dispatcher.Run 1;
   Dispatcher.Run 1].

(** Thread 0 inside the analysis of CASE while thread 1 waits for the lock
    with BOX. *)
Definition contending_schedule : list Dispatcher.action :=
  [Dispatcher.Put (start "CASE"); Dispatcher.Put (start "BOX");
   Dispatcher.Run 0; Dispatcher.Run 1; Dispatcher.Run 0; Dispatcher.Run 0].

Definition contended : Dispatcher.state :=
  Dispatcher.State [] true
    [Dispatcher.InAnalysis (start "CASE"); Dispatcher.AtAcquire (start "BOX")].

(** An order message that lacks the BOM field. *)
Definition order_without_bom : order :=
  {["ORDER_NO" := JStr "A-100"; "ITEM_CD" := JStr "I-7";
    "ITEM_NM" := JStr "C"; "ITEM_CLASS" := JStr "X";
    "RECIPE" := JArr []]}.

(** A complete order message, and one whose BOM is null. *)
Definition order_with_bom : order :=
  <["BOM" := JArr [JObj [("ITEM_NM", JStr "A")];
                   JObj [("ITEM_NM", JStr "BIG BOX")];
                   JObj [("ITEM_NM", JStr "C")]]]> order_without_bom.

Definition order_with_null_bom : order :=
  <["BOM" := JNull]> order_without_bom.

(** An analyzer whose five methods raise. *)
Definition raising (e : exn) : TaskAnalyzer :=
  {| case_task_analysis := λ _, Raise e;
     box_task_analysis := λ _, Raise e;
     cover_task_analysis := λ _, Raise e;
     folding_task_analysis := λ _, Raise e;
     final_check_task_analysis := λ _, Raise e |}.

(** A world in which the analyzers raise and the sink is down. *)
Definition broken_world : world :=
  {| analyzer := raising (Exn "RuntimeError" "camera lost");
     now := "2025-01-01 00:00:01";
     fs := ∅;
     unreadable := λ _, None;
     upload_post := sink_down;
     nodered_endpoint := "http://192.168.1.105:1880/ai-result";
     nodered_post := sink_down |}.

(** A queue of three requests, each with the world it meets. *)
Definition three_requests : list (world * task_request) :=
  [(world_of passed (Response 200 ""), start "CASE");
   (broken_world, start "BOX");
   (world_of passed (Response 200 ""), start "SHIP")].

(** A heartbeat endpoint that fails for CASE only. *)
Definition case_ping_down : string → http :=
  λ task_type,
    if bool_decide (task_type = "CASE")
    then RequestException (Exn "ConnectionError" "connection refused")
    else Response 200 "".

(** A heartbeat endpoint that answers 500 for CASE only. *)
Definition case_ping_500 : string → http :=
  λ task_type,
    if bool_decide (task_type = "CASE")
    then Response 500 "Internal Server Error"
    else Response 200 "".

(** An outcome with a saved file and no status. *)
Definition saved_without_status : analysis_result :=
  AnalysisResult None (Some "0%") (Some (DStr "Q002"))
    (Some "out/case.mp4") None.

(** [str.lower] on the letters A to Z. *)
Definition lower_ascii (c : ascii) : ascii :=
  let n := nat_of_ascii c in
  if (65 <=? n)%nat && (n <=? 90)%nat then ascii_of_nat (n + 32) else c.

Fixpoint lower (s : string) : string :=
  match s with
  | EmptyString => EmptyString
  | String c s => String (lower_ascii c) (lower s)
  end.

(** The box station before a red big box with its QR code and its label. *)
Definition big_box : Analyzers.box_scene :=
  {| Analyzers.box_camera_opened := true;
     Analyzers.box_read :=
       Ok (Some {| Analyzers.bf_saved_frame_path := Ok "out/box.jpg";
                   Analyzers.bf_qr_text := Ok (Some "Big Box");
                   Analyzers.bf_ocr_text := Some "대형";
                   Analyzers.bf_blue_avg := 40 # 1;
                   Analyzers.bf_green_avg := 35 # 1;
                   Analyzers.bf_red_avg := 180 # 1 |}) |}.

(** The folding station when the model finds no box in the frame. *)
Definition folding_no_box : Analyzers.folding_scene :=
  {| Analyzers.fold_camera_opened := true;
     Analyzers.fold_model := Ok true;
     Analyzers.fold_read :=
       Ok (Some {| Analyzers.ff_saved_frame_path := Ok "out/folding.jpg";
                   Analyzers.ff_inference := Ok Analyzers.NoBoxes |}) |}.

(** The robot station with a working camera. *)
Definition robot_ready : Analyzers.final_scene :=
  {| Analyzers.final_camera_opened := true;
     Analyzers.final_read := Ok (Some (Ok "out/final.jpg")) |}.

(** The analyzer of a plant with the three stations above; the two other
    methods pass. *)
Definition stations (f : disk_file order) : TaskAnalyzer :=
  Analyzers.methods lower f big_box folding_no_box robot_ready None
    (λ _, Ok passed) (λ _, Ok passed).

Definition plant (f : disk_file order) : world :=
  {| analyzer := stations f;
     now := "2025-01-01 00:00:02";
     fs := {["out/box.jpg"]};
     unreadable := λ _, None;
     upload_post := Response 200 "";
     nodered_endpoint := "http://192.168.1.105:1880/ai-result";
     nodered_post := Response 200 "" |}.

(** The system started on an order file left empty, and on a complete
    order. *)
Definition interrupted : system := __init__ EmptyFile Absent.

Definition ordered : system := __init__ (Stored order_with_bom) Absent.

End Scenarios.

(** * Properties *)

Example basename_ex : basename "results/case/img_01.jpg" = "img_01.jpg".
Proof. reflexivity. Qed.

(** ** The artifact ledger *)

Section ledger_facts.
Import FileTracker.
Context (fs : gset string).

Lemma take_app_take {A} (n : nat) (l k : list A) :
  take n (l ++ take n k) = take n (l ++ k).
Proof.
  rewrite !take_app, take_take. f_equal. f_equal. lia.
Qed.

Lemma add_file_dom s ty p md :
  dom (data (add_file fs s ty p md).1) = dom (data s).
Proof.
  unfold add_file. destruct (data s !! ty) as [files|] eqn:E; [|done].
  case_bool_decide; [|done]. simpl.
  rewrite dom_insert_L. apply elem_of_dom_2 in E.
  apply subseteq_union_1_L. by apply singleton_subseteq_l.
Qed.

Lemma add_files_dom s cs : dom (data (add_files fs s cs)) = dom (data s).
Proof.
  revert s. induction cs as [|c cs IH]; intros s; [done|].
  simpl. rewrite IH. apply add_file_dom.
Qed.

Lemma successful_dom s s' c :
  dom (data s') = dom (data s) → successful fs s' c = successful fs s c.
Proof.
  intros D. unfold successful. f_equal.
  apply bool_decide_ext. rewrite <-!elem_of_dom. by rewrite D.
Qed.

Lemma recorded_dom s s' cs ty :
  dom (data s') = dom (data s) → recorded fs s' cs ty = recorded fs s cs ty.
Proof.
  intros D. unfold recorded. do 2 f_equal.
  apply list_filter_iff. intros c. by rewrite (successful_dom s s' c D).
Qed.

Lemma successful_spec s c :
  successful fs s c = true ↔ is_Some (data s !! c_type c) ∧ c_path c ∈ fs.
Proof.
  unfold successful. by rewrite andb_true_iff, !bool_decide_eq_true.
Qed.

Lemma history_add_call s c ty :
  history (add_call fs s c) ty =
    if bool_decide (successful fs s c = true ∧ c_type c = ty)
    then take MAX_TRACKED_FILES (info_of c :: history s ty)
    else history s ty.
Proof.
  case_bool_decide as H; rewrite successful_spec in H;
    unfold add_call, add_file, history.
  - destruct H as [[[files E] P] <-]. rewrite E.
    rewrite bool_decide_eq_true_2 by done. simpl.
    by rewrite lookup_insert_eq.
  - destruct (data s !! c_type c) as [files|] eqn:E; [|done].
    case_bool_decide as P; [|done]. simpl.
    rewrite lookup_insert_ne; [done|]. intros <-. apply H. eauto.
Qed.

Lemma recorded_cons s c cs ty :
  recorded fs s (c :: cs) ty =
    recorded fs s cs ty ++
    (if bool_decide (successful fs s c = true ∧ c_type c = ty)
     then [info_of c] else []).
Proof.
  unfold recorded. rewrite filter_cons.
  destruct (decide _) as [H|H].
  - rewrite bool_decide_eq_true_2 by done. by rewrite fmap_cons, reverse_cons.
  - rewrite bool_decide_eq_false_2 by done. by rewrite app_nil_r.
Qed.

(** The list of a type after a run of calls: the successful records,
    newest first, in front of what the list held, cut at the bound. *)
Lemma history_add_files s cs ty :
  history (add_files fs s cs) ty =
    match recorded fs s cs ty with
    | [] => history s ty
    | recs => take MAX_TRACKED_FILES (recs ++ history s ty)
    end.
Proof.
  revert s. induction cs as [|c cs IH]; intros s; [done|].
  change (add_files fs s (c :: cs)) with (add_files fs (add_call fs s c) cs).
  rewrite IH, (recorded_dom s) by apply add_file_dom.
  rewrite recorded_cons, history_add_call.
  case_bool_decide.
  - destruct (recorded fs s cs ty) as [|r recs]; [done|].
    rewrite take_app_take.
    change ((r :: recs) ++ [info_of c]) with (r :: (recs ++ [info_of c])).
    cbv beta iota. by rewrite !app_comm_cons, <-app_assoc.
  - by rewrite app_nil_r.
Qed.

Lemma dom_initial_data : dom initial_data = tracked_types.
Proof.
  unfold initial_data, tracked_types.
  rewrite !dom_insert_L, dom_empty_L. set_solver.
Qed.

(** The keys of a new tracker: the five of the literal and those of the
    tracker file. *)
Lemma dom_init file :
  dom (data (__init__ file)) = tracked_types ∪ file_keys file.
Proof.
  destruct file as [| | |loaded_data]; simpl;
    rewrite ?dom_union_L, ?dom_fmap_L, dom_initial_data.
  - by rewrite (right_id_L ∅ (∪)).
  - by rewrite (right_id_L ∅ (∪)).
  - by rewrite (right_id_L ∅ (∪)).
  - apply (comm_L (∪)).
Qed.

Lemma ship_untracked : "SHIP" ∉ tracked_types.
Proof.
  unfold tracked_types.
  rewrite !not_elem_of_union, !not_elem_of_singleton. by repeat split.
Qed.

Lemma add_file_unknown s ty p md :
  ty ∉ dom (data s) ∨ p ∉ fs → (add_file fs s ty p md).1 = s.
Proof.
  intros H. unfold add_file.
  destruct (data s !! ty) as [files|] eqn:E; [|done].
  destruct H as [H|H].
  - exfalso. apply H. by apply elem_of_dom_2 in E.
  - by rewrite bool_decide_eq_false_2.
Qed.

End ledger_facts.

(** Five artifacts recorded for COVER: four are kept, the newest first. *)
Example five_cover_artifacts :
    FileTracker.path <$>
      FileTracker.history
        (FileTracker.add_files (list_to_set Scenarios.cover_paths)
           (FileTracker.__init__ Absent) Scenarios.cover_calls) "COVER"
    = ["out/cover_5.jpg"; "out/cover_4.jpg"; "out/cover_3.jpg";
       "out/cover_2.jpg"].
Proof. vm_compute. reflexivity. Qed.

(** C2, as stated, fails: a tracker started on a tracker file that holds
    six records for CASE has six records for CASE, [_load_data] does not cut
    the list; after five successful calls, all for COVER, the list of CASE
    still has six entries, more than [MAX_TRACKED_FILES] = 4. *)
Lemma stored_list_stays_over_bound :
  forallb
    (FileTracker.successful (list_to_set Scenarios.cover_paths)
       Scenarios.tracker_over_bound) Scenarios.cover_calls = true
  ∧ length (FileTracker.history Scenarios.tracker_over_bound "CASE") = 6%nat
  ∧ length (FileTracker.history
              (FileTracker.add_files (list_to_set Scenarios.cover_paths)
                 Scenarios.tracker_over_bound Scenarios.cover_calls) "CASE")
    = 6%nat
  ∧ (FileTracker.MAX_TRACKED_FILES < 6)%nat.
Proof.
  split; [vm_compute; reflexivity|]. split; [vm_compute; reflexivity|].
  split; [vm_compute; reflexivity|]. unfold FileTracker.MAX_TRACKED_FILES. lia.
Qed.

(** C2, amended. After any run of [add_file] calls, the list of a task
    type that got at least one successful record is the records of the
    successful calls, newest first, followed by what the list held before,
    cut after [MAX_TRACKED_FILES] = 4 entries: the most recent four, in
    order, the older ones evicted. The list of a type that got no
    successful record is what it was, however long: a list never gets
    longer than the larger of 4 and its length at the start. So the bound
    of 4 holds for a type from its first successful record on, for a list
    that started within the bound, and for every type of a tracker that
    started without a tracker file it could load. *)
Theorem ledger_bound (fs : gset string) (s : FileTracker.t)
    (cs : list FileTracker.call) (ty : string) :
  FileTracker.history (FileTracker.add_files fs s cs) ty =
    match FileTracker.recorded fs s cs ty with
    | [] => FileTracker.history s ty
    | recs =>
        take FileTracker.MAX_TRACKED_FILES (recs ++ FileTracker.history s ty)
    end
  ∧ (FileTracker.recorded fs s cs ty ≠ []
     ∨ (length (FileTracker.history s ty) ≤ FileTracker.MAX_TRACKED_FILES)%nat
     → FileTracker.history (FileTracker.add_files fs s cs) ty =
         take FileTracker.MAX_TRACKED_FILES
           (FileTracker.recorded fs s cs ty ++ FileTracker.history s ty)
       ∧ (length (FileTracker.history (FileTracker.add_files fs s cs) ty)
            ≤ FileTracker.MAX_TRACKED_FILES)%nat)
  ∧ (length (FileTracker.history (FileTracker.add_files fs s cs) ty)
       ≤ FileTracker.MAX_TRACKED_FILES `max`
           length (FileTracker.history s ty))%nat
  ∧ (∀ file : disk_file FileTracker.ledger,
       (∀ loaded_data, file ≠ Stored loaded_data) →
       (length (FileTracker.history
                  (FileTracker.add_files fs (FileTracker.__init__ file) cs)
                  ty)
          ≤ FileTracker.MAX_TRACKED_FILES)%nat).
Proof.
  assert (∀ s', (length (FileTracker.history s' ty)
                   ≤ FileTracker.MAX_TRACKED_FILES)%nat →
    (length (FileTracker.history (FileTracker.add_files fs s' cs) ty)
       ≤ FileTracker.MAX_TRACKED_FILES)%nat) as Within.
  { intros s' B. rewrite history_add_files.
    destruct (FileTracker.recorded fs s' cs ty); [done|].
    rewrite length_take. lia. }
  split; [apply history_add_files|].
  split; [|split].
  - rewrite history_add_files.
    destruct (FileTracker.recorded fs s cs ty) as [|r recs] eqn:R.
    + intros [N|B]; [done|]. simpl. by rewrite take_ge.
    + intros _. split; [done|]. rewrite length_take. lia.
  - rewrite history_add_files.
    destruct (FileTracker.recorded fs s cs ty) as [|r recs]; [lia|].
    rewrite length_take. lia.
  - intros file N. apply Within.
    destruct file as [| | |loaded_data]; [| | |by destruct (N loaded_data)];
      unfold FileTracker.history, FileTracker.__init__; simpl;
      unfold FileTracker.initial_data;
      (destruct (decide (ty = "CASE")) as [->|];
         [by rewrite lookup_insert_eq; simpl; lia|];
       rewrite lookup_insert_ne by done;
       destruct (decide (ty = "BOX")) as [->|];
         [by rewrite lookup_insert_eq; simpl; lia|];
       rewrite lookup_insert_ne by done;
       destruct (decide (ty = "COVER")) as [->|];
         [by rewrite lookup_insert_eq; simpl; lia|];
       rewrite lookup_insert_ne by done;
       destruct (decide (ty = "FORDING")) as [->|];
         [by rewrite lookup_insert_eq; simpl; lia|];
       rewrite lookup_insert_ne by done;
       destruct (decide (ty = "FINAL")) as [->|];
         [by rewrite lookup_insert_eq; simpl; lia|];
       rewrite lookup_insert_ne by done;
       rewrite lookup_empty; simpl; lia).
Qed.

(** C10, as stated, fails: SHIP is not one of the five tracked types, yet on
    a tracker whose file carried a SHIP key [add_file] records the file. *)
Lemma add_file_untracked_type_recorded :
  ("SHIP" ∉ FileTracker.tracked_types)
  ∧ (FileTracker.add_file {["out/ship.jpg"]} Scenarios.tracker_with_ship "SHIP"
       "out/ship.jpg" None).1 ≠ Scenarios.tracker_with_ship.
Proof.
  split.
  - apply ship_untracked.
  - intros H. apply (f_equal (λ t, length (FileTracker.history t "SHIP"))) in H.
    vm_compute in H. discriminate.
Qed.

(** C10, amended. On a tracker built by [__init__] and used through
    [add_file], a call whose task type is neither one of the five tracked
    types nor a key of the tracker file read at start-up, or whose path does
    not exist, returns and leaves the tracker (every list and the tracker
    file) as it was. *)
Theorem add_file_frame (fs : gset string)
    (file : disk_file FileTracker.ledger) (cs : list FileTracker.call)
    (ty p : string) (md : option FileTracker.metadata) :
  ty ∉ FileTracker.tracked_types ∪ FileTracker.file_keys file ∨ p ∉ fs →
  (FileTracker.add_file fs
     (FileTracker.add_files fs (FileTracker.__init__ file) cs) ty p md).1
  = FileTracker.add_files fs (FileTracker.__init__ file) cs.
Proof.
  intros H. apply add_file_unknown.
  by rewrite add_files_dom, dom_init.
Qed.

Lemma add_file_frame_witness :
  (FileTracker.add_file {["out/ship.jpg"]}
     (FileTracker.add_files {["out/ship.jpg"]} (FileTracker.__init__ Absent)
        [FileTracker.Call "CASE" "out/ship.jpg" None]) "SHIP" "out/ship.jpg"
     None).1
  = FileTracker.add_files {["out/ship.jpg"]} (FileTracker.__init__ Absent)
      [FileTracker.Call "CASE" "out/ship.jpg" None].
Proof.
  apply (add_file_frame {["out/ship.jpg"]} Absent
           [FileTracker.Call "CASE" "out/ship.jpg" None] "SHIP" "out/ship.jpg"
           None).
  left. simpl. rewrite (right_id_L ∅ (∪)). apply ship_untracked.
Defined.

(** ** The status registry *)

Section registry_facts.
Import AIControlSystem.

Lemma lookup_status_update reg ty ty' st :
  lookup_status (update_statuses reg ty' st) ty =
    if bool_decide (ty = ty')
    then (λ e, TaskStatus st (index e + 1)) <$> lookup_status reg ty
    else lookup_status reg ty.
Proof.
  induction reg as [|[k e] reg IH]; simpl.
  - by case_bool_decide.
  - unfold set_status at 1. simpl.
    destruct (bool_decide (k = ty')) eqn:K; simpl;
      destruct (bool_decide (k = ty)) eqn:T; simpl.
    + apply bool_decide_eq_true in K, T. subst.
      by rewrite bool_decide_eq_true_2.
    + exact IH.
    + apply bool_decide_eq_false in K. apply bool_decide_eq_true in T. subst.
      by rewrite bool_decide_eq_false_2.
    + exact IH.
Qed.

Lemma revision_update reg ty ty' st :
  revision (update_statuses reg ty' st) ty =
    if bool_decide (ty = ty') then Z.succ <$> revision reg ty
    else revision reg ty.
Proof.
  unfold revision. rewrite lookup_status_update.
  case_bool_decide; [|done]. by destruct (lookup_status reg ty).
Qed.

Lemma update_task_status_runs ty st s :
    update_task_status ty st s =
      (Ok (), set_task_statuses (update_statuses (task_statuses s) ty st)
                (set_trace (trace s ++ [Called_update_task_status ty st]) s)).
Proof. done. Qed.

Lemma transitions_ok calls s : (transitions calls s).1 = Ok ().
Proof.
  revert s. induction calls as [|[ty st] calls IH]; intros s; [done|].
  simpl. unfold mbind, M_bind. rewrite update_task_status_runs. apply IH.
Qed.

Lemma transitions_app calls calls' s :
  (transitions (calls ++ calls') s).2 =
    (transitions calls' (transitions calls s).2).2.
Proof.
  revert s. induction calls as [|[ty st] calls IH]; intros s; [done|].
  simpl. unfold mbind, M_bind. rewrite update_task_status_runs. apply IH.
Qed.

Lemma revision_transitions calls s ty :
  revision (task_statuses (transitions calls s).2) ty =
    (λ r, r + Z.of_nat (calls_for ty calls)) <$> revision (task_statuses s) ty.
Proof.
  revert s. induction calls as [|[ty' st] calls IH]; intros s.
  - simpl. destruct (revision _ _); simpl; f_equal; unfold calls_for; simpl; lia.
  - simpl. unfold mbind, M_bind. rewrite update_task_status_runs, IH. simpl.
    rewrite revision_update. unfold calls_for. rewrite filter_cons. simpl.
    destruct (decide (ty' = ty)) as [->|N].
    + rewrite bool_decide_eq_true_2 by done.
      destruct (revision _ _); simpl; f_equal. lia.
    + rewrite bool_decide_eq_false_2 by done. done.
Qed.
End registry_facts.

(** ** Rules of [wp] *)

Section wp.
Import AIControlSystem.

Lemma wp_ret {A} (a : A) Q s : Q (Ok a) s → wp (mret a) Q s.
Proof. done. Qed.

Lemma wp_raise {A} (e : exn) (Q : result A → system → Prop) s :
    Q (Raise e) s → wp (raise e) Q s.
Proof. done. Qed.

Lemma wp_bind {A B} (m : M A) (k : A → M B) Q s :
  wp m (λ r s', match r with
                | Ok a => wp (k a) Q s'
                | Raise e => Q (Raise e) s'
                end) s →
  wp (m ≫= k) Q s.
Proof.
  unfold wp, mbind, M_bind. by destruct (m s) as [[a|e] s'].
Qed.

Lemma wp_try_except {A} (body : M A) handler Q s :
  wp body (λ r s', match r with
                   | Ok a => Q (Ok a) s'
                   | Raise e => wp (handler e) Q s'
                   end) s →
  wp (try_except body handler) Q s.
Proof.
  unfold wp, try_except. by destruct (body s) as [[a|e] s'].
Qed.

Lemma wp_modify f Q s : Q (Ok ()) (f s) → wp (modify f) Q s.
Proof. done. Qed.

Lemma wp_emit ev Q s :
    Q (Ok ()) (set_trace (trace s ++ [ev]) s) → wp (emit ev) Q s.
Proof. done. Qed.

Lemma wp_logger l Q s :
    Q (Ok ()) (set_trace (trace s ++ [Logged l]) s) → wp (logger l) Q s.
Proof. done. Qed.

Lemma wp_getitem {A} key (o : option A) Q s :
    match o with
    | Some a => Q (Ok a) s
    | None => Q (Raise (KeyError key)) s
    end →
    wp (getitem key o) Q s.
Proof. by destruct o. Qed.

Lemma wp_mono {A} (m : M A) (Q Q' : result A → system → Prop) s :
    wp m Q' s → (∀ r s', Q' r s' → Q r s') → wp m Q s.
Proof. unfold wp. auto. Qed.

Lemma wp_run {A} (m : M A) Q s : wp m Q s → Q (m s).1 (m s).2.
Proof. done. Qed.

Lemma wp_update_task_status ty st Q s :
    Q (Ok ()) (set_task_statuses (update_statuses (task_statuses s) ty st)
                 (set_trace (trace s ++ [Called_update_task_status ty st]) s)) →
    wp (update_task_status ty st) Q s.
Proof. done. Qed.
End wp.

Ltac wp_step :=
  lazymatch goal with
  | |- AIControlSystem.wp (mret _) _ _ => apply wp_ret
  | |- AIControlSystem.wp (AIControlSystem.raise _) _ _ => apply wp_raise
  | |- AIControlSystem.wp (_ ≫= _) _ _ => apply wp_bind
  | |- AIControlSystem.wp (AIControlSystem.try_except _ _) _ _ => apply wp_try_except
  | |- AIControlSystem.wp (AIControlSystem.modify _) _ _ => apply wp_modify
  | |- AIControlSystem.wp (AIControlSystem.emit _) _ _ => apply wp_emit
  | |- AIControlSystem.wp (AIControlSystem.logger _) _ _ => apply wp_logger
  | |- AIControlSystem.wp (AIControlSystem.getitem _ _) _ _ => apply wp_getitem
  | |- AIControlSystem.wp (AIControlSystem.update_task_status _ _) _ _ =>
      apply wp_update_task_status
  | |- AIControlSystem.wp (if ?b then _ else _) _ _ => destruct b eqn:?
  | |- AIControlSystem.wp (match ?x with _ => _ end) _ _ => destruct x eqn:?
  | |- match ?x with _ => _ end => destruct x eqn:?
  end; cbn beta iota.

Ltac wp_steps := repeat wp_step.

(** ** Task processing *)

Section processing_facts.
Import AIControlSystem.

Lemma set_trace_id s : set_trace (trace s) s = s.
Proof. by destruct s. Qed.

Lemma fallback_present ta :
    task_analysis_map ta !! "unknown_task" = Some unknown_task.
Proof. reflexivity. Qed.

Lemma wp_upload_file w p ty d o (Q : result bool → system → Prop) s :
  (∀ b evs, uploads evs = [] →
     Q (Ok b)
       (set_trace (trace s ++ Called_upload_file p ty d o :: evs) s)) →
  wp (upload_file w p ty d o) Q s.
Proof.
  intros H. unfold upload_file. wp_steps; simpl;
    rewrite <-?app_assoc; simpl; by apply H.
Qed.

Lemma task_analysis_map_lookup ta name f :
  task_analysis_map ta !! name = Some f →
  name ∈ known_types ∨ (name = "unknown_task" ∧ f = unknown_task).
Proof.
  unfold task_analysis_map, setdefault.
  rewrite !lookup_insert_ne, lookup_empty by done.
  rewrite !lookup_insert, lookup_empty.
  unfold known_types. simpl.
  repeat (case_decide; [subst; set_solver|]). done.
Qed.

Lemma selected_unknown ta name :
  name ∉ known_types → selected ta name = unknown_task.
Proof.
  intros N. unfold selected.
  destruct (task_analysis_map ta !! name) as [f|] eqn:E; [|done].
  apply task_analysis_map_lookup in E as [?|[_ ->]]; done.
Qed.

Lemma wp_select_method ta name
    (Q : result (string * analysis_method) → system → Prop) s :
  (∀ key, (name ∉ known_types → key = "unknown_task") →
          Q (Ok (key, selected ta name)) s) →
  wp (select_method ta name) Q s.
Proof.
  intros H. unfold select_method. rewrite fallback_present.
  apply wp_bind, wp_getitem.
  pose proof (eq_refl (selected ta name)) as S. unfold selected at 1 in S.
  destruct (task_analysis_map ta !! name) as [f|] eqn:E;
    simpl in S; rewrite S; apply wp_ret, H; [|done].
  intros N. apply task_analysis_map_lookup in E as [?|[-> _]]; done.
Qed.

Lemma wp_get_current_order_data (Q : result order → system → Prop) s :
  Q (Ok (order_data_of (order_file s)))
    (set_trace (trace s ++ order_logs (order_file s)) s) →
  wp get_current_order_data Q s.
Proof.
  unfold wp, get_current_order_data.
  destruct (order_file s) eqn:E; simpl; try done.
  by rewrite app_nil_r, set_trace_id.
Qed.

Lemma wp_call_analysis key f td (Q : result analysis_result → system → Prop) s :
  Q (match f td with Ok ar => Ok ar | Raise e => Raise e end)
    (set_trace (trace s ++ [Called_analysis key td]) s) →
  wp (call_analysis key f td) Q s.
Proof.
  intros H. unfold call_analysis. apply wp_bind, wp_emit.
  destruct (f td) as [ar|e]; [by apply wp_ret|by apply wp_raise].
Qed.

Lemma wp_add_file w ty p md (Q : result unit → system → Prop) s :
  Q (Ok ())
    (set_trace
       (trace s ++ Called_add_file ty p md ::
          (Logged <$> (FileTracker.add_file (fs w) (file_tracker s) ty p
                         (Some md)).2))
       (set_file_tracker
          (FileTracker.add_file (fs w) (file_tracker s) ty p (Some md)).1 s)) →
  wp (add_file w ty p md) Q s.
Proof.
  intros H. unfold add_file. wp_steps. simpl.
  destruct (FileTracker.add_file _ _ _ _ _) as [t logs]. simpl in *.
  by rewrite <-app_assoc.
Qed.

(** What [record_and_upload] leaves alone, and what it returns. *)
Lemma wp_record_and_upload w name ar
    (Q : result analysis_result → system → Prop) s :
  (∀ r s',
     task_statuses s' = task_statuses s →
     order_file s' = order_file s →
     global_task_lock s' = global_task_lock s →
     is_processing s' = is_processing s →
     (∀ ar', r = Ok ar' →
        ar_status ar' = ar_status ar ∧ ar_confidence ar' = ar_confidence ar
        ∧ ar_details ar' = ar_details ar) →
     Q r s') →
  wp (record_and_upload w name ar) Q s.
Proof.
  intros H. unfold record_and_upload.
  assert (wp (mret ar) Q s) as Same
    by (apply wp_ret, H; try done; by intros ? [= <-]).
  destruct (ar_saved_file_path ar) as [p|]; [|done].
  destruct (truthy p); [|done]. clear Same.
  apply wp_bind, wp_add_file, wp_bind, wp_getitem.
  destruct (ar_status ar) as [st|] eqn:S; [|by apply H].
  destruct (py_str_eq st "NG").
  - apply wp_bind, wp_getitem.
    destruct (ar_details ar) as [d|] eqn:D; [|by apply H].
    apply wp_bind, wp_upload_file. intros b evs _.
    apply wp_ret, H; try done. intros ? [= <-]. by simpl.
  - apply wp_ret, H; try done. intros ? [= <-]. by rewrite S.
Qed.

Lemma RESULT_build_result name od ar :
  RESULT (build_result name od ar) = get (ar_status ar) "ERROR".
Proof.
  unfold build_result. simpl. destruct (ar_status ar); [done|].
  done.
Qed.

(** Task processing always returns a result; the registry it leaves and
    where the [RESULT] comes from. *)
Lemma wp_process_task_analysis w req s :
  wp (process_task_analysis w req)
    (λ r s',
       ∃ res, r = Ok res
       ∧ NAME res = task_name_of req
       ∧ task_statuses s' =
           update_statuses
             (update_statuses (task_statuses s) (task_name_of req) "RUNNING")
             (task_name_of req)
             (if py_str_eq (RESULT res) "OK" then "COMPLETED" else "ERROR")
       ∧ order_file s' = order_file s
       ∧ global_task_lock s' = global_task_lock s
       ∧ is_processing s' = is_processing s
       ∧ (RESULT res = "ERROR"
          ∨ ∃ ar, selected (analyzer w) (task_name_of req)
                    (TaskData (order_data_of (order_file s)) req) = Ok ar
                  ∧ ar_status ar = Some (RESULT res))) s.
Proof.
  unfold process_task_analysis.
  apply wp_try_except, wp_bind, wp_update_task_status.
  apply wp_bind, wp_select_method. intros key _. cbn beta iota.
  apply wp_bind, wp_get_current_order_data. simpl.
  apply wp_bind, wp_call_analysis.
  destruct (selected _ _ _) as [ar|e] eqn:A.
  - apply wp_bind, wp_record_and_upload.
    intros [ar'|e] s' Hst Hof Hl Hp Har; simpl in Hst, Hof, Hl, Hp.
    + destruct (Har ar' eq_refl) as (Hs & Hc & Hd).
      apply wp_bind.
      match goal with |- wp (if ?b then _ else _) _ _ =>
        change b with
          (py_str_eq (RESULT (build_result (task_name_of req)
                                (order_data_of (order_file s)) ar')) "OK")
      end.
      destruct (py_str_eq _ "OK") eqn:R;
        apply wp_update_task_status, wp_ret;
        exists (build_result (task_name_of req)
                  (order_data_of (order_file s)) ar');
        rewrite R; simpl; rewrite Hst;
        (split; [reflexivity|]); repeat (split; [done|]);
        rewrite Hs; destruct (ar_status ar) as [st|] eqn:S; simpl;
        [right; eauto | by left | right; eauto | by left].
    + apply wp_bind, wp_update_task_status, wp_bind, wp_logger, wp_ret.
      eexists; (split; [done|]); simpl. rewrite Hst. simpl.
      repeat (split; [done|]). by left.
  - apply wp_bind, wp_update_task_status, wp_bind, wp_logger, wp_ret.
    eexists; (split; [done|]); simpl.
    repeat (split; [done|]). by left.
Qed.

Lemma wp_eq {A} (m : M A) r0 s0 s :
    wp m (λ r s', r = r0 ∧ s' = s0) s → m s = (r0, s0).
Proof. unfold wp. destruct (m s) as [r s']. simpl. by intros [-> ->]. Qed.

Lemma update_statuses_absent reg name st :
  name ∉ reg.*1 → update_statuses reg name st = reg.
Proof.
  unfold update_statuses. induction reg as [|[k e] reg IH]; [done|].
  cbn [fmap list_fmap fst]. rewrite not_elem_of_cons. intros [N1 N2].
  f_equal; [|by apply IH].
  unfold set_status. simpl. by rewrite bool_decide_eq_false_2.
Qed.

Lemma set_task_statuses_id s : set_task_statuses (task_statuses s) s = s.
Proof. by destruct s. Qed.

(** The result of an unknown task type, and the whole trace of its
    processing. *)
Lemma process_unknown w req s :
  task_name_of req ∉ known_types →
  task_name_of req ∉ (task_statuses s).*1 →
  process_task_analysis w req s =
    (Ok (unknown_task_result (task_name_of req)
           (order_data_of (order_file s))),
     set_trace
       (trace s
        ++ [Called_update_task_status (task_name_of req) "RUNNING"]
        ++ order_logs (order_file s)
        ++ [Called_analysis "unknown_task"
              (TaskData (order_data_of (order_file s)) req);
            Called_update_task_status (task_name_of req) "ERROR"]) s).
Proof.
  intros N1 N2. apply wp_eq. unfold process_task_analysis.
  apply wp_try_except, wp_bind, wp_update_task_status.
  apply wp_bind, wp_select_method. intros key K. rewrite (K N1).
  cbn beta iota.
  apply wp_bind, wp_get_current_order_data. simpl.
  apply wp_bind, wp_call_analysis.
  rewrite (selected_unknown _ _ N1). unfold unknown_task at 1.
  apply wp_bind. unfold record_and_upload. simpl. apply wp_ret.
  apply wp_bind. simpl. apply wp_update_task_status, wp_ret.
  split; [done|]. destruct s as [reg ofile ft lk ip tr]. simpl in *.
  rewrite !(update_statuses_absent reg) by done.
  unfold set_task_statuses, set_trace. simpl. by rewrite <-!app_assoc.
Qed.

Lemma process_task_analysis_returns w req s :
  ∃ res, (process_task_analysis w req s).1 = Ok res.
Proof.
  destruct (wp_process_task_analysis w req s) as (res & H & _). eauto.
Qed.

(** One turn of the worker: task processing under the lock, then the
    delivery; the turn never raises. *)
Lemma worker_turn w req s :
  global_task_lock s = false →
  ∃ res s1,
    process_task_analysis w req
      (set_is_processing true (set_global_task_lock true s)) = (Ok res, s1)
    ∧ global_task_worker_turn w req s =
        Some (Ok (), after_delivery w (task_name_of req) res s1).
Proof.
  intros L.
  destruct (process_task_analysis_returns w req
              (set_is_processing true (set_global_task_lock true s)))
    as [res Hres].
  destruct (process_task_analysis w req _) as [r s1] eqn:P.
  simpl in Hres. subst r. exists res, s1. split; [done|].
  unfold global_task_worker_turn. rewrite L. f_equal.
  unfold try_finally, try_except, with_global_task_lock.
  unfold mbind, M_bind, modify at 1. rewrite P.
  unfold after_delivery, delivery_failure, send_result_to_node_red.
  unfold update_task_status.
  unfold mbind, M_bind, emit, logger, emit, modify, raise, mret, M_ret.
  destruct (nodered_post w) as [code text|e]; [case_bool_decide|];
    destruct s1; simpl; rewrite <-?app_assoc; reflexivity.
Qed.

Lemma uploads_app tr tr' : uploads (tr ++ tr') = uploads tr ++ uploads tr'.
Proof. apply omap_app. Qed.

Lemma uploads_logged logs : uploads (Logged <$> logs) = [].
Proof. by induction logs. Qed.

Lemma uploads_order_logs f : uploads (order_logs f) = [].
Proof. by destruct f. Qed.


(** What [add_file] makes of the ledger, by its two guards. *)
Lemma add_file_history fs t ty p md :
  (p ∈ fs → is_Some (FileTracker.data t !! ty) →
   FileTracker.history (FileTracker.add_file fs t ty p (Some md)).1 ty =
     take FileTracker.MAX_TRACKED_FILES
       (FileTracker.FileInfo p (basename p)
          (get (FileTracker.md_timestamp md) "")
          (get (FileTracker.md_status md) "UNKNOWN") ty
          (get (FileTracker.md_details md) (DStr ""))
        :: FileTracker.history t ty))
  ∧ (p ∉ fs ∨ FileTracker.data t !! ty = None →
     (FileTracker.add_file fs t ty p (Some md)).1 = t).
Proof.
  split.
  - intros F K.
    pose proof (history_add_call fs t (FileTracker.Call ty p (Some md)) ty)
      as H.
    rewrite bool_decide_eq_true_2 in H; [exact H|].
    split; [|done]. by apply successful_spec.
  - intros [F|K]; apply add_file_unknown; [by right|left].
    by rewrite not_elem_of_dom.
Qed.




(** C7, as stated, fails: the outcome [case_task_analysis] returns when the
  camera cannot be opened has status "NG", and the result handed to the
  sink carries "NG", neither "OK" nor "ERROR". *)
Lemma result_can_be_NG :
  ∃ res s',
    process_task_analysis
      (Scenarios.world_of Scenarios.camera_failure (Response 200 ""))
      (Scenarios.start "CASE") Scenarios.fresh = (Ok res, s')
    ∧ RESULT res = "NG" ∧ RESULT res ≠ "OK" ∧ RESULT res ≠ "ERROR".
Proof.
  eexists _, _. split; [vm_compute; reflexivity|]. done.
Qed.

Lemma update_statuses_keys reg name st :
  (update_statuses reg name st).*1 = reg.*1.
Proof.
  unfold update_statuses. induction reg as [|[k e] reg IH]; [done|].
  cbn [fmap list_fmap]. f_equal; [|exact IH].
  unfold set_status. by case_bool_decide.
Qed.

(** C5, as stated, fails: processing a request for the unknown type SHIP
  leaves the registry as it was; no entry goes to RUNNING or to ERROR, and
  there is no entry for SHIP. *)
Lemma unknown_type_makes_no_transition :
  task_statuses
    (process_task_analysis
       (Scenarios.world_of Scenarios.passed (Response 200 ""))
       (Scenarios.start "SHIP") Scenarios.fresh).2
  = initial_task_statuses
  ∧ lookup_status
      (task_statuses
         (process_task_analysis
            (Scenarios.world_of Scenarios.passed (Response 200 ""))
            (Scenarios.start "SHIP") Scenarios.fresh).2) "SHIP" = None.
Proof. split; vm_compute; reflexivity. Qed.

(** C5, amended. A request whose START is a string that is not one of the
  five known types, or that has no START, is processed to the end: the
  result is ERROR with the details "Unknown task", [update_task_status] is
  called with RUNNING, the fallback method is run, [update_task_status] is
  called with ERROR, and the worker posts the result to the sink. The two
  status calls change nothing: the registry has no entry for the type and
  is left as it was. *)
Theorem unknown_task_type (w : world) (req : task_request) (s : system) :
  task_name_of req ∉ known_types →
  (task_statuses s).*1 = known_types →
  global_task_lock s = false →
  process_task_analysis w req s =
    (Ok (unknown_task_result (task_name_of req) (order_data_of (order_file s))),
     set_trace
       (trace s
        ++ [Called_update_task_status (task_name_of req) "RUNNING"]
        ++ order_logs (order_file s)
        ++ [Called_analysis "unknown_task"
              (TaskData (order_data_of (order_file s)) req);
            Called_update_task_status (task_name_of req) "ERROR"]) s)
  ∧ ∃ s2,
      global_task_worker_turn w req s = Some (Ok (), s2)
      ∧ task_statuses s2 = task_statuses s
      ∧ Posted (nodered_endpoint w)
          (ResultBody (unknown_task_result (task_name_of req)
                         (order_data_of (order_file s)))) ∈ trace s2.
Proof.
  intros N K L. assert (task_name_of req ∉ (task_statuses s).*1) as N'
    by by rewrite K.
  split; [by apply process_unknown|].
  destruct (worker_turn w req s L) as (res & s1 & P & ->).
  rewrite process_unknown in P by done. injection P as <- <-.
  eexists. split; [done|].
  unfold after_delivery. destruct (delivery_failure w) as [e|]; simpl.
  - rewrite update_statuses_absent by done. split; [done|]. set_solver.
  - split; [done|]. set_solver.
Qed.

Lemma unknown_task_type_witness :
  process_task_analysis
    (Scenarios.world_of Scenarios.passed (Response 200 ""))
    (Scenarios.start "SHIP") Scenarios.fresh =
    (Ok (unknown_task_result (task_name_of (Scenarios.start "SHIP"))
           (order_data_of (order_file Scenarios.fresh))),
     set_trace
       (trace Scenarios.fresh
        ++ [Called_update_task_status (task_name_of (Scenarios.start "SHIP"))
              "RUNNING"]
        ++ order_logs (order_file Scenarios.fresh)
        ++ [Called_analysis "unknown_task"
              (TaskData (order_data_of (order_file Scenarios.fresh))
                 (Scenarios.start "SHIP"));
            Called_update_task_status
              (task_name_of (Scenarios.start "SHIP")) "ERROR"])
       Scenarios.fresh)
  ∧ ∃ s2,
      global_task_worker_turn
        (Scenarios.world_of Scenarios.passed (Response 200 ""))
        (Scenarios.start "SHIP") Scenarios.fresh = Some (Ok (), s2)
      ∧ task_statuses s2 = task_statuses Scenarios.fresh
      ∧ Posted
          (nodered_endpoint
             (Scenarios.world_of Scenarios.passed (Response 200 "")))
          (ResultBody
             (unknown_task_result (task_name_of (Scenarios.start "SHIP"))
                (order_data_of (order_file Scenarios.fresh)))) ∈ trace s2.
Proof.
  apply (unknown_task_type
           (Scenarios.world_of Scenarios.passed (Response 200 ""))
           (Scenarios.start "SHIP") Scenarios.fresh).
  - unfold known_types. simpl.
    rewrite !not_elem_of_cons. repeat split; try done. apply not_elem_of_nil.
  - reflexivity.
  - reflexivity.
Defined.

(** C3, as stated, fails: a CASE task whose analysis passed is COMPLETED
  (revision 2) when task processing returns; the delivery then fails and
  the turn of the worker leaves it in ERROR (revision 3). *)
Lemma sink_failure_overwrites_status :
  ∃ res s1 s2,
    process_task_analysis
      (Scenarios.world_of Scenarios.passed Scenarios.sink_down)
      (Scenarios.start "CASE")
      (set_is_processing true (set_global_task_lock true Scenarios.fresh))
      = (Ok res, s1)
    ∧ lookup_status (task_statuses s1) "CASE"
        = Some (TaskStatus "COMPLETED" 2)
    ∧ global_task_worker_turn
        (Scenarios.world_of Scenarios.passed Scenarios.sink_down)
        (Scenarios.start "CASE") Scenarios.fresh = Some (Ok (), s2)
    ∧ lookup_status (task_statuses s2) "CASE" = Some (TaskStatus "ERROR" 3).
Proof.
  eexists _, _, _. split; [vm_compute; reflexivity|].
  split; [reflexivity|]. split; [vm_compute; reflexivity|]. reflexivity.
Qed.

(** C3, amended. When the delivery of the result fails, the exception is
  logged by [send_result_to_node_red] and again at the boundary of the
  worker loop, the lock is released, the processing flag is cleared, the
  turn ends without an exception and the loop goes on with the next
  request. The status of the task does not stay as task processing set
  it: the handler of the loop calls [update_task_status] with ERROR, so
  an entry of the registry ends in ERROR, three revisions after the one
  the turn started from. *)
Theorem sink_failure_isolated (w : world) (req : task_request) (s : system)
    (e : exn) :
  global_task_lock s = false →
  delivery_failure w = Some e →
  ∃ res s1 s2,
    process_task_analysis w req
      (set_is_processing true (set_global_task_lock true s)) = (Ok res, s1)
    ∧ global_task_worker_turn w req s = Some (Ok (), s2)
    ∧ global_task_lock s2 = false
    ∧ is_processing s2 = false
    ∧ trace s2 =
        trace s1 ++
          [Posted (nodered_endpoint w) (ResultBody res);
           Logged (ErrSendNodeRed e);
           Logged (ErrGlobalWorker (task_name_of req) e);
           Called_update_task_status (task_name_of req) "ERROR"]
    ∧ task_statuses s2 =
        update_statuses (task_statuses s1) (task_name_of req) "ERROR"
    ∧ lookup_status (task_statuses s2) (task_name_of req) =
        (λ st, TaskStatus "ERROR" (index st + 3)) <$>
          lookup_status (task_statuses s) (task_name_of req)
    ∧ ∀ queue,
        global_task_worker ((w, req) :: queue) s = global_task_worker queue s2.
Proof.
  intros L F.
  destruct (worker_turn w req s L) as (res & s1 & P & T).
  exists res, s1, (after_delivery w (task_name_of req) res s1).
  split; [done|]. split; [done|].
  unfold after_delivery. rewrite F. simpl.
  repeat (split; [done|]). split.
  - pose proof (wp_process_task_analysis w req
                  (set_is_processing true (set_global_task_lock true s))) as H.
    unfold wp in H. rewrite P in H. simpl in H.
    destruct H as (res' & _ & _ & -> & _).
    rewrite !lookup_status_update, !bool_decide_eq_true_2 by done.
    destruct (lookup_status (task_statuses s) (task_name_of req)) as [st|];
      [|done].
    simpl. do 2 f_equal. lia.
  - intros queue. simpl. rewrite T. unfold after_delivery. by rewrite F.
Qed.

Lemma sink_failure_isolated_witness :
  ∃ res s1 s2,
    process_task_analysis
      (Scenarios.world_of Scenarios.passed Scenarios.sink_down)
      (Scenarios.start "CASE")
      (set_is_processing true (set_global_task_lock true Scenarios.fresh))
      = (Ok res, s1)
    ∧ global_task_worker_turn
        (Scenarios.world_of Scenarios.passed Scenarios.sink_down)
        (Scenarios.start "CASE") Scenarios.fresh = Some (Ok (), s2)
    ∧ global_task_lock s2 = false
    ∧ is_processing s2 = false
    ∧ trace s2 =
        trace s1 ++
          [Posted
             (nodered_endpoint
                (Scenarios.world_of Scenarios.passed Scenarios.sink_down))
             (ResultBody res);
           Logged
             (ErrSendNodeRed (Exn "ConnectionError" "connection refused"));
           Logged
             (ErrGlobalWorker (task_name_of (Scenarios.start "CASE"))
                (Exn "ConnectionError" "connection refused"));
           Called_update_task_status (task_name_of (Scenarios.start "CASE"))
             "ERROR"]
    ∧ task_statuses s2 =
        update_statuses (task_statuses s1)
          (task_name_of (Scenarios.start "CASE")) "ERROR"
    ∧ lookup_status (task_statuses s2) (task_name_of (Scenarios.start "CASE"))
        = (λ st, TaskStatus "ERROR" (index st + 3)) <$>
            lookup_status (task_statuses Scenarios.fresh)
              (task_name_of (Scenarios.start "CASE"))
    ∧ ∀ queue,
        global_task_worker
          ((Scenarios.world_of Scenarios.passed Scenarios.sink_down,
            Scenarios.start "CASE") :: queue) Scenarios.fresh
        = global_task_worker queue s2.
Proof.
  apply (sink_failure_isolated
           (Scenarios.world_of Scenarios.passed Scenarios.sink_down)
           (Scenarios.start "CASE") Scenarios.fresh
           (Exn "ConnectionError" "connection refused")).
  - reflexivity.
  - reflexivity.
Defined.
End processing_facts.

(** ** The order store *)

Section order_facts.
Import AIControlSystem.

Lemma validate_missing md fields field s :
  field ∈ fields → md !! field = None →
  ∃ f, f ∈ fields ∧ md !! f = None
       ∧ validate md fields s =
           (Raise (Exn "ValueError" ("Missing required field: " +:+ f)), s).
Proof.
  intros In Miss. induction fields as [|f fields IH]; [by apply elem_of_nil in In|].
  simpl. unfold missing. destruct (md !! f) as [v|] eqn:E.
  - apply elem_of_cons in In as [->|In]; [congruence|].
    destruct (IH In) as (f' & ? & ? & ?). exists f'. by rewrite elem_of_cons; auto.
  - exists f. rewrite elem_of_cons. auto.
Qed.

(** C4. An order message without one of the six required fields: the
  call raises a ValueError and logs it, nothing is written to the order
  file, and what [get_current_order_data] returns, the order data every
  task is analysed with, is what it returned before. *)
Theorem malformed_order_rejected (message_data : order) (s : system)
    (field : string) :
  field ∈ required_fields →
  message_data !! field = None →
  ∃ e,
    process_web_message message_data s =
      (Raise e, set_trace (trace s ++ [Logged (ErrWebMessage e)]) s)
    ∧ exn_class e = "ValueError"
    ∧ order_file (process_web_message message_data s).2 = order_file s
    ∧ (get_current_order_data (process_web_message message_data s).2).1
        = (get_current_order_data s).1.
Proof.
  intros In Miss.
  destruct (validate_missing message_data required_fields field s In Miss)
    as (f & _ & _ & V).
  eexists.
  assert (process_web_message message_data s =
            (Raise (Exn "ValueError" ("Missing required field: " +:+ f)),
             set_trace
               (trace s ++
                [Logged (ErrWebMessage
                   (Exn "ValueError" ("Missing required field: " +:+ f)))])
               s)) as ->.
  { unfold process_web_message, try_except. unfold mbind at 1, M_bind at 1.
    by rewrite V. }
  split; [done|]. split; [done|]. split; [done|].
  unfold get_current_order_data. simpl. by destruct (order_file s).
Qed.
End order_facts.

Lemma malformed_order_rejected_witness :
  ∃ e,
    AIControlSystem.process_web_message
      Scenarios.order_without_bom Scenarios.fresh =
      (Raise e,
       AIControlSystem.set_trace
         (AIControlSystem.trace Scenarios.fresh ++
          [AIControlSystem.Logged (ErrWebMessage e)]) Scenarios.fresh)
    ∧ exn_class e = "ValueError"
    ∧ AIControlSystem.order_file
        (AIControlSystem.process_web_message
           Scenarios.order_without_bom Scenarios.fresh).2
        = AIControlSystem.order_file Scenarios.fresh
    ∧ (AIControlSystem.get_current_order_data
         (AIControlSystem.process_web_message
            Scenarios.order_without_bom Scenarios.fresh).2).1
        = (AIControlSystem.get_current_order_data Scenarios.fresh).1.
Proof.
  apply (malformed_order_rejected
           Scenarios.order_without_bom Scenarios.fresh "BOM").
  - unfold AIControlSystem.required_fields. set_solver.
  - reflexivity.
Defined.

Section revision_claim.
Import AIControlSystem.

Lemma calls_for_app ty calls calls' :
  calls_for ty (calls ++ calls') = (calls_for ty calls + calls_for ty calls')%nat.
Proof. unfold calls_for. by rewrite filter_app, length_app. Qed.

Lemma calls_for_cons ty st calls :
  calls_for ty ((ty, st) :: calls) = S (calls_for ty calls).
Proof. unfold calls_for. by rewrite filter_cons_True. Qed.

Lemma revision_after_count calls ty :
  ty ∈ known_types →
  revision_after calls ty = Some (Z.of_nat (calls_for ty calls)).
Proof.
  intros K. unfold revision_after. rewrite revision_transitions.
  unfold known_types in K. simpl in K.
  repeat (apply elem_of_cons in K as [->|K]; [reflexivity|]).
  by apply elem_of_nil in K.
Qed.

(** C6. Revision monotonicity, for a known task type, from the state
  [__init__] leaves: the entry starts IDLE at revision 0; after any run
  of calls of [update_task_status] the revision is the number of calls
  made for the type, so one more call for the type gives the revision
  plus one, and whatever calls follow, the revision stays above the value
  it had before that call (it never comes back to it) and, without a call
  for the type, never goes below where it was. *)
Theorem revision_strictly_increases (ty st : string)
    (before after : list (string * string)) :
  ty ∈ known_types →
  lookup_status initial_task_statuses ty = Some (TaskStatus "IDLE" 0)
  ∧ revision_after before ty = Some (Z.of_nat (calls_for ty before))
  ∧ revision_after (before ++ [(ty, st)]) ty
      = Some (Z.of_nat (calls_for ty before) + 1)
  ∧ (∃ r, revision_after (before ++ (ty, st) :: after) ty = Some r
          ∧ (Z.of_nat (calls_for ty before) < r)%Z)
  ∧ (∃ r, revision_after (before ++ after) ty = Some r
          ∧ (Z.of_nat (calls_for ty before) ≤ r)%Z).
Proof.
  intros K. split.
  { unfold known_types in K. simpl in K.
    repeat (apply elem_of_cons in K as [->|K]; [reflexivity|]).
    by apply elem_of_nil in K. }
  rewrite !revision_after_count by done.
  split; [done|]. split.
  { rewrite calls_for_app, calls_for_cons. f_equal. unfold calls_for. simpl. lia. }
  split; eexists; (split; [done|]); rewrite calls_for_app.
  - rewrite calls_for_cons. lia.
  - lia.
Qed.

Lemma revision_strictly_increases_witness :
  lookup_status initial_task_statuses "BOX" = Some (TaskStatus "IDLE" 0)
  ∧ revision_after [("BOX", "RUNNING"); ("CASE", "RUNNING")] "BOX"
      = Some (Z.of_nat
                (calls_for "BOX" [("BOX", "RUNNING"); ("CASE", "RUNNING")]))
  ∧ revision_after
      ([("BOX", "RUNNING"); ("CASE", "RUNNING")] ++ [("BOX", "COMPLETED")])
      "BOX"
      = Some (Z.of_nat
                (calls_for "BOX" [("BOX", "RUNNING"); ("CASE", "RUNNING")])
              + 1)
  ∧ (∃ r, revision_after
            ([("BOX", "RUNNING"); ("CASE", "RUNNING")]
             ++ ("BOX", "COMPLETED") :: [("CASE", "ERROR")]) "BOX" = Some r
          ∧ (Z.of_nat
               (calls_for "BOX" [("BOX", "RUNNING"); ("CASE", "RUNNING")])
             < r)%Z)
  ∧ (∃ r, revision_after
            ([("BOX", "RUNNING"); ("CASE", "RUNNING")]
             ++ [("CASE", "ERROR")]) "BOX" = Some r
          ∧ (Z.of_nat
               (calls_for "BOX" [("BOX", "RUNNING"); ("CASE", "RUNNING")])
             ≤ r)%Z).
Proof.
  apply (revision_strictly_increases "BOX" "COMPLETED"
           [("BOX", "RUNNING"); ("CASE", "RUNNING")] [("CASE", "ERROR")]).
  unfold known_types. simpl. set_solver.
Defined.

Example revision_after_ex :
  revision_after [("BOX", "RUNNING"); ("CASE", "RUNNING"); ("BOX", "ERROR")]
    "BOX" = Some 2.
Proof. reflexivity. Qed.
End revision_claim.

(** ** The heartbeat loop *)

Section heartbeat_facts.
Import AIControlSystem.

Lemma set_trace_set_trace tr tr' s :
  set_trace tr (set_trace tr' s) = set_trace tr s.
Proof. done. Qed.

(** The [for]: the posts it makes, and how it ends. *)
Lemma ping_each_runs ping_post current_time items s :
  ∃ evs,
    ping_each ping_post current_time items s =
      (match first_failure ping_post items with
       | None => Ok ()
       | Some e => Raise e
       end, set_trace (trace s ++ evs) s)
    ∧ pinged evs = attempted ping_post items
    ∧ slept evs = []
    ∧ ping_warnings evs = refused ping_post (attempted ping_post items)
    ∧ ∀ e, Logged (ErrPingWorker e) ∉ evs.
Proof.
  revert s. induction items as [|[ty info] items IH]; intros s.
  - exists []. simpl. rewrite app_nil_r, set_trace_id.
    repeat split; try done. intros e. apply not_elem_of_nil.
  - simpl. unfold mbind at 1, M_bind at 1. simpl.
    destruct (ping_post ty) as [code text|e] eqn:A.
    + unfold mbind at 1, M_bind at 1.
      case_bool_decide as C.
      * simpl. edestruct IH as (evs & -> & P & S & W & L).
        exists (Posted PING_API (PingBody ty current_time) :: evs).
        simpl. rewrite <-app_assoc. simpl. rewrite P, S, W.
        repeat split; try done.
        intros e. rewrite not_elem_of_cons.
        split; [done|apply L].
      * simpl. edestruct IH as (evs & -> & P & S & W & L).
        exists (Posted PING_API (PingBody ty current_time)
                :: Logged (WarnPingFailed ty code text) :: evs).
        simpl. rewrite <-!app_assoc. simpl. rewrite P, S, W.
        repeat split; try done.
        intros e. rewrite !not_elem_of_cons.
        repeat split; [done|done|apply L].
    + exists [Posted PING_API (PingBody ty current_time)].
      repeat split; try done.
      intros e'. rewrite not_elem_of_cons.
      split; [done|apply not_elem_of_nil].
Qed.

(** One cycle: it never raises, it posts for [attempted] and sleeps. *)
Lemma ping_cycle_runs current_time ping_post s :
  ∃ evs,
    ping_cycle current_time ping_post s = (Ok (), set_trace (trace s ++ evs) s)
    ∧ pinged evs = attempted ping_post (task_statuses s)
    ∧ slept evs = [60]
    ∧ ping_warnings evs =
        refused ping_post (attempted ping_post (task_statuses s))
    ∧ ∀ e, first_failure ping_post (task_statuses s) = Some e →
           Logged (ErrPingWorker e) ∈ evs.
Proof.
  unfold ping_cycle. unfold mbind, M_bind, try_except, logger, emit, modify.
  destruct (ping_each_runs ping_post current_time (task_statuses s) s)
    as (evs & -> & P & S & W & _).
  destruct (first_failure _ _) as [e|].
  - exists (evs ++ [Logged (ErrPingWorker e); Slept 60]). simpl.
    rewrite <-!app_assoc. simpl. split; [done|].
    unfold pinged, slept, ping_warnings in *. rewrite !omap_app, P, S, W.
    simpl. rewrite !app_nil_r. repeat split; try done.
    intros ? [= <-]. set_solver.
  - exists (evs ++ [Slept 60]). simpl.
    rewrite <-!app_assoc. split; [done|].
    unfold pinged, slept, ping_warnings in *. rewrite !omap_app, P, S, W.
    simpl. rewrite !app_nil_r. repeat split; done.
Qed.

(** The loop: one sleep per cycle, whatever the endpoint answers. *)
Lemma ping_status_worker_runs cycles s :
  ∃ evs,
    ping_status_worker cycles s = (Ok (), set_trace (trace s ++ evs) s)
    ∧ slept evs = replicate (length cycles) 60.
Proof.
  revert s. induction cycles as [|[current_time ping_post] cycles IH]; intros s.
  - exists []. simpl. by rewrite app_nil_r, set_trace_id.
  - simpl. unfold mbind, M_bind.
    destruct (ping_cycle_runs current_time ping_post s)
      as (evs & -> & _ & S & _).
    edestruct IH as (evs' & -> & S').
    exists (evs ++ evs'). simpl. rewrite <-app_assoc. split; [done|].
    unfold slept in *. by rewrite omap_app, S, S'.
Qed.

Lemma attempted_all ping_post (items : registry) :
  (∀ ty, ty ∈ items.*1 → responds (ping_post ty) = true) →
  attempted ping_post items = items.*1.
Proof.
  induction items as [|[ty info] items IH]; [done|]. intros R.
  cbn [fmap list_fmap fst attempted].
  assert (responds (ping_post ty) = true) as Rty
    by (apply R, elem_of_cons; by left).
  unfold responds in Rty. destruct (ping_post ty); [|discriminate Rty].
  f_equal. apply IH. intros ty' In. apply R, elem_of_cons. by right.
Qed.

(** C8, as stated, fails: when the post for CASE raises, the cycle posts
  for CASE only; BOX, whose post would have been answered 200, is not
  attempted. *)
Lemma heartbeat_exception_skips_the_rest :
  pinged (trace (ping_cycle "2025-01-01" Scenarios.case_ping_down
                   Scenarios.fresh).2) = ["CASE"]
  ∧ Scenarios.case_ping_down "BOX" = Response 200 ""
  ∧ "BOX" ∉ pinged (trace (ping_cycle "2025-01-01" Scenarios.case_ping_down
                             Scenarios.fresh).2).
Proof.
  split; [reflexivity|]. split; [reflexivity|].
  change (pinged _) with ["CASE"].
  rewrite not_elem_of_cons. split; [done|apply not_elem_of_nil].
Qed.

(** A response other than 200 is logged and does not stop the cycle. *)
Example heartbeat_500_goes_on :
  pinged (trace (ping_cycle "2025-01-01" Scenarios.case_ping_500
                   Scenarios.fresh).2)
  = ["CASE"; "BOX"; "COVER"; "FORDING"; "FINAL"]
  ∧ ping_warnings (trace (ping_cycle "2025-01-01" Scenarios.case_ping_500
                            Scenarios.fresh).2)
    = [("CASE", 500, "Internal Server Error")].
Proof. split; reflexivity. Qed.

(** C8, amended. A heartbeat cycle never raises and always reaches its
  sleep, and the loop runs one cycle after the other whatever the endpoint
  does; the registry is not changed. Within a cycle the task types are
  posted in order up to and including the first whose post raises an
  exception: that exception is logged and the remaining types are skipped
  until the next cycle. A response with a status other than 200 is logged
  as a warning with the task type, the status code and the text, one
  warning for each such response and no other, and the cycle goes on: when
  every post is answered, every task type is posted. *)
Theorem heartbeat_isolation (current_time : string)
    (ping_post : string → http) (s : system)
    (cycles : list (string * (string → http))) :
  (∃ evs,
     ping_cycle current_time ping_post s =
       (Ok (), set_trace (trace s ++ evs) s)
     ∧ slept evs = [60]
     ∧ pinged evs = attempted ping_post (task_statuses s)
     ∧ ((∀ ty, ty ∈ (task_statuses s).*1 → responds (ping_post ty) = true) →
        pinged evs = (task_statuses s).*1)
     ∧ ping_warnings evs =
         refused ping_post (attempted ping_post (task_statuses s))
     ∧ (∀ e, first_failure ping_post (task_statuses s) = Some e →
             Logged (ErrPingWorker e) ∈ evs))
  ∧ (∃ evs,
       ping_status_worker cycles s = (Ok (), set_trace (trace s ++ evs) s)
       ∧ slept evs = replicate (length cycles) 60).
Proof.
  split; [|apply ping_status_worker_runs].
  destruct (ping_cycle_runs current_time ping_post s)
    as (evs & E & P & S & W & L).
  exists evs. repeat (split; [done|]). split; [|done].
  intros R. rewrite P. by apply attempted_all.
Qed.
End heartbeat_facts.

(** ** Single flight *)

Section threads.
Import Dispatcher.

Lemma invariant_init n : invariant (init n) None.
Proof.
  split; simpl.
  - intros i p [-> _]%lookup_replicate. done.
  - intros i j p q [-> _]%lookup_replicate. done.
  - intros i. split; [|done]. intros (p & [-> _]%lookup_replicate & ?). done.
Qed.

Lemma lookup_set_pc s w p i q :
  set_pc w p s !! i = Some q →
  (i = w ∧ q = p) ∨ (i ≠ w ∧ workers s !! i = Some q).
Proof.
  unfold set_pc. intros H. apply list_lookup_insert_Some in H.
  destruct H as [(-> & -> & _)|[N L]]; auto.
Qed.

Lemma lookup_set_pc_same s w p q :
  workers s !! w = Some q → set_pc w p s !! w = Some p.
Proof.
  intros H. unfold set_pc. apply list_lookup_insert_eq.
  by apply lookup_lt_Some in H.
Qed.

Lemma lookup_set_pc_other s w p i :
  i ≠ w → set_pc w p s !! i = workers s !! i.
Proof. intros H. unfold set_pc. by apply list_lookup_insert_ne. Qed.

(** A step keeps the invariant, and what it emits is read in order. *)
Lemma step_invariant a s s' o current :
  step a s = Some (s', o) →
  invariant s current →
  ∃ current',
    invariant s' current'
    ∧ ∀ rest, serial_from current (o ++ rest) = serial_from current' rest.
Proof.
  intros St [Held One Cur]. destruct a as [r|w]; simpl in St.
  { injection St as <- <-. exists current. by split. }
  destruct (workers s !! w) as [p|] eqn:W; [|done].
  destruct p as [|r|r|r|r|r].
  - destruct (queue s) as [|r rest]; [done|]. injection St as <- <-.
    exists current. split; [|done]. split; simpl.
    + intros i p [[-> ->]|[N L]]%lookup_set_pc; [done|eauto].
    + intros i j p q [[-> ->]|[N L]]%lookup_set_pc
        [[-> ->]|[N' L']]%lookup_set_pc; try done. eauto.
    + intros i. rewrite <-Cur. split.
      * intros (p & [[-> ->]|[N L]]%lookup_set_pc & A); [done|eauto].
      * intros (p & L & A). destruct (decide (i = w)) as [->|N].
        -- rewrite W in L. by injection L as <-.
        -- exists p. by rewrite lookup_set_pc_other.
  - destruct (lock s) eqn:Lk; [done|]. injection St as <- <-.
    exists current. split; [|done]. split; simpl.
    + done.
    + intros i j p q [[-> ->]|[N L]]%lookup_set_pc
        [[-> ->]|[N' L']]%lookup_set_pc Hp Hq; try done.
      * specialize (Held _ _ L' Hq). congruence.
      * specialize (Held _ _ L Hp). congruence.
      * specialize (Held _ _ L Hp). congruence.
    + intros i. rewrite <-Cur. split.
      * intros (p & [[-> ->]|[N L]]%lookup_set_pc & A); [done|eauto].
      * intros (p & L & A). destruct (decide (i = w)) as [->|N].
        -- rewrite W in L. by injection L as <-.
        -- exists p. by rewrite lookup_set_pc_other.
  - injection St as <- <-.
    assert (current = None) as ->.
    { destruct current as [i|]; [|done].
      destruct (proj2 (Cur i) eq_refl) as (p & L & A).
      assert (i = w) as -> by (eapply One; eauto; by destruct p).
      rewrite W in L. by injection L as <-. }
    exists (Some w). split; [|done]. split; simpl.
    + intros i p [[-> ->]|[N L]]%lookup_set_pc Hp; eauto.
    + intros i j p q [[-> ->]|[N L]]%lookup_set_pc
        [[-> ->]|[N' L']]%lookup_set_pc Hp Hq; try done.
      * symmetry. eapply One; eauto.
      * eapply One; eauto.
      * eapply One; eauto.
    + intros i. split.
      * intros (p & [[-> ->]|[N L]]%lookup_set_pc & A); [done|].
        assert (None = Some i) by (apply Cur; eauto). done.
      * intros [= <-]. exists (InAnalysis r). split; [|done].
        by eapply lookup_set_pc_same.
  - injection St as <- <-.
    assert (current = Some w) as -> by (apply Cur; eauto).
    exists None. split.
    2:{ intros rest. simpl. by rewrite bool_decide_eq_true_2. }
    split; simpl.
    + intros i p [[-> ->]|[N L]]%lookup_set_pc Hp; eauto.
    + intros i j p q [[-> ->]|[N L]]%lookup_set_pc
        [[-> ->]|[N' L']]%lookup_set_pc Hp Hq; try done.
      * symmetry. eapply One; eauto.
      * eapply One; eauto.
      * eapply One; eauto.
    + intros i. split; [|done].
      intros (p & [[-> ->]|[N L]]%lookup_set_pc & A); [done|].
      assert (Some w = Some i) as [= ->] by (apply Cur; eauto). done.
  - injection St as <- <-.
    exists current. split; [|done]. split; simpl.
    + intros i p [[-> ->]|[N L]]%lookup_set_pc Hp; [done|].
      exfalso. apply N. eapply One; eauto.
    + intros i j p q [[-> ->]|[N L]]%lookup_set_pc
        [[-> ->]|[N' L']]%lookup_set_pc Hp Hq; try done.
      eapply One; eauto.
    + intros i. rewrite <-Cur. split.
      * intros (p & [[-> ->]|[N L]]%lookup_set_pc & A); [done|eauto].
      * intros (p & L & A). destruct (decide (i = w)) as [->|N].
        -- rewrite W in L. by injection L as <-.
        -- exists p. by rewrite lookup_set_pc_other.
  - injection St as <- <-.
    exists current. split; [|done]. split; simpl.
    + intros i p [[-> ->]|[N L]]%lookup_set_pc Hp; [done|eauto].
    + intros i j p q [[-> ->]|[N L]]%lookup_set_pc
        [[-> ->]|[N' L']]%lookup_set_pc Hp Hq; try done.
      eapply One; eauto.
    + intros i. rewrite <-Cur. split.
      * intros (p & [[-> ->]|[N L]]%lookup_set_pc & A); [done|eauto].
      * intros (p & L & A). destruct (decide (i = w)) as [->|N].
        -- rewrite W in L. by injection L as <-.
        -- exists p. by rewrite lookup_set_pc_other.
Qed.

Lemma run_serial acts s s' tr current :
  run acts s = Some (s', tr) →
  invariant s current →
  serial_from current tr = true.
Proof.
  revert s tr current. induction acts as [|a acts IH]; intros s tr current R I.
  - injection R as <- <-. by destruct current.
  - simpl in R. destruct (step a s) as [[s1 o]|] eqn:St; [|done].
    destruct (run acts s1) as [[s2 os]|] eqn:R1; [|done].
    injection R as <- <-.
    destruct (step_invariant _ _ _ _ _ St I) as (current' & I' & ->).
    eauto.
Qed.

(** C1. Single flight: with any number of producers putting requests and
  any number of threads running [global_task_worker] against the one
  [global_task_lock], in every interleaving the invocations of the
  analysis method are serial: none starts while another is in progress. *)
Theorem single_flight (n : nat) (acts : list action) (s : state)
    (tr : list obs) :
  run acts (init n) = Some (s, tr) → serial tr = true.
Proof. intros R. eapply run_serial; [done|apply invariant_init]. Qed.

Lemma single_flight_witness :
  ∃ s tr,
    run Scenarios.two_workers_schedule (init 2) = Some (s, tr)
    ∧ serial tr = true.
Proof.
  eexists _, _. split; [vm_compute; reflexivity|].
  apply (single_flight 2 Scenarios.two_workers_schedule
           (State [] false [AtGet; AtGet])
           [Started 0; Finished 0; Started 1; Finished 1]).
  vm_compute. reflexivity.
Defined.

(** A thread that reaches the [with] while another holds the lock cannot
  take the step. *)
Example second_thread_waits :
  run [Put (Scenarios.start "CASE"); Put (Scenarios.start "BOX");
       Run 0; Run 1; Run 0; Run 1] (init 2) = None.
Proof. reflexivity. Qed.
End threads.

(** * Further properties *)

(** ** The artifact ledger, continued *)

Section ledger_more.
Import FileTracker.
Context (fs : gset string).

Lemma tracked_subseteq_add_files file cs :
  tracked_types ⊆ dom (data (add_files fs (__init__ file) cs)).
Proof.
  rewrite add_files_dom, dom_init. apply union_subseteq_l.
Qed.

Lemma load_idempotent (d : ledger) :
  tracked_types ⊆ dom d →
  data (__init__ (Stored d)) = d.
Proof.
  intros Sub. simpl. apply map_eq. intros k.
  rewrite lookup_union, lookup_fmap.
  destruct (d !! k) as [l|] eqn:E; simpl.
  - by destruct (initial_data !! k).
  - destruct (initial_data !! k) as [l|] eqn:I; [|done].
    apply elem_of_dom_2 in I. rewrite dom_initial_data in I.
    apply Sub, elem_of_dom in I as [? ?]. congruence.
Qed.

Lemma add_call_cases s c :
  add_call fs s c = s
  ∨ (successful fs s c = true ∧ tracker_file (add_call fs s c) = Stored (data (add_call fs s c))).
Proof.
  unfold add_call, add_file, successful.
  destruct (data s !! c_type c) as [files|]; [|by left].
  case_bool_decide; [|by left]. right. split; [|done].
  rewrite andb_true_iff, !bool_decide_eq_true. eauto.
Qed.

(** What the tracker file holds after a run of calls: the data, unless no
    call was successful and the file is the one found at start-up. *)
Lemma add_files_file s cs :
  (add_files fs s cs = s)
  ∨ tracker_file (add_files fs s cs) = Stored (data (add_files fs s cs)).
Proof.
  revert s. induction cs as [|c cs IH] using rev_ind; intros s; [by left|].
  unfold add_files. rewrite foldl_app. simpl. fold (add_files fs s cs).
  destruct (add_call_cases (add_files fs s cs) c) as [E | [_ F]]; [rewrite E; apply IH | by right].
Qed.

(** X1. Restart: whatever tracker file a tracker started from and whatever
    calls of [add_file] it served, a tracker built anew from the tracker
    file it left has the same data. *)
Theorem restart_restores_ledger (file : disk_file ledger) (cs : list call) :
  data (__init__ (tracker_file (add_files fs (__init__ file) cs)))
  = data (add_files fs (__init__ file) cs).
Proof.
  destruct (add_files_file (__init__ file) cs) as [E | E]; rewrite E.
  - by destruct file.
  - apply load_idempotent, tracked_subseteq_add_files.
Qed.

(** X2. A call of [add_file] for one task type leaves the list of every
    other type as it was, and never adds or removes a key. *)
Theorem add_file_other_types (s : t) (ty p : string) (md : option metadata)
    (other : string) :
  other ≠ ty →
  history (add_file fs s ty p md).1 other = history s other
  ∧ dom (data (add_file fs s ty p md).1) = dom (data s).
Proof.
  intros N. split; [|apply add_file_dom].
  change (add_file fs s ty p md).1 with (add_call fs s (Call ty p md)).
  rewrite history_add_call. rewrite bool_decide_eq_false_2; [done|].
  simpl. intros [_ E]. by apply N.
Qed.

(** X3. Loading never drops or cuts what the tracker file holds: every key
    of the stored document, tracked or not, keeps its list as stored,
    however long; a tracked type the document lacks gets the empty list;
    nothing else becomes a key; and the file is not rewritten. *)
Theorem load_keeps_document (loaded_data : ledger) (k : string) :
  data (__init__ (Stored loaded_data)) !! k =
    match loaded_data !! k with
    | Some files => Some files
    | None => if bool_decide (k ∈ tracked_types) then Some [] else None
    end
  ∧ tracker_file (__init__ (Stored loaded_data)) = Stored loaded_data.
Proof.
  split; [|done]. simpl. rewrite lookup_union, lookup_fmap.
  destruct (loaded_data !! k) as [files|]; simpl.
  - by destruct (initial_data !! k).
  - case_bool_decide as T.
    + rewrite <-dom_initial_data in T. apply elem_of_dom in T as [l ->]. done.
    + rewrite <-dom_initial_data in T. apply not_elem_of_dom in T. by rewrite T.
Qed.

(** X4. The latest file of a type after a run of calls: the record of the
    last successful call for the type, or, without one, what was the latest
    before; [get_latest_files] has an entry for exactly the keys of the
    data. *)
Theorem latest_after_calls (s : t) (cs : list call) (ty : string) :
  get_latest_files (add_files fs s cs) !! ty =
    (λ files, head (recorded fs s cs ty ++ files)) <$> data s !! ty.
Proof.
  unfold get_latest_files. rewrite lookup_fmap.
  pose proof (history_add_files fs s cs ty) as H. unfold history in H.
  pose proof (add_files_dom fs s cs) as D.
  destruct (data s !! ty) as [files|] eqn:E.
  - assert (is_Some (data (add_files fs s cs) !! ty)) as [files' E'].
    { apply elem_of_dom. rewrite D. by apply elem_of_dom_2 in E. }
    rewrite E' in *. simpl in *. subst files'. f_equal.
    by destruct (recorded fs s cs ty) as [|r recs].
  - assert (data (add_files fs s cs) !! ty = None) as ->; [|done].
    apply not_elem_of_dom. rewrite D. by apply not_elem_of_dom.
Qed.
End ledger_more.

Lemma add_file_other_types_witness :
  FileTracker.history
    (FileTracker.add_file (list_to_set Scenarios.cover_paths)
       (FileTracker.__init__ Absent) "COVER" "out/cover_1.jpg" None).1 "CASE"
    = FileTracker.history (FileTracker.__init__ Absent) "CASE"
  ∧ dom (FileTracker.data
           (FileTracker.add_file (list_to_set Scenarios.cover_paths)
              (FileTracker.__init__ Absent) "COVER" "out/cover_1.jpg" None).1)
    = dom (FileTracker.data (FileTracker.__init__ Absent)).
Proof.
  apply (add_file_other_types (list_to_set Scenarios.cover_paths)
           (FileTracker.__init__ Absent) "COVER" "out/cover_1.jpg" None "CASE").
  discriminate.
Defined.

(** ** The order store, continued *)

Section order_more.
Import AIControlSystem.

Lemma validate_present md fields s :
  forallb (λ field, negb (missing md field)) fields = true →
  validate md fields s = (Ok (), s).
Proof.
  induction fields as [|f fields IH]; [done|]. simpl.
  rewrite andb_true_iff, negb_true_iff. intros [-> H]. by apply IH.
Qed.

Lemma present_lookup md field :
  all_present md = true → field ∈ required_fields → is_Some (md !! field).
Proof.
  unfold all_present. rewrite forallb_forall. intros H In.
  apply list_elem_of_In, H in In. unfold missing in In.
  by destruct (md !! field).
Qed.

Lemma some_missing md :
  all_present md = false →
  ∃ field, field ∈ required_fields ∧ md !! field = None.
Proof.
  unfold all_present. generalize required_fields. intros fields.
  induction fields as [|f fields IH]; [done|]. simpl.
  unfold missing at 1. destruct (md !! f) eqn:E; simpl.
  - intros (field & ? & ?)%IH. exists field. split; [by right|done].
  - intros _. exists f. split; [by left|done].
Qed.

(** How [process_web_message] ends, by the shape of the message. *)
Lemma process_web_message_cases md s :
  if all_present md then
    if well_formed md then
      process_web_message md s = (Ok (), set_order_file (Stored md) s)
    else
      ∃ e, exn_class e = "TypeError"
           ∧ process_web_message md s =
               (Raise e,
                set_trace (trace s ++ [Logged (ErrWebMessage e)])
                  (set_order_file (Stored md) s))
  else
    ∃ e, exn_class e = "ValueError"
         ∧ process_web_message md s =
             (Raise e, set_trace (trace s ++ [Logged (ErrWebMessage e)]) s).
Proof.
  destruct (all_present md) eqn:P.
  - unfold well_formed. rewrite P. simpl.
    destruct (present_lookup md "ORDER_NO" P) as [v1 E1];
      [unfold required_fields; rewrite !elem_of_cons; tauto|].
    destruct (present_lookup md "ITEM_NM" P) as [v2 E2];
      [unfold required_fields; rewrite !elem_of_cons; tauto|].
    destruct (present_lookup md "ITEM_CLASS" P) as [v3 E3];
      [unfold required_fields; rewrite !elem_of_cons; tauto|].
    destruct (present_lookup md "BOM" P) as [bom E4];
      [unfold required_fields; rewrite !elem_of_cons; tauto|].
    destruct (present_lookup md "RECIPE" P) as [recipe E5];
      [unfold required_fields; rewrite !elem_of_cons; tauto|].
    rewrite E4, E5.
    assert (∀ k : () → M (), (validate md required_fields ≫= k) s = k () s)
      as V.
    { intros k. unfold mbind, M_bind. by rewrite validate_present. }
    destruct bom, recipe; simpl; try eexists;
      unfold process_web_message, try_except; rewrite V;
      unfold mbind, M_bind, write_order_file, modify, getitem, len, mret,
        M_ret, raise, logger, emit;
      rewrite ?E1, ?E2, ?E3, ?E4, ?E5;
      first [reflexivity | split; [|reflexivity]; reflexivity].
  - destruct (some_missing md P) as (field & In & Miss).
    destruct (validate_missing md required_fields field s In Miss)
      as (f & _ & _ & V).
    eexists. split; [|unfold process_web_message, try_except;
                      unfold mbind at 1, M_bind at 1; by rewrite V].
    done.
Qed.

(** X5. Order round trip: a message with the six required fields whose BOM
    and RECIPE are a string, a list or an object is stored without an
    error and without a log record at warning or error level, and the next
    read of the order data returns exactly that message. *)
Theorem order_round_trip (message_data : order) (s : system) :
  well_formed message_data = true →
  process_web_message message_data s =
    (Ok (), set_order_file (Stored message_data) s)
  ∧ get_current_order_data (set_order_file (Stored message_data) s) =
      (Ok message_data, set_order_file (Stored message_data) s).
Proof.
  intros W. pose proof (process_web_message_cases message_data s) as H.
  rewrite W in H. unfold well_formed in W.
  apply andb_true_iff in W as [[P _]%andb_true_iff _]. rewrite P in H.
  split; [done|]. by destruct s.
Qed.

(** X6. A message with the six required fields whose BOM or RECIPE is
    null, a boolean or a number passes the validation and is written to the
    order file; the call then raises a TypeError from the log line that
    takes their lengths. The caller sees a failure, yet the order data read
    afterwards is the new message. *)
Theorem order_written_then_raised (message_data : order) (s : system) :
  all_present message_data = true →
  well_formed message_data = false →
  ∃ e s',
    process_web_message message_data s = (Raise e, s')
    ∧ exn_class e = "TypeError"
    ∧ order_file s' = Stored message_data
    ∧ (get_current_order_data s').1 = Ok message_data.
Proof.
  intros P W. pose proof (process_web_message_cases message_data s) as H.
  rewrite P, W in H. destruct H as (e & C & ->).
  eexists _, _. split; [done|]. split; [done|]. split; done.
Qed.

Lemma web_to_ai_callback_object l s :
  web_to_ai_callback (Some (JObj l)) s =
    match to_dict l !! "ORDER_NO" with
    | Some _ =>
        match process_web_message (to_dict l) s with
        | (Ok _, s') => (Ack, s')
        | (Raise e, s') => (Nack false, (logger (ErrWebMessage e) s').2)
        end
    | None =>
        (Nack false, (logger (ErrWebMessage (KeyError "ORDER_NO")) s).2)
    end.
Proof.
  unfold web_to_ai_callback, subscript, mbind, M_bind, mret, M_ret, getitem.
  by destruct (to_dict l !! "ORDER_NO").
Qed.

(** X7. The callback of the WEB_TO_AI queue never raises and answers every
    message: it acknowledges exactly the messages that are a JSON object
    which [process_web_message] takes to the end, and then the order file
    holds the message; every other message is rejected without requeue.
    A rejected message that is not an object with the six required fields
    leaves the order file as it was. *)
Theorem web_to_ai_callback_answers (body : option json) (s : system) :
  ((web_to_ai_callback body s).1 = Ack
   ∨ (web_to_ai_callback body s).1 = Nack false)
  ∧ ((web_to_ai_callback body s).1 = Ack ↔
     ∃ l, body = Some (JObj l) ∧ well_formed (to_dict l) = true)
  ∧ (∀ l, body = Some (JObj l) → well_formed (to_dict l) = true →
          order_file (web_to_ai_callback body s).2 = Stored (to_dict l))
  ∧ ((∀ l, body = Some (JObj l) → all_present (to_dict l) = false) →
     order_file (web_to_ai_callback body s).2 = order_file s).
Proof.
  destruct body as [[| | | |l'|l]|];
    try (unfold web_to_ai_callback; simpl; split; [by right|];
         split; [split; [done|by intros (? & ? & ?)]|];
         split; [by intros|done]).
  rewrite web_to_ai_callback_object.
  pose proof (process_web_message_cases (to_dict l) s) as H.
  destruct (all_present (to_dict l)) eqn:P.
  - destruct (present_lookup (to_dict l) "ORDER_NO" P) as [v ->];
      [unfold required_fields; rewrite !elem_of_cons; tauto|].
    destruct (well_formed (to_dict l)) eqn:W.
    + rewrite H. simpl. split; [by left|]. split; [split; eauto|].
      split; [by intros ? [= <-] _|].
      intros A. specialize (A l eq_refl). congruence.
    + destruct H as (e & C & ->). simpl. split; [by right|].
      split; [split; [done|]; intros (? & [= <-] & ?); congruence|].
      split; [intros ? [= <-]; congruence|].
      intros A. specialize (A l eq_refl). congruence.
  - assert (well_formed (to_dict l) = false) as W
      by (unfold well_formed; by rewrite P).
    destruct (to_dict l !! "ORDER_NO") as [v|] eqn:O.
    + destruct H as (e & C & ->). simpl. split; [by right|].
      split; [split; [done|]; intros (? & [= <-] & ?); congruence|].
      split; [intros ? [= <-]; congruence|done].
    + split; [by right|].
      split; [split; [done|]; intros (? & [= <-] & ?); congruence|].
      split; [intros ? [= <-]; congruence|done].
Qed.
End order_more.

Lemma order_round_trip_witness :
  AIControlSystem.process_web_message Scenarios.order_with_bom Scenarios.fresh
    = (Ok (),
       AIControlSystem.set_order_file (Stored Scenarios.order_with_bom)
         Scenarios.fresh)
  ∧ AIControlSystem.get_current_order_data
      (AIControlSystem.set_order_file (Stored Scenarios.order_with_bom)
         Scenarios.fresh)
    = (Ok Scenarios.order_with_bom,
       AIControlSystem.set_order_file (Stored Scenarios.order_with_bom)
         Scenarios.fresh).
Proof.
  apply (order_round_trip Scenarios.order_with_bom Scenarios.fresh).
  reflexivity.
Defined.

Lemma order_written_then_raised_witness :
  ∃ e s',
    AIControlSystem.process_web_message Scenarios.order_with_null_bom
      Scenarios.fresh = (Raise e, s')
    ∧ exn_class e = "TypeError"
    ∧ AIControlSystem.order_file s' = Stored Scenarios.order_with_null_bom
    ∧ (AIControlSystem.get_current_order_data s').1
        = Ok Scenarios.order_with_null_bom.
Proof.
  apply (order_written_then_raised Scenarios.order_with_null_bom
           Scenarios.fresh).
  - reflexivity.
  - reflexivity.
Defined.

(** ** The status registry and the upload, continued *)

Section registry_more.
Import AIControlSystem.

(** X8. A status transition touches one entry: the keys of the registry and
    their order stay as they are, the entry of the type, if there is one,
    gets the new status and the next revision, and every other entry is
    left alone; for a type without an entry nothing changes at all. *)
Theorem update_touches_one_entry (reg : registry) (ty st other : string) :
  (update_statuses reg ty st).*1 = reg.*1
  ∧ lookup_status (update_statuses reg ty st) ty =
      (λ e, TaskStatus st (index e + 1)) <$> lookup_status reg ty
  ∧ (other ≠ ty →
     lookup_status (update_statuses reg ty st) other = lookup_status reg other)
  ∧ (ty ∉ reg.*1 → update_statuses reg ty st = reg).
Proof.
  split; [apply update_statuses_keys|].
  split; [by rewrite lookup_status_update, bool_decide_eq_true_2|].
  split; [|apply update_statuses_absent].
  intros N. by rewrite lookup_status_update, bool_decide_eq_false_2.
Qed.

(** X9. [upload_file] never raises and changes nothing but the trace. It
    returns [True] exactly when the file exists, can be opened for reading,
    and the endpoint answers 200; the request is posted exactly when the
    file exists and can be opened. *)
Theorem upload_file_outcome (w : world) (p ty : string) (d : details)
    (o : string) (s : system) :
  ∃ b evs,
    upload_file w p ty d o s =
      (Ok b, set_trace (trace s ++ Called_upload_file p ty d o :: evs) s)
    ∧ (b = true ↔
       p ∈ fs w ∧ unreadable w p = None
       ∧ ∃ text, upload_post w = Response 200 text)
    ∧ (Posted UPLOAD_API (UploadBody p ty o d) ∈ evs ↔
       p ∈ fs w ∧ unreadable w p = None).
Proof.
  unfold upload_file, try_except, mbind, M_bind, emit, logger, emit, modify,
    mret, M_ret, raise.
  case_bool_decide as F.
  - destruct (unreadable w p) as [e|] eqn:R.
    { exists false, [Logged (ErrUploading p e)].
      simpl. rewrite <-!app_assoc. split; [done|].
      split; [split; [done|]; intros (_ & ? & _); done|].
      rewrite list_elem_of_singleton. split; [done|]. intros (_ & ?). done. }
    destruct (upload_post w) as [code text|e] eqn:U.
    + case_bool_decide as C.
      * subst code. exists true, [Posted UPLOAD_API (UploadBody p ty o d)].
        simpl. rewrite <-app_assoc. split; [done|].
        split; [split; eauto|]. split; [done|]. intros _.
        apply list_elem_of_here.
      * exists false, [Posted UPLOAD_API (UploadBody p ty o d);
                       Logged (ErrUploadFailed code text)].
        simpl. rewrite <-!app_assoc. split; [done|].
        split; [split; [done|]; intros (_ & _ & text' & [= -> _]); done|].
        split; [done|]. intros _. apply list_elem_of_here.
    + exists false, [Posted UPLOAD_API (UploadBody p ty o d);
                     Logged (ErrUploading p e)].
      simpl. rewrite <-!app_assoc. split; [done|].
      split; [split; [done|]; intros (_ & _ & text' & [=]) |].
      split; [done|]. intros _. apply list_elem_of_here.
  - exists false, [Logged (ErrFileNotFound p)].
    simpl. rewrite <-!app_assoc. split; [done|].
    split; [split; [done|]; intros [? _]; done|].
    rewrite list_elem_of_singleton. split; [done|]. intros [? _]. done.
Qed.

(** A path that exists but cannot be opened: nothing is posted, the
    exception is logged and the answer is [False]. *)
Example upload_of_a_directory :
  upload_file
    (Scenarios.with_directory "out"
       (Scenarios.world_of Scenarios.ng_with_video (Response 200 "")))
    "out" "CASE" (DStr "Q002") "UNKNOWN" Scenarios.fresh
  = (Ok false,
     set_trace
       [Called_upload_file "out" "CASE" (DStr "Q002") "UNKNOWN";
        Logged (ErrUploading "out"
                  (Exn "IsADirectoryError" "Is a directory"))]
       Scenarios.fresh).
Proof. reflexivity. Qed.
End registry_more.

(** ** Task processing, continued *)

Section processing_more.
Import AIControlSystem.

Lemma delivered_app tr tr' :
  delivered (tr ++ tr') = delivered tr ++ delivered tr'.
Proof. apply omap_app. Qed.

Lemma delivered_logged logs : delivered (Logged <$> logs) = [].
Proof. by induction logs. Qed.

Lemma delivered_order_logs f : delivered (order_logs f) = [].
Proof. by destruct f. Qed.

(** [upload_file], with what its events are not. *)
Lemma wp_upload_file_quiet w p ty d o (Q : result bool → system → Prop) s :
  (∀ b evs, uploads evs = [] → delivered evs = [] →
     Q (Ok b)
       (set_trace (trace s ++ Called_upload_file p ty d o :: evs) s)) →
  wp (upload_file w p ty d o) Q s.
Proof.
  intros H. unfold upload_file. wp_steps; simpl;
    rewrite <-?app_assoc; simpl; by apply H.
Qed.

(** Lines 362-372 in full. *)
Lemma wp_record_and_upload_full w name ar
    (Q : result analysis_result → system → Prop) s :
  (∀ r evs,
     match key_error ar with
     | Some key => r = Raise (KeyError key)
     | None => ∃ ar', r = Ok ar'
                 ∧ ar_status ar' = ar_status ar
                 ∧ ar_confidence ar' = ar_confidence ar
                 ∧ ar_details ar' = ar_details ar
     end →
     uploads evs =
       match artifact ar, ar_status ar, ar_details ar with
       | Some p, Some st, Some _ =>
           if py_str_eq st "NG" then [(p, name)] else []
       | _, _, _ => []
       end →
     delivered evs = [] →
     Q r (System (task_statuses s) (order_file s)
            match artifact ar with
            | Some p =>
                (FileTracker.add_file (fs w) (file_tracker s) name p
                   (Some (file_metadata w ar))).1
            | None => file_tracker s
            end
            (global_task_lock s) (is_processing s) (trace s ++ evs))) →
  wp (record_and_upload w name ar) Q s.
Proof.
  intros H. unfold record_and_upload, key_error, artifact in *.
  assert (∀ s0 : system,
            System (task_statuses s0) (order_file s0) (file_tracker s0)
              (global_task_lock s0) (is_processing s0) (trace s0 ++ []) = s0)
    as Id by (intros []; simpl; by rewrite app_nil_r).
  destruct (ar_saved_file_path ar) as [p|].
  2:{ apply wp_ret. rewrite <-(Id s). apply H; eauto. }
  destruct (truthy p).
  2:{ apply wp_ret. rewrite <-(Id s). apply H; eauto. }
  apply wp_bind, wp_add_file, wp_bind, wp_getitem.
  destruct (ar_status ar) as [st|] eqn:S.
  2:{ simpl. apply H; [done| |].
      - simpl. by rewrite uploads_logged.
      - simpl. by rewrite delivered_logged. }
  destruct (py_str_eq st "NG") eqn:NG.
  - apply wp_bind, wp_getitem.
    destruct (ar_details ar) as [d|] eqn:D.
    + apply wp_bind, wp_upload_file_quiet. intros b evs U V.
      apply wp_ret. simpl. rewrite <-app_assoc. simpl. apply H.
      * eexists. split; [done|]. by simpl.
      * simpl. rewrite uploads_app, uploads_logged. simpl. by rewrite U.
      * simpl. rewrite delivered_app, delivered_logged. simpl. by rewrite V.
    + simpl. apply H; [done| |].
      * simpl. by rewrite uploads_logged.
      * simpl. by rewrite delivered_logged.
  - apply wp_ret. simpl. apply H.
    + eauto.
    + simpl. rewrite uploads_logged. by destruct (ar_details ar).
    + simpl. by rewrite delivered_logged.
Qed.

Lemma build_result_same name od ar ar' :
  ar_status ar' = ar_status ar →
  ar_confidence ar' = ar_confidence ar →
  ar_details ar' = ar_details ar →
  build_result name od ar' = build_result name od ar.
Proof. unfold build_result. by intros -> -> ->. Qed.

(** Task processing in full: the result, the state and the uploads. *)
Lemma process_task_analysis_full w req s :
  ∃ evs,
    process_task_analysis w req s =
      (Ok (result_of w req s),
       System (statuses_of w req s) (order_file s) (tracker_of w req s)
         (global_task_lock s) (is_processing s) (trace s ++ evs))
    ∧ uploads evs = uploads_of w req s
    ∧ delivered evs = [].
Proof.
  cut (wp (process_task_analysis w req)
         (λ r s', ∃ evs,
            r = Ok (result_of w req s)
            ∧ s' = System (statuses_of w req s) (order_file s)
                     (tracker_of w req s) (global_task_lock s)
                     (is_processing s) (trace s ++ evs)
            ∧ uploads evs = uploads_of w req s
            ∧ delivered evs = []) s).
  { unfold wp. intros (evs & Hr & Hs & H). exists evs. split; [|done].
    rewrite <-Hr, <-Hs. apply surjective_pairing. }
  unfold statuses_of, result_of, tracker_of, uploads_of, outcome.
  unfold process_task_analysis.
  apply wp_try_except, wp_bind, wp_update_task_status.
  apply wp_bind, wp_select_method. intros key _. cbn beta iota.
  apply wp_bind, wp_get_current_order_data. simpl.
  apply wp_bind, wp_call_analysis.
  destruct (selected _ _ _) as [ar|e] eqn:A.
  - apply wp_bind, wp_record_and_upload_full. simpl.
    intros r evs Hr U V. destruct (key_error ar) as [k|] eqn:K.
    + subst r.
      apply wp_bind, wp_update_task_status, wp_bind, wp_logger, wp_ret. simpl.
      eexists. split; [done|]. rewrite <-!app_assoc. split; [done|].
      by repeat (rewrite ?uploads_app, ?delivered_app, ?uploads_order_logs,
                   ?delivered_order_logs, ?app_nil_r, ?U, ?V; simpl).
    + destruct Hr as (ar' & -> & Hs & Hc & Hd).
      pose proof (build_result_same (task_name_of req)
                    (order_data_of (order_file s)) ar ar' Hs Hc Hd) as B.
      apply wp_bind.
      match goal with |- wp (if ?b then _ else _) _ _ =>
        change b with
          (py_str_eq (RESULT (build_result (task_name_of req)
                                (order_data_of (order_file s)) ar')) "OK")
      end.
      rewrite B.
      destruct (py_str_eq _ "OK") eqn:R;
        apply wp_update_task_status, wp_ret; simpl;
        (eexists; split; [by rewrite <-B|]; rewrite <-!app_assoc;
         split; [done|];
         by repeat (rewrite ?uploads_app, ?delivered_app,
                      ?uploads_order_logs, ?delivered_order_logs,
                      ?app_nil_r, ?U, ?V;
                    simpl)).
  - apply wp_bind, wp_update_task_status, wp_bind, wp_logger, wp_ret. simpl.
    eexists. split; [done|]. rewrite <-!app_assoc. split; [done|].
    by rewrite ?uploads_app, ?delivered_app, ?uploads_order_logs,
      ?delivered_order_logs.
Qed.

(** C7, amended. Task processing of a request (its START a string, or
    absent) returns a result and raises no exception. Its [RESULT] is the
    status of the outcome the analysis method returned, passed through
    unchanged whatever that string is ("OK", "NG", "ERROR", ...), when none
    of the keys task processing subscripts is missing; it is "ERROR" when
    the outcome has no status, when such a key is missing and when the
    analysis method raised. The registry is left as two transitions of the
    task's type leave it: to RUNNING, then to COMPLETED when [RESULT] is
    "OK" and to ERROR otherwise, so that an entry of the type ends two
    revisions on, in COMPLETED exactly when [RESULT] is "OK". *)
Theorem result_and_terminal_status (w : world) (req : task_request)
    (s : system) :
  ∃ res s',
    process_task_analysis w req s = (Ok res, s')
    ∧ RESULT res =
        match outcome w req s with
        | Ok ar =>
            match key_error ar with
            | None => get (ar_status ar) "ERROR"
            | Some _ => "ERROR"
            end
        | Raise _ => "ERROR"
        end
    ∧ task_statuses s' =
        update_statuses
          (update_statuses (task_statuses s) (task_name_of req) "RUNNING")
          (task_name_of req)
          (if py_str_eq (RESULT res) "OK" then "COMPLETED" else "ERROR")
    ∧ lookup_status (task_statuses s') (task_name_of req) =
        (λ st, TaskStatus
                 (if py_str_eq (RESULT res) "OK" then "COMPLETED" else "ERROR")
                 (index st + 2)) <$>
          lookup_status (task_statuses s) (task_name_of req).
Proof.
  destruct (process_task_analysis_full w req s) as (evs & P & _).
  eexists _, _. split; [exact P|]. split.
  - unfold result_of. destruct (outcome w req s) as [ar|e]; [|done].
    destruct (key_error ar); [done|]. apply RESULT_build_result.
  - split; [done|]. simpl. unfold statuses_of.
    rewrite !lookup_status_update, !bool_decide_eq_true_2 by done.
    destruct (lookup_status (task_statuses s) (task_name_of req)) as [st|];
      [|done].
    simpl. do 2 f_equal. lia.
Qed.

(** X10. Analyzer failure: when the analysis method raises, task processing
    still returns: the result is ERROR with order number "UNKNOWN" (even
    when the order file has one), confidence "0%" and the message of the
    exception after "Error: "; the type goes to RUNNING and then to ERROR;
    nothing is recorded in the ledger and nothing is uploaded. *)
Theorem analyzer_failure (w : world) (req : task_request) (s : system)
    (e : exn) :
  outcome w req s = Raise e →
  ∃ s' evs,
    process_task_analysis w req s =
      (Ok {| NAME := task_name_of req;
             RESULT := "ERROR";
             ORDER_NO := JStr "UNKNOWN";
             CONFIDENCE := "0%";
             DETAILS := DStr ("Error: " +:+ exn_str e) |}, s')
    ∧ trace s' = trace s ++ evs
    ∧ uploads evs = []
    ∧ file_tracker s' = file_tracker s
    ∧ task_statuses s' =
        update_statuses
          (update_statuses (task_statuses s) (task_name_of req) "RUNNING")
          (task_name_of req) "ERROR".
Proof.
  intros O. destruct (process_task_analysis_full w req s) as (evs & P & U & _).
  unfold result_of, tracker_of, statuses_of, result_of, uploads_of in *.
  rewrite O in *. eexists _, evs. split; [exact P|]. by simpl.
Qed.

(** X11. When no key is missing, the result is built from the outcome and
    the order data read at dispatch: the status, confidence and details of
    the outcome (with the defaults "ERROR", "0%" and "No details
    available" for absent keys) and the ORDER_NO of the order file, or
    "UNKNOWN" when the file has none or cannot be read. *)
Theorem result_from_outcome (w : world) (req : task_request) (s : system)
    (ar : analysis_result) :
  outcome w req s = Ok ar →
  key_error ar = None →
  ∃ s',
    process_task_analysis w req s =
      (Ok {| NAME := task_name_of req;
             RESULT := get (ar_status ar) "ERROR";
             ORDER_NO := get (order_data_of (order_file s) !! "ORDER_NO")
                           (JStr "UNKNOWN");
             CONFIDENCE := get (ar_confidence ar) "0%";
             DETAILS := get (ar_details ar) (DStr "No details available") |},
       s').
Proof.
  intros O K. destruct (process_task_analysis_full w req s) as (evs & P & _).
  unfold result_of in P. rewrite O, K in P. eexists. rewrite P.
  do 2 f_equal. unfold build_result. f_equal.
  by destruct (ar_status ar).
Qed.

(** X12. A missing key after the record: when the outcome has a saved file
    but no status, or has status "NG" but no details, the lookup raises
    after [add_file] has run. The result is ERROR with the name of the key
    in its details and nothing is uploaded; yet when the file exists at the
    saved path and the type is a key of the tracker, the ledger already
    holds the record of the file as the newest of the type. When the file
    does not exist or the type is not a key, the ledger is as it was. *)
Theorem missing_key_after_record (w : world) (req : task_request)
    (s : system) (ar : analysis_result) (key : string) :
  outcome w req s = Ok ar →
  key_error ar = Some key →
  ∃ p s' evs,
    artifact ar = Some p
    ∧ process_task_analysis w req s =
        (Ok (error_result (task_name_of req) (KeyError key)), s')
    ∧ trace s' = trace s ++ evs
    ∧ uploads evs = []
    ∧ (p ∈ fs w →
       is_Some (FileTracker.data (file_tracker s) !! task_name_of req) →
       FileTracker.history (file_tracker s') (task_name_of req) =
         take FileTracker.MAX_TRACKED_FILES
           (FileTracker.FileInfo p (basename p) (now w)
              (get (ar_status ar) "UNKNOWN") (task_name_of req)
              (get (ar_details ar) (DStr ""))
            :: FileTracker.history (file_tracker s) (task_name_of req)))
    ∧ (p ∉ fs w
       ∨ FileTracker.data (file_tracker s) !! task_name_of req = None →
       file_tracker s' = file_tracker s).
Proof.
  intros O K.
  destruct (process_task_analysis_full w req s) as (evs & P & U & _).
  unfold result_of, tracker_of, uploads_of in *. rewrite O in *. rewrite K in P.
  assert (∃ p, artifact ar = Some p
               ∧ (ar_status ar = None ∨ ar_details ar = None)) as (p & A & N).
  { unfold key_error, artifact in *.
    destruct (ar_saved_file_path ar) as [p|]; [|done].
    destruct (truthy p); [|done]. exists p. split; [done|].
    destruct (ar_status ar); [|by left].
    destruct (ar_details ar); [|by right].
    by destruct (py_str_eq _ _). }
  rewrite A in *. exists p. eexists _, evs. split; [done|].
  split; [exact P|]. split; [done|]. split.
  { rewrite U. destruct N as [-> | ->]; [done|]. by destruct (ar_status ar). }
  simpl.
  apply (add_file_history (fs w) (file_tracker s) (task_name_of req) p
           (file_metadata w ar)).
Qed.

(** X13. What task processing of a request (its START a string, or absent)
    leaves alone: it returns a result, never writes the order file, never
    touches the lock or the processing flag, only appends to the trace, and
    does not post a result to the sink itself; without a saved file in the
    outcome, or when the analysis raised, the ledger is untouched as
    well. *)
Theorem processing_frame (w : world) (req : task_request) (s : system) :
  ∃ res s' evs,
    process_task_analysis w req s = (Ok res, s')
    ∧ order_file s' = order_file s
    ∧ global_task_lock s' = global_task_lock s
    ∧ is_processing s' = is_processing s
    ∧ trace s' = trace s ++ evs
    ∧ delivered evs = []
    ∧ ((∀ ar, outcome w req s = Ok ar → artifact ar = None) →
       file_tracker s' = file_tracker s).
Proof.
  destruct (process_task_analysis_full w req s) as (evs & P & _ & D).
  eexists _, _, evs. split; [exact P|]. simpl. repeat (split; [done|]).
  intros A. unfold tracker_of. destruct (outcome w req s) as [ar|e]; [|done].
  by rewrite (A ar eq_refl).
Qed.
End processing_more.

Lemma analyzer_failure_witness :
  ∃ s' evs,
    AIControlSystem.process_task_analysis Scenarios.broken_world
      (Scenarios.start "BOX") Scenarios.fresh =
      (Ok {| AIControlSystem.NAME := "BOX";
             AIControlSystem.RESULT := "ERROR";
             AIControlSystem.ORDER_NO := JStr "UNKNOWN";
             AIControlSystem.CONFIDENCE := "0%";
             AIControlSystem.DETAILS := DStr "Error: camera lost" |}, s')
    ∧ AIControlSystem.trace s' = AIControlSystem.trace Scenarios.fresh ++ evs
    ∧ AIControlSystem.uploads evs = []
    ∧ AIControlSystem.file_tracker s' =
        AIControlSystem.file_tracker Scenarios.fresh
    ∧ AIControlSystem.task_statuses s' =
        AIControlSystem.update_statuses
          (AIControlSystem.update_statuses
             (AIControlSystem.task_statuses Scenarios.fresh) "BOX" "RUNNING")
          "BOX" "ERROR".
Proof.
  apply (analyzer_failure Scenarios.broken_world (Scenarios.start "BOX")
           Scenarios.fresh (Exn "RuntimeError" "camera lost")).
  reflexivity.
Defined.

Lemma result_from_outcome_witness :
  ∃ s',
    AIControlSystem.process_task_analysis
      (Scenarios.world_of Scenarios.ng_with_video
         (AIControlSystem.Response 200 ""))
      (Scenarios.start "CASE") Scenarios.fresh =
      (Ok {| AIControlSystem.NAME := "CASE";
             AIControlSystem.RESULT := "NG";
             AIControlSystem.ORDER_NO := JStr "UNKNOWN";
             AIControlSystem.CONFIDENCE := "0%";
             AIControlSystem.DETAILS := DStr "Q002" |}, s').
Proof.
  apply (result_from_outcome
           (Scenarios.world_of Scenarios.ng_with_video
         (AIControlSystem.Response 200 ""))
           (Scenarios.start "CASE") Scenarios.fresh Scenarios.ng_with_video).
  - reflexivity.
  - reflexivity.
Defined.

Lemma missing_key_after_record_witness :
  ∃ p s' evs,
    AIControlSystem.artifact Scenarios.saved_without_status = Some p
    ∧ AIControlSystem.process_task_analysis
        (Scenarios.world_of Scenarios.saved_without_status
           (AIControlSystem.Response 200 ""))
        (Scenarios.start "CASE") Scenarios.fresh =
        (Ok (AIControlSystem.error_result "CASE"
               (AIControlSystem.KeyError "status")), s')
    ∧ AIControlSystem.trace s' = AIControlSystem.trace Scenarios.fresh ++ evs
    ∧ AIControlSystem.uploads evs = []
    ∧ (p ∈ ({["out/case.mp4"]} : gset string) →
       is_Some
         (FileTracker.data (AIControlSystem.file_tracker Scenarios.fresh)
            !! "CASE") →
       FileTracker.history (AIControlSystem.file_tracker s') "CASE" =
         take FileTracker.MAX_TRACKED_FILES
           (FileTracker.FileInfo p (basename p) "2025-01-01 00:00:00"
              "UNKNOWN" "CASE" (DStr "Q002")
            :: FileTracker.history
                 (AIControlSystem.file_tracker Scenarios.fresh) "CASE"))
    ∧ (p ∉ ({["out/case.mp4"]} : gset string)
       ∨ FileTracker.data (AIControlSystem.file_tracker Scenarios.fresh)
           !! "CASE" = None →
       AIControlSystem.file_tracker s' =
         AIControlSystem.file_tracker Scenarios.fresh).
Proof.
  apply (missing_key_after_record
           (Scenarios.world_of Scenarios.saved_without_status
              (AIControlSystem.Response 200 ""))
           (Scenarios.start "CASE") Scenarios.fresh
           Scenarios.saved_without_status "status").
  - reflexivity.
  - reflexivity.
Defined.

(** The record is in the ledger although the result is ERROR. *)
Example record_kept_after_key_error :
  FileTracker.path <$>
    FileTracker.history
      (AIControlSystem.file_tracker
         (AIControlSystem.process_task_analysis
            (Scenarios.world_of Scenarios.saved_without_status
               (AIControlSystem.Response 200 ""))
            (Scenarios.start "CASE") Scenarios.fresh).2) "CASE"
  = ["out/case.mp4"].
Proof. vm_compute. reflexivity. Qed.

(** ** The worker loop, continued *)

Section worker_more.
Import AIControlSystem.

Lemma NAME_result_of w req s : NAME (result_of w req s) = task_name_of req.
Proof.
  unfold result_of. destruct (outcome w req s) as [ar|e]; [|done].
  by destruct (key_error ar).
Qed.

(** One turn: the lock and the flag are back, the order file is as it was,
    and one result, that of the request, went to the sink. *)
Lemma worker_turn_delivers w req s :
  global_task_lock s = false →
  ∃ s',
    global_task_worker_turn w req s = Some (Ok (), s')
    ∧ global_task_lock s' = false
    ∧ is_processing s' = false
    ∧ order_file s' = order_file s
    ∧ delivered (trace s') = delivered (trace s) ++ [task_name_of req].
Proof.
  intros L. destruct (worker_turn w req s L) as (res & s1 & P & T).
  destruct (process_task_analysis_full w req
              (set_is_processing true (set_global_task_lock true s)))
    as (evs & P' & _ & D).
  rewrite P' in P. injection P as <- <-.
  eexists. split; [exact T|].
  unfold after_delivery. destruct (delivery_failure w) as [e|]; simpl;
    repeat (split; [done|]);
    rewrite !delivered_app, D, app_nil_r; simpl;
    by rewrite NAME_result_of.
Qed.

(** X14. On a queue of requests whose START is a string, or absent, the
    worker loop serves every request, in order, whatever the analyzers and
    the sink do: no exception ends the loop, each request gets one delivery
    attempt to the sink, in the order of the queue, and after the last one
    the lock is free and the processing flag is down; the loop never writes
    the order file. *)
Theorem worker_serves_in_order (queue : list (world * task_request))
    (s : system) :
  global_task_lock s = false →
  is_processing s = false →
  ∃ s',
    global_task_worker queue s = Some (Ok (), s')
    ∧ global_task_lock s' = false
    ∧ is_processing s' = false
    ∧ order_file s' = order_file s
    ∧ delivered (trace s') =
        delivered (trace s) ++ ((λ item, task_name_of item.2) <$> queue).
Proof.
  revert s. induction queue as [|[w req] queue IH]; intros s L F.
  - exists s. simpl. by rewrite app_nil_r.
  - destruct (worker_turn_delivers w req s L) as (s1 & T & L1 & F1 & O1 & D1).
    destruct (IH s1 L1 F1) as (s' & G & L' & F' & O' & D').
    exists s'. simpl. rewrite T. split; [done|].
    repeat (split; [congruence|]). rewrite D', D1, <-app_assoc. done.
Qed.
End worker_more.

Lemma worker_serves_in_order_witness :
  ∃ s',
    AIControlSystem.global_task_worker Scenarios.three_requests
      Scenarios.fresh = Some (Ok (), s')
    ∧ AIControlSystem.global_task_lock s' = false
    ∧ AIControlSystem.is_processing s' = false
    ∧ AIControlSystem.order_file s' = AIControlSystem.order_file Scenarios.fresh
    ∧ AIControlSystem.delivered (AIControlSystem.trace s') =
        AIControlSystem.delivered (AIControlSystem.trace Scenarios.fresh)
        ++ ((λ item, AIControlSystem.task_name_of item.2)
              <$> Scenarios.three_requests).
Proof.
  apply (worker_serves_in_order Scenarios.three_requests Scenarios.fresh).
  - reflexivity.
  - reflexivity.
Defined.

(** The queue of the scenario: a passing CASE, a BOX whose analyzer raises
    while the sink is down, an unknown SHIP. *)
Example three_requests_delivered :
  AIControlSystem.delivered
    (AIControlSystem.trace
       (default (Ok (), Scenarios.fresh)
          (AIControlSystem.global_task_worker Scenarios.three_requests
             Scenarios.fresh)).2)
  = ["CASE"; "BOX"; "SHIP"].
Proof. vm_compute. reflexivity. Qed.

(** ** Threads, continued *)

Section threads_more.
Import Dispatcher.

Lemma step_fifo a s s' o :
  step a s = Some (s', o) →
  queue s ++ puts [a] = got a s ++ queue s'.
Proof.
  intros St. destruct a as [r|w]; simpl in *.
  { by injection St as <- <-. }
  rewrite app_nil_r.
  destruct (workers s !! w) as [[|r|r|r|r|r]|]; try done.
  - destruct (queue s) as [|r rest]; [done|]. by injection St as <- <-.
  - destruct (lock s); [done|]. injection St as <- <-.
    by destruct (queue s).
  - injection St as <- <-. by destruct (queue s).
  - injection St as <- <-. by destruct (queue s).
  - injection St as <- <-. by destruct (queue s).
  - injection St as <- <-. by destruct (queue s).
Qed.

Lemma puts_cons a acts : puts (a :: acts) = puts [a] ++ puts acts.
Proof. by destruct a. Qed.

Lemma run_fifo acts s s' tr :
  run acts s = Some (s', tr) →
  queue s ++ puts acts = gets acts s ++ queue s'.
Proof.
  revert s tr. induction acts as [|a acts IH]; intros s tr R.
  - injection R as <- <-. simpl. by rewrite app_nil_r.
  - rewrite puts_cons. cbn [run gets] in *.
    destruct (step a s) as [[s1 o]|] eqn:St; [|done].
    destruct (run acts s1) as [[s2 os]|] eqn:R1; [|done].
    injection R as <- <-.
    rewrite app_assoc, (step_fifo _ _ _ _ St), <-!app_assoc.
    f_equal. by eapply IH.
Qed.

(** X15. The queue is first in, first out, and loses nothing: along every
    schedule, the requests the worker threads took from the queue followed
    by those still waiting are the requests the producers put, in the order
    they were put. *)
Theorem queue_is_fifo (n : nat) (acts : list action) (s : state)
    (tr : list obs) :
  run acts (init n) = Some (s, tr) →
  puts acts = gets acts (init n) ++ queue s.
Proof. intros R. by apply run_fifo in R. Qed.

Lemma lock_owned_init n : lock_owned n (init n).
Proof.
  split; [exists None; apply invariant_init|].
  split; [done|]. simpl. by rewrite length_replicate.
Qed.

Lemma step_lock_owned n a s s' o :
  step a s = Some (s', o) → lock_owned n s → lock_owned n s'.
Proof.
  intros St ([current I] & Own & Len).
  split.
  { destruct (step_invariant _ _ _ _ _ St I) as (current' & I' & _). eauto. }
  destruct a as [r|w]; simpl in St.
  { by injection St as <- <-. }
  destruct (workers s !! w) as [p|] eqn:W; [|done].
  assert (∀ p', length (set_pc w p' s) = n) as Len'
    by (intros p'; unfold set_pc; by rewrite length_insert).
  assert (∀ p', holds_lock p = false → lock s = true →
            ∃ w' q, set_pc w p' s !! w' = Some q ∧ holds_lock q = true)
    as Keep.
  { intros p' Hp Lk. destruct (Own Lk) as (h & q & Hh & Hq).
    exists h, q. split; [|done]. rewrite lookup_set_pc_other; [done|].
    intros ->. rewrite W in Hh. injection Hh as <-. congruence. }
  destruct p as [|r|r|r|r|r].
  - destruct (queue s) as [|r rest]; [done|]. injection St as <- <-.
    split; [|by apply Len']. simpl. by apply Keep.
  - destruct (lock s) eqn:Lk; [done|]. injection St as <- <-.
    split; [|by apply Len']. simpl. intros _.
    exists w, (InLock r). split; [by eapply lookup_set_pc_same|done].
  - injection St as <- <-. split; [|by apply Len']. simpl. intros _.
    exists w, (InAnalysis r). split; [by eapply lookup_set_pc_same|done].
  - injection St as <- <-. split; [|by apply Len']. simpl. intros _.
    exists w, (AfterAnalysis r). split; [by eapply lookup_set_pc_same|done].
  - injection St as <- <-. split; [|by apply Len']. simpl. done.
  - injection St as <- <-. split; [|by apply Len']. simpl. by apply Keep.
Qed.

Lemma run_lock_owned n acts s s' tr :
  run acts s = Some (s', tr) → lock_owned n s → lock_owned n s'.
Proof.
  revert s tr. induction acts as [|a acts IH]; intros s tr R I.
  - by injection R as <- <-.
  - simpl in R. destruct (step a s) as [[s1 o]|] eqn:St; [|done].
    destruct (run acts s1) as [[s2 os]|] eqn:R1; [|done].
    injection R as <- <-. eapply IH; [done|]. by eapply step_lock_owned.
Qed.

(** A thread past the [with] can always take its next step. *)
Lemma holder_steps s w p :
  workers s !! w = Some p → holds_lock p = true →
  is_Some (step (Run w) s).
Proof. intros W H. simpl. rewrite W. by destruct p. Qed.

(** X16. With requests whose START is a string, or absent, the lock is
    never lost and the threads never deadlock: in every state a schedule
    reaches, the lock is held exactly when some thread is inside the [with]
    block, and some worker thread can take a step unless every worker waits
    at [get] on an empty queue. *)
Theorem no_deadlock (n : nat) (acts : list action) (s : state)
    (tr : list obs) :
  run acts (init n) = Some (s, tr) →
  (lock s = true ↔ ∃ w p, workers s !! w = Some p ∧ holds_lock p = true)
  ∧ ((∃ w p, workers s !! w = Some p ∧ at_get p = false) →
     ∃ w, is_Some (step (Run w) s))
  ∧ (queue s ≠ [] → (0 < n)%nat → ∃ w, is_Some (step (Run w) s)).
Proof.
  intros R.
  destruct (run_lock_owned n _ _ _ _ R (lock_owned_init n))
    as ([current [Held One Cur]] & Own & Len).
  assert ((∃ w p, workers s !! w = Some p ∧ at_get p = false) →
          ∃ w, is_Some (step (Run w) s)) as Busy.
  { intros (w & p & W & G).
    destruct (holds_lock p) eqn:H; [exists w; by eapply holder_steps|].
    destruct p as [|r|r|r|r|r]; try done.
    - destruct (lock s) eqn:Lk.
      + destruct (Own eq_refl) as (h & q & Hh & Hq).
        exists h. by eapply holder_steps.
      + exists w. simpl. by rewrite W, Lk.
    - exists w. simpl. by rewrite W. }
  split; [split; [done|]; intros (w & p & W & H); eauto|].
  split; [done|].
  intros Q N.
  destruct (lookup_lt_is_Some_2 (workers s) 0) as [p W]; [lia|].
  destruct (at_get p) eqn:G; [|eauto].
  exists 0%nat. simpl. rewrite W. destruct p; try done.
  by destruct (queue s).
Qed.
End threads_more.

Lemma queue_is_fifo_witness :
  Dispatcher.puts Scenarios.two_workers_schedule
  = Dispatcher.gets Scenarios.two_workers_schedule (Dispatcher.init 2)
    ++ Dispatcher.queue (Dispatcher.State [] false
                           [Dispatcher.AtGet; Dispatcher.AtGet]).
Proof.
  apply (queue_is_fifo 2 Scenarios.two_workers_schedule
           (Dispatcher.State [] false [Dispatcher.AtGet; Dispatcher.AtGet])
           [Dispatcher.Started 0; Dispatcher.Finished 0;
            Dispatcher.Started 1; Dispatcher.Finished 1]).
  vm_compute. reflexivity.
Defined.

Lemma no_deadlock_witness :
  (Dispatcher.lock Scenarios.contended = true ↔
   ∃ w p, Dispatcher.workers Scenarios.contended !! w = Some p
          ∧ Dispatcher.holds_lock p = true)
  ∧ ((∃ w p, Dispatcher.workers Scenarios.contended !! w = Some p
             ∧ Dispatcher.at_get p = false) →
     ∃ w, is_Some (Dispatcher.step (Dispatcher.Run w) Scenarios.contended))
  ∧ (Dispatcher.queue Scenarios.contended ≠ [] → (0 < 2)%nat →
     ∃ w, is_Some (Dispatcher.step (Dispatcher.Run w) Scenarios.contended)).
Proof.
  apply (no_deadlock 2 Scenarios.contending_schedule Scenarios.contended
           [Dispatcher.Started 0]).
  vm_compute. reflexivity.
Defined.


(** ** The analysis methods *)

Section analyzers.
Import AIControlSystem Analyzers.

Lemma gt_lt a b : gt a b = true ↔ (b < a)%Q.
Proof.
  unfold gt. rewrite negb_true_iff, <-not_true_iff_false, Qle_bool_iff.
  split; [apply Qnot_le_lt|apply Qlt_not_le].
Qed.

(** X17. The dominant colour is the channel whose average is strictly above
    the two others; when no channel is, so also on every tie for the
    largest, the answer is "no_color". *)
Theorem dominant_color_strict (blue_avg green_avg red_avg : Q) :
  (_detect_dominant_color blue_avg green_avg red_avg = "green"
   ↔ (red_avg < green_avg)%Q ∧ (blue_avg < green_avg)%Q)
  ∧ (_detect_dominant_color blue_avg green_avg red_avg = "red"
     ↔ (green_avg < red_avg)%Q ∧ (blue_avg < red_avg)%Q)
  ∧ (_detect_dominant_color blue_avg green_avg red_avg = "blue"
     ↔ (red_avg < blue_avg)%Q ∧ (green_avg < blue_avg)%Q)
  ∧ (_detect_dominant_color blue_avg green_avg red_avg = "no_color"
     ↔ ¬ ((red_avg < green_avg)%Q ∧ (blue_avg < green_avg)%Q)
       ∧ ¬ ((green_avg < red_avg)%Q ∧ (blue_avg < red_avg)%Q)
       ∧ ¬ ((red_avg < blue_avg)%Q ∧ (green_avg < blue_avg)%Q)).
Proof.
  unfold _detect_dominant_color.
  rewrite <-!gt_lt.
  destruct (gt green_avg red_avg) eqn:GR, (gt green_avg blue_avg) eqn:GB,
    (gt red_avg green_avg) eqn:RG, (gt red_avg blue_avg) eqn:RB,
    (gt blue_avg red_avg) eqn:BR, (gt blue_avg green_avg) eqn:BG;
    simpl;
    try (apply gt_lt in GR; apply gt_lt in RG;
         exfalso; by eapply Qlt_irrefl, Qlt_trans);
    try (apply gt_lt in GB; apply gt_lt in BG;
         exfalso; by eapply Qlt_irrefl, Qlt_trans);
    try (apply gt_lt in RB; apply gt_lt in BR;
         exfalso; by eapply Qlt_irrefl, Qlt_trans);
    repeat split; try done; try (intros [? ?]; done); try tauto;
    intros (H1 & H2 & H3); tauto.
Qed.

Lemma box_maps_lookup box_type :
  (ocr_text_map !! box_type, color_map !! box_type) =
    if bool_decide (box_type = "BIG BOX") then (Some "대형", Some "red")
    else if bool_decide (box_type = "MIDDLE BOX")
         then (Some "중형", Some "blue")
         else (None, None).
Proof.
  unfold ocr_text_map, color_map.
  repeat case_bool_decide; subst; try done.
  by rewrite !lookup_insert_ne, !lookup_singleton_ne.
Qed.

Local Arguments item_nm : simpl never.
Local Arguments _detect_dominant_color : simpl never.

Local Ltac box_ng :=
  simpl; split; [by right|]; split; [done|];
  intros (_ & ? & ? & ? & ? & ? & ? & ? & ? & ? & ? & ? & Hc);
  simplify_eq;
  try (destruct Hc as [(? & ? & ?)|(? & ? & ?)]; simplify_eq);
  congruence.

(** X18. The box check: the method raises only when the camera opened and
    the order file cannot be parsed; otherwise it returns status OK or NG,
    and OK exactly when a frame was read and saved, the QR code was decoded,
    the second BOM item is named BIG BOX or MIDDLE BOX, the QR text equals
    that name up to case, the OCR text is the Korean word for the size and
    the dominant colour is the colour of the size (red for BIG BOX, blue
    for MIDDLE BOX). *)
Theorem box_ok_exactly (lower : string → string) (f : disk_file order)
    (scene : box_scene) :
  match box_task_analysis lower f scene with
  | Raise _ =>
      box_camera_opened scene = true ∧ (f = EmptyFile ∨ f = BadJson)
  | Ok ar =>
      (ar_status ar = Some "OK" ∨ ar_status ar = Some "NG")
      ∧ (ar_status ar = Some "OK" ↔
         box_camera_opened scene = true
         ∧ ∃ d frame path qr_text box_type,
             f = Stored d
             ∧ box_read scene = Ok (Some frame)
             ∧ bf_saved_frame_path frame = Ok path
             ∧ bf_qr_text frame = Ok (Some qr_text)
             ∧ item_nm (Some d) 1 = Some (JStr box_type)
             ∧ lower qr_text = lower box_type
             ∧ ((box_type = "BIG BOX"
                 ∧ bf_ocr_text frame = Some "대형"
                 ∧ _detect_dominant_color (bf_blue_avg frame)
                     (bf_green_avg frame) (bf_red_avg frame) = "red")
                ∨ (box_type = "MIDDLE BOX"
                   ∧ bf_ocr_text frame = Some "중형"
                   ∧ _detect_dominant_color (bf_blue_avg frame)
                       (bf_green_avg frame) (bf_red_avg frame) = "blue")))
  end.
Proof.
  unfold box_task_analysis, _init_camera.
  destruct (box_camera_opened scene) eqn:C.
  2:{ simpl. split; [by right|]. split; [done|]. by intros [? _]. }
  destruct f as [| | |d]; [| by eauto | by eauto |].
  { destruct (box_read scene) as [[frame|]|e]; [|box_ng..].
    destruct (bf_saved_frame_path frame) as [path|e]; [|box_ng].
    destruct (bf_qr_text frame) as [qr|e]; box_ng. }
  destruct (box_read scene) as [[frame|]|e] eqn:R; [|box_ng..].
  destruct (bf_saved_frame_path frame) as [path|e] eqn:S; [|box_ng].
  destruct (bf_qr_text frame) as [qr|e] eqn:QR; [|box_ng].
  cbn zeta.
  destruct (item_nm (Some d) 1) as [box_type|] eqn:I; [|box_ng].
  unfold py_str_eq.
  case_bool_decide as NC; [box_ng|].
  destruct qr as [qr|]; [|destruct box_type; box_ng].
  destruct box_type as [| | |bt| |]; try box_ng.
  case_bool_decide as L; [|box_ng].
  pose proof (box_maps_lookup bt) as M.
  destruct (ocr_text_map !! bt) as [expected|] eqn:OM,
           (color_map !! bt) as [expected_color|] eqn:CM;
    repeat case_bool_decide; simplify_eq; try box_ng.
  - simpl. split; [by left|]. split; [|done]. intros _. split; [done|].
    exists d, frame, path, qr, "BIG BOX". repeat (split; [done|]). by left.
  - simpl. split; [by left|]. split; [|done]. intros _. split; [done|].
    exists d, frame, path, qr, "MIDDLE BOX". repeat (split; [done|]).
    by right.
Qed.

Local Ltac fold_stopped :=
  simpl; split; [by left|]; split;
  (split;
   [first [ done | by intros (? & [= <-] & ?) | by intros (? & [=] & _) ]
   |intros (? & ? & ? & ? & ? & ? & ? & ? & ? & _); simplify_eq; congruence]).

(** X19. The folding check answers OK exactly when the camera opened, the
    order file could be read or is absent, the model loaded, a frame was read
    and saved, and the first detected box has class OK with a readable
    confidence. The value it leaves for the final check is "NG" exactly when
    the inference ran and found no box or a box of another class, and is
    None in every other case: also after the answer OK. *)
Theorem folding_verdict_and_value (f : disk_file order)
    (scene : folding_scene) :
  let ran (P : detection → Prop) :=
    fold_camera_opened scene = true
    ∧ f ≠ EmptyFile ∧ f ≠ BadJson
    ∧ fold_model scene = Ok true
    ∧ ∃ frame path d,
        fold_read scene = Ok (Some frame)
        ∧ ff_saved_frame_path frame = Ok path
        ∧ ff_inference frame = Ok d ∧ P d in
  let r := (folding_task_analysis f scene).1 in
  let v := (folding_task_analysis f scene).2 in
  (v = None ∨ v = Some "NG")
  ∧ (v = Some "NG" ↔
     ran (λ d, d = NoBoxes ∨ ∃ c conf, d = Box c conf ∧ c ≠ "OK"))
  ∧ ((∃ ar, r = Ok ar ∧ ar_status ar = Some "OK") ↔
     ran (λ d, ∃ conf, d = Box "OK" (Ok conf))).
Proof.
  cbv zeta. unfold folding_task_analysis, _init_camera.
  destruct (fold_camera_opened scene) eqn:C; [|fold_stopped].
  destruct f as [| | |d]; [|fold_stopped..|];
    (destruct (fold_model scene) as [[]|]; [|fold_stopped..];
     destruct (fold_read scene) as [[frame|]|]; [|fold_stopped..];
     destruct (ff_saved_frame_path frame) as [path|] eqn:S; [|fold_stopped];
     destruct (ff_inference frame) as [[|c conf]|] eqn:I;
     unfold py_str_eq; try case_bool_decide; try destruct conf as [conf|];
     simpl; (split; [by (left + right)|]); split; split;
     try (by intros (? & [= <-] & ?)); try done;
     try (intros (_ & _ & _ & _ & ? & ? & d' & [= <-] & ? & I' & H');
          rewrite I in I'; try discriminate I'; injection I' as <-;
          first [ destruct H' as [?|(? & ? & ? & ?)]; simplify_eq; congruence
                | destruct H' as (? & ?); simplify_eq; congruence ]);
     try subst c; try (by eauto);
     intros _; do 4 (split; [done|]); eexists _, _, _;
     do 3 (split; [done|]); by eauto).
Qed.

(** X20. The final check raises only when the camera opened and the order
    file cannot be parsed. Otherwise it answers OK or NG, with a saved file
    exactly when a frame was read and saved, and OK exactly when in addition
    the folding check left a value. *)
Theorem final_check_verdict (folding_value : option string)
    (f : disk_file order) (scene : final_scene) :
  match final_check_task_analysis folding_value f scene with
  | Raise _ =>
      final_camera_opened scene = true ∧ (f = EmptyFile ∨ f = BadJson)
  | Ok ar =>
      (ar_status ar = Some "OK" ∨ ar_status ar = Some "NG")
      ∧ (∀ path, ar_saved_file_path ar = Some path ↔
           final_camera_opened scene = true
           ∧ final_read scene = Ok (Some (Ok path)))
      ∧ (ar_status ar = Some "OK" ↔
           is_Some (ar_saved_file_path ar) ∧ is_Some folding_value)
  end.
Proof.
  unfold final_check_task_analysis, _init_camera.
  destruct (final_camera_opened scene) eqn:C.
  2:{ simpl. split; [by right|]. split.
      - intros path. split; [done|by intros [? _]].
      - split; [done|by intros [[] _]]. }
  destruct f; [|by eauto..|];
    (destruct (final_read scene) as [[[path|e]|]|e];
       [destruct folding_value|..]; simpl;
     (split; [by (left + right)|]);
     (split; [intros path'; split;
                [by (intros [= <-] || intros [=])
                |by (intros [_ [= <-]] || intros [_ [=]])]
             |split; [by eauto|]]);
     try (by intros [[] _]); try (by intros [_ []])).
Qed.

(** X21. A final check that answers OK was preceded by a folding check that
    answered NG with a saved frame: the folding check leaves a value only
    when its inference found no box or a box of a class other than OK. *)
Theorem final_ok_after_folding_ng (f f' : disk_file order)
    (folding : folding_scene) (robot : final_scene) (ar : analysis_result) :
  final_check_task_analysis (folding_task_analysis f folding).2 f' robot
    = Ok ar →
  ar_status ar = Some "OK" →
  ∃ folded,
    (folding_task_analysis f folding).1 = Ok folded
    ∧ ar_status folded = Some "NG"
    ∧ is_Some (ar_saved_file_path folded).
Proof.
  unfold final_check_task_analysis.
  destruct (_init_camera (final_camera_opened robot) f') as [[|o]|];
    [by intros [= <-]| |done].
  destruct (final_read robot) as [[[path|e]|]|e];
    try (by intros [= <-]).
  destruct (folding_task_analysis f folding).2 as [v|] eqn:V;
    [|by intros [= <-]].
  intros _ _. revert V. unfold folding_task_analysis.
  destruct (_init_camera (fold_camera_opened folding) f) as [[|o']|];
    [done| |done].
  destruct (fold_model folding) as [[]|]; [|done..].
  destruct (fold_read folding) as [[frame|]|]; [|done..].
  destruct (ff_saved_frame_path frame) as [p|]; [|done].
  destruct (ff_inference frame) as [[|c [conf|]]|]; unfold py_str_eq;
    try case_bool_decide; try done; simpl; intros _; by eauto.
Qed.

(** X22. Every result the box, folding and final checks return carries a
    status, a confidence and the details, so task processing finds each key
    it subscripts in it. *)
Theorem checks_return_complete_results (lower : string → string)
    (folding_value : option string) (f : disk_file order)
    (box : box_scene) (folding : folding_scene) (robot : final_scene)
    (ar : analysis_result) :
  box_task_analysis lower f box = Ok ar
  ∨ (folding_task_analysis f folding).1 = Ok ar
  ∨ final_check_task_analysis folding_value f robot = Ok ar →
  is_Some (ar_status ar) ∧ is_Some (ar_confidence ar)
  ∧ is_Some (ar_details ar) ∧ key_error ar = None.
Proof.
  assert (∀ st c d p,
    let ar := verdict st c d p in
    (st = "OK" ∨ st = "NG") →
    is_Some (ar_status ar) ∧ is_Some (ar_confidence ar)
    ∧ is_Some (ar_details ar) ∧ key_error ar = None) as V.
  { intros st c d p ar' [-> | ->]; (repeat split; [by eauto..|]);
      unfold key_error; simpl; by destruct p as [p|]; [destruct (truthy p)|]. }
  intros [H|[H|H]]; revert H.
  - unfold box_task_analysis.
    destruct (_init_camera (box_camera_opened box) f) as [[|o]|]; [| |done].
    { by intros [= <-]; apply (V "NG" "0%" "Q014" None); right. }
    destruct (box_read box) as [[frame|]|];
      [|by intros [= <-]; apply (V "NG" "0%" "Q014" None); right..].
    destruct (bf_saved_frame_path frame) as [path|];
      [|by intros [= <-]; apply (V "NG" "0%" "Q014" None); right].
    destruct (bf_qr_text frame) as [qr|]; cbn zeta;
      [|by intros [= <-]; apply V; right].
    destruct (item_nm o 1) as [bt|]; [|by intros [= <-]; apply V; right].
    destruct (py_str_eq _ "no_color"); [by intros [= <-]; apply V; right|].
    destruct qr as [qr|], bt as [| | |bt| |];
      try (by intros [= <-]; apply V; right).
    destruct (negb (py_str_eq (lower qr) (lower bt)));
      [by intros [= <-]; apply V; right|].
    destruct (ocr_text_map !! bt); [|by intros [= <-]; apply V; right].
    destruct (negb (bool_decide _)); [by intros [= <-]; apply V; right|].
    destruct (color_map !! bt); [|by intros [= <-]; apply V; right].
    destruct (negb (py_str_eq _ _)); intros [= <-]; apply V; by eauto.
  - unfold folding_task_analysis.
    destruct (_init_camera (fold_camera_opened folding) f) as [[|o]|];
      [| |done].
    { by intros [= <-]; apply (V "NG" "0%" "Q034" None); right. }
    destruct (fold_model folding) as [[]|];
      [|by intros [= <-]; apply (V "NG" "0%" "Q034" None); right..].
    destruct (fold_read folding) as [[frame|]|];
      [|by intros [= <-]; apply (V "NG" "0%" "Q034" None); right..].
    destruct (ff_saved_frame_path frame) as [path|];
      [|by intros [= <-]; apply (V "NG" "0%" "Q034" None); right].
    destruct (ff_inference frame) as [[|c [conf|]]|];
      try destruct (py_str_eq c "OK"); intros [= <-]; apply V; by eauto.
  - unfold final_check_task_analysis.
    destruct (_init_camera (final_camera_opened robot) f) as [[|o]|];
      [| |done].
    { by intros [= <-]; apply V; right. }
    destruct (final_read robot) as [[[path|e]|]|e];
      [destruct folding_value|..]; intros [= <-]; apply V; by eauto.
Qed.
End analyzers.

Lemma final_ok_after_folding_ng_witness :
  ∃ folded,
    (Analyzers.folding_task_analysis (Stored Scenarios.order_with_bom)
       Scenarios.folding_no_box).1 = Ok folded
    ∧ AIControlSystem.ar_status folded = Some "NG"
    ∧ is_Some (AIControlSystem.ar_saved_file_path folded).
Proof.
  apply (final_ok_after_folding_ng (Stored Scenarios.order_with_bom) Absent
           Scenarios.folding_no_box Scenarios.robot_ready
           (Analyzers.verdict "OK" "96%" "OK" (Some "out/final.jpg"))).
  - reflexivity.
  - reflexivity.
Defined.

Lemma checks_return_complete_results_witness :
  let ar := Analyzers.verdict "OK" "95%" "OK" (Some "out/box.jpg") in
  is_Some (AIControlSystem.ar_status ar)
  ∧ is_Some (AIControlSystem.ar_confidence ar)
  ∧ is_Some (AIControlSystem.ar_details ar)
  ∧ AIControlSystem.key_error ar = None.
Proof.
  apply (checks_return_complete_results Scenarios.lower None
           (Stored Scenarios.order_with_bom) Scenarios.big_box
           Scenarios.folding_no_box Scenarios.robot_ready).
  left. vm_compute. reflexivity.
Defined.

(** ** The checks inside task processing *)

Section checks_in_processing.
Import AIControlSystem Analyzers.
Context (lower : string → string) (box : box_scene) (folding : folding_scene)
  (robot : final_scene) (folding_value : option string)
  (case cover : analysis_method).

Lemma outcome_methods w req s :
  analyzer w =
    methods lower (order_file s) box folding robot folding_value case cover →
  outcome w req s =
    if py_str_eq (task_name_of req) "BOX"
    then box_task_analysis lower (order_file s) box
    else if py_str_eq (task_name_of req) "FORDING"
    then (folding_task_analysis (order_file s) folding).1
    else if py_str_eq (task_name_of req) "FINAL"
    then final_check_task_analysis folding_value (order_file s) robot
    else outcome w req s.
Proof.
  intros A. unfold py_str_eq.
  repeat case_bool_decide; try done;
    unfold outcome;
    match goal with E : task_name_of req = _ |- _ => rewrite E end;
    destruct w; simpl in *; by subst.
Qed.

(** X23. An order file that does not parse fails the box, folding and final
    checks: the core reads such a file as the empty order, but the check
    raises once its camera has opened, so the request ends in ERROR with
    order number "UNKNOWN", the type goes to RUNNING and then to ERROR, and
    nothing is recorded or uploaded. *)
Theorem unreadable_order_file_fails_checks (w : world) (req : task_request)
    (s : system) :
  analyzer w =
    methods lower (order_file s) box folding robot folding_value case cover →
  order_file s = EmptyFile ∨ order_file s = BadJson →
  camera_of box folding robot (task_name_of req) = Some true →
  (get_current_order_data s).1 = Ok ∅
  ∧ ∃ e s' evs,
      process_task_analysis w req s =
        (Ok {| NAME := task_name_of req;
               RESULT := "ERROR";
               ORDER_NO := JStr "UNKNOWN";
               CONFIDENCE := "0%";
               DETAILS := DStr ("Error: " +:+ exn_str e) |}, s')
      ∧ trace s' = trace s ++ evs
      ∧ uploads evs = []
      ∧ file_tracker s' = file_tracker s
      ∧ task_statuses s' =
          update_statuses
            (update_statuses (task_statuses s) (task_name_of req) "RUNNING")
            (task_name_of req) "ERROR".
Proof.
  intros A F C.
  split.
  { unfold get_current_order_data. by destruct F as [-> | ->]. }
  assert (∃ e, outcome w req s = Raise e) as [e O].
  { rewrite (outcome_methods _ _ _ A). revert C. unfold camera_of.
    destruct (py_str_eq _ "BOX"); [|destruct (py_str_eq _ "FORDING");
      [|destruct (py_str_eq _ "FINAL"); [|done]]]; intros [= C].
    - unfold box_task_analysis, _init_camera. rewrite C.
      destruct F as [-> | ->]; by eauto.
    - unfold folding_task_analysis, _init_camera. rewrite C.
      destruct F as [-> | ->]; by eauto.
    - unfold final_check_task_analysis, _init_camera. rewrite C.
      destruct F as [-> | ->]; by eauto. }
  destruct (process_task_analysis_full w req s) as (evs & P & U & _).
  unfold result_of, tracker_of, statuses_of, result_of, uploads_of in *.
  rewrite O in *. exists e. eexists _, evs. split; [exact P|]. by simpl.
Qed.

(** X24. With an order file that parses, or none, a BOX, FORDING or FINAL
    request never ends in ERROR: the result carries the status, the
    confidence and the details the check returned, the status is OK or NG,
    and the type ends COMPLETED for OK and ERROR for NG. *)
Theorem checks_end_ok_or_ng (w : world) (req : task_request) (s : system) :
  analyzer w =
    methods lower (order_file s) box folding robot folding_value case cover →
  order_file s ≠ EmptyFile →
  order_file s ≠ BadJson →
  is_Some (camera_of box folding robot (task_name_of req)) →
  ∃ ar st s',
    outcome w req s = Ok ar
    ∧ ar_status ar = Some st
    ∧ (st = "OK" ∨ st = "NG")
    ∧ process_task_analysis w req s =
        (Ok {| NAME := task_name_of req;
               RESULT := st;
               ORDER_NO := get (order_data_of (order_file s) !! "ORDER_NO")
                             (JStr "UNKNOWN");
               CONFIDENCE := get (ar_confidence ar) "0%";
               DETAILS := get (ar_details ar) (DStr "No details available") |},
         s')
    ∧ task_statuses s' =
        update_statuses
          (update_statuses (task_statuses s) (task_name_of req) "RUNNING")
          (task_name_of req) (if py_str_eq st "OK" then "COMPLETED" else "ERROR").
Proof.
  intros A F1 F2 C.
  assert (∃ ar st, outcome w req s = Ok ar ∧ ar_status ar = Some st
                   ∧ (st = "OK" ∨ st = "NG") ∧ key_error ar = None)
    as (ar & st & O & S & V & K).
  { assert (∀ st c d p, st = "OK" ∨ st = "NG" →
      ∃ ar st', Ok (verdict st c d p) = Ok ar ∧ ar_status ar = Some st'
                ∧ (st' = "OK" ∨ st' = "NG") ∧ key_error ar = None) as V.
    { intros st c d p H. eexists _, st. split; [done|]. split; [done|].
      split; [done|]. unfold key_error. simpl.
      destruct p as [p|]; [|done]. destruct (truthy p); [|done].
      by destruct H as [-> | ->]. }
    rewrite (outcome_methods _ _ _ A). destruct C as [c C]. revert C.
    unfold camera_of.
    destruct (py_str_eq _ "BOX"); [|destruct (py_str_eq _ "FORDING");
      [|destruct (py_str_eq _ "FINAL"); [|done]]]; intros _.
    - unfold box_task_analysis, _init_camera.
      destruct (box_camera_opened box);
        [|by apply (V "NG" "0%" "Q014" None); right].
      destruct (order_file s) as [| | |d]; try done;
        (destruct (box_read box) as [[frame|]|];
           [|by apply (V "NG" "0%" "Q014" None); right..];
         destruct (bf_saved_frame_path frame) as [path|];
           [|by apply (V "NG" "0%" "Q014" None); right];
         destruct (bf_qr_text frame) as [qr|]; cbn zeta;
           [|by apply V; right]).
      + by apply V; right.
      + destruct (item_nm (Some d) 1) as [bt|]; [|by apply V; right].
        destruct (py_str_eq _ "no_color"); [by apply V; right|].
        destruct qr as [qr|], bt as [| | |bt| |]; try (by apply V; right).
        destruct (negb (py_str_eq (lower qr) (lower bt)));
          [by apply V; right|].
        destruct (ocr_text_map !! bt); [|by apply V; right].
        destruct (negb (bool_decide _)); [by apply V; right|].
        destruct (color_map !! bt); [|by apply V; right].
        destruct (negb (py_str_eq _ _)); apply V; by eauto.
    - unfold folding_task_analysis, _init_camera.
      destruct (fold_camera_opened folding);
        [|by apply (V "NG" "0%" "Q034" None); right].
      destruct (order_file s) as [| | |d]; try done;
        (destruct (fold_model folding) as [[]|];
           [|by apply (V "NG" "0%" "Q034" None); right..];
         destruct (fold_read folding) as [[frame|]|];
           [|by apply (V "NG" "0%" "Q034" None); right..];
         destruct (ff_saved_frame_path frame) as [path|];
           [|by apply (V "NG" "0%" "Q034" None); right];
         destruct (ff_inference frame) as [[|c' [conf|]]|];
           try destruct (py_str_eq c' "OK"); apply V; by eauto).
    - unfold final_check_task_analysis, _init_camera.
      destruct (final_camera_opened robot); [|by apply V; right].
      destruct (order_file s) as [| | |d]; try done;
        (destruct (final_read robot) as [[[path|e]|]|e];
           [destruct folding_value|..]; apply V; by eauto). }
  destruct (process_task_analysis_full w req s) as (evs & P & _).
  unfold result_of, statuses_of, result_of in P. rewrite O, K in P.
  exists ar, st. eexists. split; [done|]. split; [done|]. split; [done|].
  rewrite P. unfold build_result. rewrite S. simpl. split; [done|].
  by destruct V as [-> | ->].
Qed.

End checks_in_processing.

Lemma unreadable_order_file_fails_checks_witness :
  (AIControlSystem.get_current_order_data Scenarios.interrupted).1 = Ok ∅
  ∧ ∃ e s' evs,
      AIControlSystem.process_task_analysis (Scenarios.plant EmptyFile)
        (Scenarios.start "BOX") Scenarios.interrupted =
        (Ok {| AIControlSystem.NAME := "BOX";
               AIControlSystem.RESULT := "ERROR";
               AIControlSystem.ORDER_NO := JStr "UNKNOWN";
               AIControlSystem.CONFIDENCE := "0%";
               AIControlSystem.DETAILS :=
                 DStr ("Error: " +:+ exn_str e) |}, s')
      ∧ AIControlSystem.trace s' =
          AIControlSystem.trace Scenarios.interrupted ++ evs
      ∧ AIControlSystem.uploads evs = []
      ∧ AIControlSystem.file_tracker s' =
          AIControlSystem.file_tracker Scenarios.interrupted
      ∧ AIControlSystem.task_statuses s' =
          AIControlSystem.update_statuses
            (AIControlSystem.update_statuses
               (AIControlSystem.task_statuses Scenarios.interrupted)
               "BOX" "RUNNING")
            "BOX" "ERROR".
Proof.
  apply (unreadable_order_file_fails_checks Scenarios.lower Scenarios.big_box
           Scenarios.folding_no_box Scenarios.robot_ready None
           (λ _, Ok Scenarios.passed) (λ _, Ok Scenarios.passed)
           (Scenarios.plant EmptyFile) (Scenarios.start "BOX")
           Scenarios.interrupted).
  - reflexivity.
  - left. reflexivity.
  - reflexivity.
Defined.

Lemma checks_end_ok_or_ng_witness :
  ∃ ar st s',
    AIControlSystem.outcome (Scenarios.plant (Stored Scenarios.order_with_bom))
      (Scenarios.start "BOX") Scenarios.ordered = Ok ar
    ∧ AIControlSystem.ar_status ar = Some st
    ∧ (st = "OK" ∨ st = "NG")
    ∧ AIControlSystem.process_task_analysis
        (Scenarios.plant (Stored Scenarios.order_with_bom))
        (Scenarios.start "BOX") Scenarios.ordered =
        (Ok {| AIControlSystem.NAME := "BOX";
               AIControlSystem.RESULT := st;
               AIControlSystem.ORDER_NO :=
                 get (Scenarios.order_with_bom !! "ORDER_NO") (JStr "UNKNOWN");
               AIControlSystem.CONFIDENCE :=
                 get (AIControlSystem.ar_confidence ar) "0%";
               AIControlSystem.DETAILS :=
                 get (AIControlSystem.ar_details ar)
                   (DStr "No details available") |}, s')
    ∧ AIControlSystem.task_statuses s' =
        AIControlSystem.update_statuses
          (AIControlSystem.update_statuses
             (AIControlSystem.task_statuses Scenarios.ordered)
             "BOX" "RUNNING")
          "BOX"
          (if AIControlSystem.py_str_eq st "OK" then "COMPLETED"
           else "ERROR").
Proof.
  apply (checks_end_ok_or_ng Scenarios.lower Scenarios.big_box
           Scenarios.folding_no_box Scenarios.robot_ready None
           (λ _, Ok Scenarios.passed) (λ _, Ok Scenarios.passed)
           (Scenarios.plant (Stored Scenarios.order_with_bom))
           (Scenarios.start "BOX") Scenarios.ordered).
  - reflexivity.
  - discriminate.
  - discriminate.
  - exists true. reflexivity.
Defined.
